(** * The OneFormer custom COCO instance dataset mapper

    A shallow embedding of
    [datasets/custom_datasets/instance_coco_custom_dataset_mapper.py].

    Conventions of the embedding.
    - Python exceptions raised by the mapper's own statements are values of
      [exn]; a computation that may raise returns a [result].
    - Arrays (numpy arrays and torch tensors) carry their library, dtype,
      shape and row-major data.
    - Calls into pycocotools, OpenCV, detectron2 and the copy-paste
      augmentation are the methods of the class [Library]; they are assumed
      to return.  What the theorems need from them is stated as separate
      hypotheses, the classes [MaskLaws], [ImageLaws], [SizeLaws],
      [InstancesLaws] and [LabelLaws].
    - Dictionaries that the mapper mutates (the dataset record and its
      annotation dictionaries) live in a store, so that aliasing is visible.
      A library call is a function of the values it is given; where a
      library updates a dictionary it was handed ([check_image_size],
      [transform_instance_annotations]) it returns the new contents, which
      are written back to that dictionary.
    - Box coordinates and polygon coordinates are binary64 floats; array
      entries are integers tagged with the dtype of the array. *)

From Stdlib Require Import ZArith List Floats.PrimFloat Numbers.Cyclic.Int63.Uint63.
From stdpp Require Import base option list gmap strings pretty sorting.

Set Warnings "-register-all".
Open Scope string_scope.
Open Scope list_scope.

(** ** Exceptions and results *)

Inductive exn : Type :=
| KeyError (key : string)
| IndexError (what : string)
| ValueError (msg : string)
| TypeError (msg : string)
| UnboundLocalError (name : string)
| AttributeError (name : string)
| AssertionError (msg : string)
| RuntimeError (msg : string).

Inductive result (A : Type) : Type :=
| Ok (a : A)
| Raise (e : exn).
Arguments Ok {A} a.
Arguments Raise {A} e.

#[global] Instance result_ret : MRet result := fun A a => Ok a.
#[global] Instance result_bind : MBind result := fun A B k r =>
  match r with
  | Ok a => k a
  | Raise e => Raise e
  end.
#[global] Instance result_fmap : FMap result := fun A B f r =>
  match r with
  | Ok a => Ok (f a)
  | Raise e => Raise e
  end.

Fixpoint rmapM {A B} (f : A -> result B) (l : list A) : result (list B) :=
  match l with
  | [] => Ok []
  | x :: l' => y ← f x; ys ← rmapM f l'; Ok (y :: ys)
  end.

(** ** Arrays *)

Inductive dtype : Type := uint8 | bool_ | int64 | float64.
Inductive array_lib : Type := Numpy | Torch.

#[global] Instance dtype_eq_dec : EqDecision dtype.
Proof. solve_decision. Defined.
#[global] Instance array_lib_eq_dec : EqDecision array_lib.
Proof. solve_decision. Defined.

Record array : Type := mk_array {
  a_lib : array_lib;
  a_dtype : dtype;
  shape : list nat;
  data : list Z
}.

#[global] Instance array_eq_dec : EqDecision array.
Proof. solve_decision. Defined.

Definition ndim (a : array) : nat := length (shape a).

Definition numel (s : list nat) : nat := foldr Nat.mul 1 s.

(** [mask[..., None]] *)
Definition new_last_axis (a : array) : array :=
  mk_array (a_lib a) (a_dtype a) (shape a ++ [1]) (data a).

(** [torch.as_tensor(mask, dtype=torch.uint8)] *)
Definition as_tensor_uint8 (a : array) : array :=
  mk_array Torch uint8 (shape a) (map (fun z => z mod 256)%Z (data a)).

(** [torch.as_tensor(a)]: same dtype, same data. *)
Definition as_tensor (a : array) : array :=
  mk_array Torch (a_dtype a) (shape a) (data a).

Definition nonzero (z : Z) : bool := negb (z =? 0)%Z.

(** [mask.any(dim=2)]: reduction of the third axis by logical or.  With shape
    [d0; d1; d2] ++ rest the entry at [(o, k, r)] (o over d0*d1, r over the
    rest) sits at offset [(o * d2 + k) * R + r].  The result is of dtype bool,
    except for a uint8 tensor, whose reduction torch keeps in uint8. *)
Definition any_dim2 (a : array) : result array :=
  match shape a with
  | d0 :: d1 :: d2 :: rest =>
      let R := numel rest in
      Ok (mk_array (a_lib a)
            match a_dtype a with uint8 => uint8 | _ => bool_ end
            (d0 :: d1 :: rest)
            (flat_map (fun o =>
               map (fun r =>
                 if existsb (fun k => nonzero (nth ((o * d2 + k) * R + r) (data a) 0%Z))
                            (seq 0 d2)
                 then 1%Z else 0%Z)
                 (seq 0 R))
               (seq 0 (d0 * d1))))
  | _ => Raise (IndexError "Dimension out of range")
  end.

(** [torch.stack(masks, dim=0)] on a non-empty list. *)
Definition stack (masks : list array) : result array :=
  match masks with
  | [] => Raise (RuntimeError "stack expects a non-empty TensorList")
  | m :: ms =>
      if forallb (fun m' => bool_decide (shape m' = shape m)) ms
      then Ok (mk_array Torch (a_dtype m) (length masks :: shape m)
                 (flat_map data masks))
      else Raise (RuntimeError "stack expects each tensor to be equal size")
  end.

(** [np.expand_dims(a, axis=0)] *)
Definition expand_dims0 (a : array) : array :=
  mk_array Numpy (a_dtype a) (1 :: shape a) (data a).

(** [torch.zeros(shape, dtype=torch.uint8)] *)
Definition zeros_uint8 (s : list nat) : array :=
  mk_array Torch uint8 s (repeat 0%Z (numel s)).

(** [np.ones(shape)] *)
Definition ones (s : list nat) : array :=
  mk_array Numpy float64 s (repeat 1%Z (numel s)).

(** [a.astype(np.uint8)] *)
Definition astype_uint8 (a : array) : array :=
  mk_array (a_lib a) uint8 (shape a) (map (fun z => z mod 256)%Z (data a)).

(** [~ a.astype(bool)] *)
Definition invert_bool (a : array) : array :=
  mk_array (a_lib a) bool_ (shape a)
    (map (fun z => if nonzero z then 0%Z else 1%Z) (data a)).

(** [a.squeeze()]: drop the axes of extent one. *)
Definition squeeze (a : array) : array :=
  mk_array (a_lib a) (a_dtype a)
    (filter (fun d => d <> 1) (shape a)) (data a).

(** [t.cpu().numpy()] *)
Definition numpy (a : array) : array :=
  mk_array Numpy (a_dtype a) (shape a) (data a).

(** [image.transpose(2, 0, 1)]: H x W x C to C x H x W. *)
Definition transpose_201 (a : array) : result array :=
  match shape a with
  | [h; w; c] =>
      Ok (mk_array (a_lib a) (a_dtype a) [c; h; w]
            (flat_map (fun k =>
               flat_map (fun i =>
                 map (fun j => nth ((i * w + j) * c + k) (data a) 0%Z) (seq 0 w))
                 (seq 0 h))
               (seq 0 c)))
  | _ => Raise (ValueError "axes don't match array")
  end.

(** The [i]-th slice of an array along its first axis. *)
Definition slice0 (a : array) (i : nat) : option array :=
  match shape a with
  | d0 :: rest =>
      if decide (i < d0)
      then Some (mk_array (a_lib a) (a_dtype a) rest
                   (take (numel rest) (drop (i * numel rest) (data a))))
      else None
  | [] => None
  end.

(** ** Python values found in a dataset record *)

Inductive BoxMode : Type := XYXY_ABS | XYWH_ABS | XYXY_REL | XYWH_REL | XYWHA_ABS.

Inductive pyval : Type :=
| PyNone
| PyBool (b : bool)
| PyInt (z : Z)
| PyFloat (f : float)
| PyStr (s : string)
| PyList (l : list pyval)
| PyTuple (l : list pyval)
| PyDict (d : list (string * pyval))
| PyArray (a : array)
| PyBoxMode (m : BoxMode).

Definition is_float (p : pyval) : bool :=
  match p with PyFloat _ => true | _ => false end.

Definition is_list (p : pyval) : bool :=
  match p with PyList _ => true | _ => false end.

(** [str(type(v))], as the f-string of the ValueError prints it. *)
Definition type_repr (v : pyval) : string :=
  match v with
  | PyNone => "<class 'NoneType'>"
  | PyBool _ => "<class 'bool'>"
  | PyInt _ => "<class 'int'>"
  | PyFloat _ => "<class 'float'>"
  | PyStr _ => "<class 'str'>"
  | PyList _ => "<class 'list'>"
  | PyTuple _ => "<class 'tuple'>"
  | PyDict _ => "<class 'dict'>"
  | PyArray a =>
      match a_lib a with
      | Numpy => "<class 'numpy.ndarray'>"
      | Torch => "<class 'torch.Tensor'>"
      end
  | PyBoxMode _ => "<enum 'BoxMode'>"
  end.

(** [float(x)] of an integer pixel coordinate. *)
Definition float_of_Z (z : Z) : float :=
  match z with
  | Z0 => PrimFloat.of_uint63 0%uint63
  | Zpos _ => PrimFloat.of_uint63 (Uint63.of_Z z)
  | Zneg p => PrimFloat.opp (PrimFloat.of_uint63 (Uint63.of_Z (Zpos p)))
  end.

(** [a.tolist()]: nested lists following the shape, [leaf] making the Python
    scalar of an entry. *)
Fixpoint tolist_aux (leaf : Z -> pyval) (s : list nat) (d : list Z) : pyval :=
  match s with
  | [] => match d with
          | z :: _ => leaf z
          | [] => PyNone
          end
  | n :: s' =>
      PyList (map (fun i => tolist_aux leaf s' (take (numel s') (drop (i * numel s') d)))
                (seq 0 n))
  end.

Definition tolist (a : array) : pyval :=
  tolist_aux
    match a_dtype a with
    | float64 => fun z => PyFloat (float_of_Z z)
    | bool_ => fun z => PyBool (nonzero z)
    | _ => PyInt
    end (shape a) (data a).

(** Iterating over a Python value with [for x in v]. *)
Definition py_iter (v : pyval) : result (list pyval) :=
  match v with
  | PyList l | PyTuple l => Ok l
  | PyDict d => Ok (map (fun kv => PyStr (fst kv)) d)
  | PyArray a =>
      match shape a with
      | [] => Raise (TypeError "iteration over a 0-d array")
      | n :: _ =>
          Ok (omap (fun i => PyArray <$> slice0 a i) (seq 0 n))
      end
  | PyStr s => Ok (map (fun c => PyStr (String c EmptyString)) (String.list_ascii_of_string s))
  | _ => Raise (TypeError "object is not iterable")
  end.

(** ** The records of the host framework *)

Definition loc : Type := nat.

Inductive gt_masks_t : Type :=
| PolygonMasks (polygons : list pyval)
| MaskTensor (a : array).

Record Instances : Type := mk_Instances {
  image_size : nat * nat;
  gt_boxes : option array;
  gt_classes : option (list Z);
  gt_masks : option gt_masks_t
}.

(** The values stored under the keys of a dataset record.  The annotation
    dictionaries are objects of their own, referred to by location. *)
Inductive value : Type :=
| VPy (v : pyval)
| VAnnotations (annos : list loc)
| VInstances (i : Instances).

Inductive Augmentation : Type :=
| RandomFlip (horizontal vertical : bool)
| ResizeScale (min_scale max_scale : float) (target_height target_width : Z)
| FixedSizeCrop (crop_size : Z * Z).

(** ** The libraries the mapper calls

    [frPyObjects], [decode]: pycocotools.mask.  [cv2_resize], [findContours]:
    OpenCV; a contour is the sequence of its points, the rows of the
    N x 1 x 2 array OpenCV returns.  The rest: detectron2 and the
    copy-paste augmentation.  [bigcopypaste] takes the labels array as the
    list of its entries and returns boxes as sequences of floats and labels as
    integer arrays. *)
Class Library : Type := {
  rle : Type;
  frPyObjects : pyval -> nat -> nat -> rle;
  decode : rle -> array;
  cv2_resize : array -> nat * nat -> array;
  findContours : array -> list (list (Z * Z));
  read_image : value -> string -> array;
  check_image_size : gmap string value -> array -> gmap string value;
  bigcopypaste :
    array -> list array -> list pyval -> gmap string (list pyval) ->
    array * list array * list (list float) * gmap string (list Z);
  transforms : Type;
  apply_transform_gens : list Augmentation -> array -> array * transforms;
  apply_segmentation : transforms -> array -> array;
  transform_instance_annotations :
    gmap string pyval -> transforms -> list nat -> gmap string pyval;
  annotations_to_instances : list (gmap string pyval) -> list nat -> Instances;
  get_bounding_boxes : gt_masks_t -> array;
  filter_empty_instances : Instances -> Instances;
}.

(** ** Configuration and metadata *)

Record INPUT_cfg : Type := mk_INPUT {
  IMAGE_SIZE : Z;
  MIN_SCALE : float;
  MAX_SCALE : float;
  RANDOM_FLIP : string;
  FORMAT : string
}.

Record CfgNode : Type := mk_cfg { INPUT : INPUT_cfg }.

Record Metadata : Type := mk_meta {
  thing_dataset_id_to_contiguous_id : list (Z * Z);
  thing_classes : list string
}.

(** The attributes [__init__] sets on the mapper (the two tokenizers, which
    [__call__] does not use, are left out). *)
Record Mapper : Type := mk_mapper {
  tfm_gens : list Augmentation;
  img_format : string;
  is_train : bool;
  meta : Metadata;
  num_queries : nat;
  things : list Z;
  class_names : list string;
  use_big_copy_paste : bool
}.

Definition __init__ (is_train : bool) (num_queries : nat)
    (tfm_gens : list Augmentation) (meta : Metadata) (image_format : string) : Mapper :=
  {| tfm_gens := tfm_gens;
     img_format := image_format;
     is_train := is_train;
     meta := meta;
     num_queries := num_queries;
     things := map snd (thing_dataset_id_to_contiguous_id meta);
     class_names := thing_classes meta;
     use_big_copy_paste := true |}.

(** ** The module-level functions *)

Section Functions.
Context `{L : Library}.

(** Lines 29-34 and 58-63: the run-length encoding of [pyobj], decoded, with
    a channel axis added when there is none, reduced over the channels. *)
Definition rasterize (pyobj : pyval) (height width : nat) : result array :=
  let rles := frPyObjects pyobj height width in
  let mask := decode rles in
  let mask := if decide (ndim mask < 3) then new_last_axis mask else mask in
  let mask := as_tensor_uint8 mask in
  any_dim2 mask.

Definition convert_coco_poly_to_mask
    (segmentations : list pyval) (height width : nat) : result array :=
  masks ← rmapM (fun polygons => rasterize polygons height width) segmentations;
  match masks with
  | _ :: _ => stack masks
  | [] => Ok (zeros_uint8 [0; height; width])
  end.

(** Lines 47-56: what one element of [segmentations] adds to [masks_]. *)
Definition extend_masks_ (masks_ : list pyval) (polygons : pyval) : result (list pyval) :=
  let unexpected :=
    Raise (ValueError ("Unexpected polygon format: " +:+ type_repr polygons)) in
  match polygons with
  | PyList l =>
      if forallb is_float l then Ok (masks_ ++ [polygons])
      else if forallb is_list l then Ok (masks_ ++ l)
      else unexpected
  | PyArray a =>
      match a_lib a with
      | Numpy => Ok (masks_ ++ [tolist a])
      | Torch => unexpected
      end
  | _ => unexpected
  end.

(** Lines 45-68: the loop, with its two accumulators. *)
Fixpoint convert_loop (segmentations : list pyval) (height width : nat)
    (masks_ : list pyval) (masks : list array) : result (list array) :=
  match segmentations with
  | [] => Ok masks
  | polygons :: rest =>
      masks_ ← extend_masks_ masks_ polygons;
      mask ← rasterize (PyList masks_) height width;
      let mask :=
        if decide (shape mask <> [height; width])
        then as_tensor (cv2_resize (astype_uint8 (numpy mask)) (width, height))
        else mask in
      convert_loop rest height width masks_ (masks ++ [mask])
  end.

Definition convert_coco_poly_to_mask_
    (segmentations : list pyval) (height width : nat) : result array :=
  masks ← convert_loop segmentations height width [] [];
  match masks with
  | [m] => Ok (expand_dims0 m)
  | _ :: _ => stack masks
  | [] => Ok (zeros_uint8 [0; height; width])
  end.

(** Lines 103-110: one contour, [None] when it is skipped. *)
Definition contour_to_polygon (contour : list (Z * Z)) : option (list float) :=
  if decide (length contour < 3) then None
  else
    let polygon := map float_of_Z (flat_map (fun xy => [fst xy; snd xy]) contour) in
    if decide (6 <= length polygon) then Some polygon else None.

Definition mask_to_polygons (mask_np : array) : list (list float) :=
  let mask_np := match a_lib mask_np with Torch => numpy mask_np | Numpy => mask_np end in
  let mask_np := if decide (ndim mask_np = 3) then squeeze mask_np else mask_np in
  let mask_np := if decide (a_dtype mask_np <> uint8) then astype_uint8 mask_np else mask_np in
  let mask_np := astype_uint8 mask_np in
  let contours := findContours mask_np in
  omap contour_to_polygon contours.

Definition binary_masks_to_polygons (masks : list array) : list (list (list float)) :=
  map mask_to_polygons masks.

Definition build_transform_gen (cfg : CfgNode) (is_train : bool)
    : result (list Augmentation) :=
  if negb is_train then Raise (AssertionError "Only support training augmentation")
  else
    let image_size := IMAGE_SIZE (INPUT cfg) in
    let min_scale := MIN_SCALE (INPUT cfg) in
    let max_scale := MAX_SCALE (INPUT cfg) in
    let augmentation := [] in
    let augmentation :=
      if negb (String.eqb (RANDOM_FLIP (INPUT cfg)) "none")
      then augmentation ++
           [RandomFlip (String.eqb (RANDOM_FLIP (INPUT cfg)) "horizontal")
                       (String.eqb (RANDOM_FLIP (INPUT cfg)) "vertical")]
      else augmentation in
    Ok (augmentation ++
        [ResizeScale min_scale max_scale image_size image_size;
         FixedSizeCrop (image_size, image_size)]).

End Functions.

(** ** The mapper's configuration *)

(** The configuration as [from_config] reads it: the node that
    [build_transform_gen] reads, [cfg.DATASETS.TRAIN],
    [cfg.MODEL.ONE_FORMER.NUM_OBJECT_QUERIES], [cfg.MODEL.TEXT_ENCODER.N_CTX],
    [cfg.INPUT.TASK_SEQ_LEN] and [cfg.INPUT.MAX_SEQ_LEN]. *)
Record Config : Type := mk_config {
  node : CfgNode;
  DATASETS_TRAIN : list string;
  NUM_OBJECT_QUERIES : Z;
  N_CTX : Z;
  TASK_SEQ_LEN : Z;
  MAX_SEQ_LEN : Z
}.

(** The dictionary [from_config] returns, which becomes the keyword
    arguments of [__init__]. *)
Record Kwargs : Type := mk_kwargs {
  kw_is_train : bool;
  kw_meta : Metadata;
  kw_tfm_gens : list Augmentation;
  kw_image_format : string;
  kw_num_queries : Z;
  kw_task_seq_len : Z;
  kw_max_seq_len : Z
}.

(** Lines 209-224; [MetadataCatalog_get] stands for detectron2's catalog,
    which has an entry, possibly empty, for every name. *)
Definition from_config (MetadataCatalog_get : string -> Metadata) (cfg : Config)
    (is_train : bool) : result Kwargs :=
  tfm_gens ← build_transform_gen (node cfg) is_train;
  let dataset_names := DATASETS_TRAIN cfg in
  name ← match dataset_names with
         | name :: _ => Ok name
         | [] => Raise (IndexError "tuple index out of range")
         end;
  let meta := MetadataCatalog_get name in
  Ok {| kw_is_train := is_train;
        kw_meta := meta;
        kw_tfm_gens := tfm_gens;
        kw_image_format := FORMAT (INPUT (node cfg));
        kw_num_queries := (NUM_OBJECT_QUERIES cfg - N_CTX cfg)%Z;
        kw_task_seq_len := TASK_SEQ_LEN cfg;
        kw_max_seq_len := MAX_SEQ_LEN cfg |}.

(** ** Dictionaries and sequences as Python indexes them *)

Definition getitem {V} (d : gmap string V) (key : string) : result V :=
  match d !! key with
  | Some v => Ok v
  | None => Raise (KeyError key)
  end.

(** [l[i]] for an index that may be negative.  An index that does not fit a
    machine word is refused with a message of its own (a list is shorter than
    2^63, so on lists that Python can hold the order of the tests does not
    matter). *)
Definition py_index {A} (l : list A) (i : Z) : result A :=
  let n := Z.of_nat (length l) in
  let j := if (i <? 0)%Z then (i + n)%Z else i in
  let out_of_range :=
    if ((i <? - 2 ^ 63) || (2 ^ 63 <=? i))%Z
    then Raise (IndexError "cannot fit 'int' into an index-sized integer")
    else Raise (IndexError "list index out of range") in
  if (j <? 0)%Z then out_of_range
  else match l !! Z.to_nat j with
       | Some x => Ok x
       | None => out_of_range
       end.

(** [l[i]] for [i] drawn from [range(...)]. *)
Definition list_getitem {A} (l : list A) (i : nat) : result A :=
  match l !! i with
  | Some x => Ok x
  | None => Raise (IndexError "list index out of range")
  end.

(** [x1, y1, x2, y2 = box] *)
Definition unpack4 {A} (box : list A) : result (A * A * A * A) :=
  match box with
  | [x1; y1; x2; y2] => Ok (x1, y1, x2, y2)
  | _ =>
      if decide (length box < 4)
      then Raise (ValueError ("not enough values to unpack (expected 4, got "
                              +:+ pretty (length box) +:+ ")"))
      else Raise (ValueError "too many values to unpack (expected 4)")
  end.

(** ** The text prompts *)

Definition instance_photo : string := "an instance photo".
Definition photo_with (cls_name : string) : string := "a photo with a " +:+ cls_name.

(** Lines 231-233. *)
Fixpoint count_classes (class_names : list string) (classes : list Z)
    (num_class_obj : gmap string Z) : result (gmap string Z) :=
  match classes with
  | [] => Ok num_class_obj
  | class_id :: rest =>
      cls_name ← py_index class_names class_id;
      n ← getitem num_class_obj cls_name;
      count_classes class_names rest (<[cls_name := (n + 1)%Z]> num_class_obj)
  end.

(** Lines 238-242: [k] rounds of the inner loop, which ends early on [break]. *)
Fixpoint fill_texts (k : nat) (cls_name : string) (texts : list string) (num : nat)
    : list string * nat :=
  match k with
  | 0 => (texts, num)
  | S k' =>
      if decide (length texts <= num) then (texts, num)
      else fill_texts k' cls_name (<[num := photo_with cls_name]> texts) (S num)
  end.

(** Lines 236-242. *)
Fixpoint texts_loop (names : list string) (num_class_obj : gmap string Z)
    (texts : list string) (num : nat) : result (list string * nat) :=
  match names with
  | [] => Ok (texts, num)
  | cls_name :: rest =>
      n ← getitem num_class_obj cls_name;
      let tn := if (0 <? n)%Z then fill_texts (Z.to_nat n) cls_name texts num
                else (texts, num) in
      texts_loop rest num_class_obj tn.1 tn.2
  end.

Definition _get_texts (self : Mapper) (classes : list Z) (num_class_obj : gmap string Z)
    : result (list string) :=
  let texts := replicate (num_queries self) instance_photo in
  num_class_obj ← count_classes (class_names self) classes num_class_obj;
  tn ← texts_loop (class_names self) num_class_obj texts 0;
  Ok tn.1.

(** Lines 345-347: the counters [__call__] hands to [_get_texts]. *)
Definition zero_counters (class_names : list string) : gmap string Z :=
  foldl (fun d name => <[name := 0%Z]> d) ∅ class_names.

(** The number of instances whose class is called [name]. *)
Definition occurrences (name : string) (names : list string) : nat :=
  length (filter (eq name) names).

(** What the two loops of [_get_texts] maintain: [texts] holds the prompts
    written so far, cut at the number of queries, then the filler. *)
Definition filled (nq : nat) (written : list string) (texts : list string) (num : nat)
    : Prop :=
  texts = take nq written ++ replicate (nq - length written) instance_photo /\
  num = min (length written) nq.

(** ** The store and the mapper's monad *)

Inductive event : Type :=
| Call (function : string)
| SetItem (key : string)
| Pop (key : string).

Record state : Type := mk_state {
  records : gmap loc (gmap string value);
  annotations : gmap loc (gmap string pyval);
  trace : list event
}.

Definition M (A : Type) : Type := state -> result A * state.

#[global] Instance M_ret : MRet M := fun A a s => (Ok a, s).
#[global] Instance M_bind : MBind M := fun A B k m s =>
  match m s with
  | (Ok a, s') => k a s'
  | (Raise e, s') => (Raise e, s')
  end.

#[global] Instance M_fmap : FMap M := fun A B f m s =>
  match m s with
  | (Ok a, s') => (Ok (f a), s')
  | (Raise e, s') => (Raise e, s')
  end.

Definition lift {A} (r : result A) : M A := fun s => (r, s).
Definition raise {A} (e : exn) : M A := fun s => (Raise e, s).

Definition emit (e : event) : M unit :=
  fun s => (Ok tt, mk_state (records s) (annotations s) (trace s ++ [e])).

Fixpoint mapM_M {A B} (f : A -> M B) (l : list A) : M (list B) :=
  match l with
  | [] => mret []
  | x :: l' => y ← f x; ys ← mapM_M f l'; mret (y :: ys)
  end.

Definition read_record (d : loc) : M (gmap string value) :=
  fun s => match records s !! d with
           | Some rec => (Ok rec, s)
           | None => (Raise (RuntimeError "dangling reference"), s)
           end.

Definition write_record (d : loc) (rec : gmap string value) : M unit :=
  fun s => (Ok tt, mk_state (<[d := rec]> (records s)) (annotations s) (trace s)).

Definition alloc_record (rec : gmap string value) : M loc :=
  fun s => let d := fresh (dom (records s)) in
           (Ok d, mk_state (<[d := rec]> (records s)) (annotations s) (trace s)).

Definition read_annotation (a : loc) : M (gmap string pyval) :=
  fun s => match annotations s !! a with
           | Some anno => (Ok anno, s)
           | None => (Raise (RuntimeError "dangling reference"), s)
           end.

Definition write_annotation (a : loc) (anno : gmap string pyval) : M unit :=
  fun s => (Ok tt, mk_state (records s) (<[a := anno]> (annotations s)) (trace s)).

Definition alloc_annotation (anno : gmap string pyval) : M loc :=
  fun s => let a := fresh (dom (annotations s)) in
           (Ok a, mk_state (records s) (<[a := anno]> (annotations s)) (trace s)).

(** [dataset_dict[key]] *)
Definition record_getitem (d : loc) (key : string) : M value :=
  rec ← read_record d; lift (getitem rec key).

(** [dataset_dict[key] = v] *)
Definition record_setitem (d : loc) (key : string) (v : value) : M unit :=
  rec ← read_record d;
  write_record d (<[key := v]> rec);;
  emit (SetItem key).

(** [dataset_dict.pop(key, None)] *)
Definition record_pop (d : loc) (key : string) : M (option value) :=
  rec ← read_record d;
  write_record d (delete key rec);;
  emit (Pop key);;
  mret (rec !! key).

(** [anno[key]] *)
Definition annotation_getitem (a : loc) (key : string) : M pyval :=
  anno ← read_annotation a; lift (getitem anno key).

(** [copy.deepcopy]: every annotation dictionary the record refers to is
    copied once ([memo] maps originals to copies), then the record itself.  A
    reference that points nowhere, which Python cannot produce, is kept. *)
Fixpoint copy_annotations (ls : list loc) (memo : gmap loc loc) : M (gmap loc loc) :=
  match ls with
  | [] => mret memo
  | l :: rest =>
      match memo !! l with
      | Some _ => copy_annotations rest memo
      | None =>
          fun s =>
            match annotations s !! l with
            | Some anno =>
                (a ← alloc_annotation anno; copy_annotations rest (<[l := a]> memo)) s
            | None => copy_annotations rest memo s
            end
      end
  end.

Definition value_refs (v : value) : list loc :=
  match v with
  | VAnnotations ls => ls
  | _ => []
  end.

Definition rename (memo : gmap loc loc) (v : value) : value :=
  match v with
  | VAnnotations ls => VAnnotations (map (fun l => default l (memo !! l)) ls)
  | _ => v
  end.

Definition deepcopy (d : loc) : M loc :=
  rec ← read_record d;
  memo ← copy_annotations (flat_map (fun kv => value_refs kv.2) (map_to_list rec)) ∅;
  alloc_record (rename memo <$> rec).

(** ** The mapper's [__call__] *)

(** A local variable, unbound until it is assigned. *)
Definition local {A} (name : string) (v : option A) : M A :=
  match v with
  | Some x => mret x
  | None => raise (UnboundLocalError name)
  end.

(** An attribute of an [Instances] object, absent until it is set. *)
Definition attribute {A} (name : string) (v : option A) : M A :=
  match v with
  | Some x => mret x
  | None => raise (AttributeError name)
  end.

(** [v == 0] *)
Definition py_eq_zero (v : pyval) : bool :=
  match v with
  | PyInt z => (z =? 0)%Z
  | PyBool b => negb b
  | PyFloat f => PrimFloat.eqb f (float_of_Z 0)
  | _ => false
  end.

(** The polygons of one instance as the Python list of lists they are. *)
Definition polygons_value (polygons : list (list float)) : pyval :=
  PyList (map (fun polygon => PyList (map PyFloat polygon)) polygons).

(** Lines 273-283: the annotation dictionary for index [i]. *)
Definition new_annotation (boxes : list (list float)) (label_dict : gmap string (list Z))
    (masks : list (list (list float))) (i : nat) : result (gmap string pyval) :=
  box ← list_getitem boxes i;
  xyxy ← unpack4 box;
  let x1 := xyxy.1.1.1 in
  let y1 := xyxy.1.1.2 in
  let x2 := xyxy.1.2 in
  let y2 := xyxy.2 in
  let w := PrimFloat.sub x2 x1 in
  let h := PrimFloat.sub y2 y1 in
  labels ← getitem label_dict "labels";
  label ← list_getitem labels i;
  segmentation ← list_getitem masks i;
  Ok (<["iscrowd" := PyInt 0]>
      (<["bbox" := PyList [PyFloat x1; PyFloat y1; PyFloat w; PyFloat h]]>
      (<["category_id" := PyInt label]>
      (<["segmentation" := polygons_value segmentation]>
      (<["bbox_mode" := PyBoxMode XYWH_ABS]> ∅))))).

Section Call.
Context `{L : Library}.

(** Line 257, read as the list of the annotation objects. *)
Definition get_annotations (dataset_dict : loc) : M (list loc) :=
  rec ← read_record dataset_dict;
  match rec !! "annotations" with
  | None => mret []
  | Some (VAnnotations annos) => mret annos
  | Some (VPy (PyList [])) => mret []
  | Some _ => raise (TypeError "annotations is not a list of dicts")
  end.

(** Lines 260-263. *)
Definition collect (image : array) (annos : list loc)
    : M (list array * list pyval * gmap string (list pyval)) :=
  masks ← mapM_M (fun anno =>
    segmentation ← annotation_getitem anno "segmentation";
    height ← lift (list_getitem (shape image) 0);
    width ← lift (list_getitem (shape image) 1);
    emit (Call "convert_coco_poly_to_mask_");;
    segmentations ← lift (py_iter segmentation);
    lift (convert_coco_poly_to_mask_ segmentations height width)) annos;
  boxes ← mapM_M (fun anno => annotation_getitem anno "bbox") annos;
  labels ← mapM_M (fun anno => annotation_getitem anno "category_id") annos;
  mret (masks, boxes, {["labels" := labels]}).

(** Lines 270-283. *)
Definition regenerate_annotations (masks : list array) (boxes : list (list float))
    (label_dict : gmap string (list Z)) : M (list loc) :=
  emit (Call "binary_masks_to_polygons");;
  let masks := binary_masks_to_polygons masks in
  mapM_M (fun i =>
    anno ← lift (new_annotation boxes label_dict masks i);
    alloc_annotation anno) (seq 0 (length masks)).

(** Lines 325-329, for one annotation object: it is transformed in place when
    it is not a crowd annotation. *)
Definition transform_annotation (tfms : transforms) (image_shape : list nat) (obj : loc)
    : M (option (gmap string pyval)) :=
  anno ← read_annotation obj;
  if py_eq_zero (default (PyInt 0) (anno !! "iscrowd")) then
    emit (Call "transform_instance_annotations");;
    let anno := transform_instance_annotations anno tfms image_shape in
    write_annotation obj anno;;
    mret (Some anno)
  else mret None.

(** Lines 319-342. *)
Definition build_instances (dataset_dict : loc) (tfms : transforms)
    (image_shape : list nat) : M (option Instances) :=
  rec ← read_record dataset_dict;
  match rec !! "annotations" with
  | None => mret None
  | Some _ =>
      annos ← get_annotations dataset_dict;
      mapM_M (fun obj =>
        anno ← read_annotation obj;
        write_annotation obj (delete "keypoints" anno)) annos;;
      record_pop dataset_dict "annotations";;
      annos ← mapM_M (transform_annotation tfms image_shape) annos;
      let annos := omap id annos in
      emit (Call "annotations_to_instances");;
      let instances := annotations_to_instances annos image_shape in
      masks ← attribute "gt_masks" (gt_masks instances);
      let instances :=
        mk_Instances (image_size instances) (Some (get_bounding_boxes masks))
          (gt_classes instances) (gt_masks instances) in
      emit (Call "filter_empty_instances");;
      let instances := filter_empty_instances instances in
      let h := (image_size instances).1 in
      let w := (image_size instances).2 in
      match gt_masks instances with
      | Some (PolygonMasks polygons) =>
          emit (Call "convert_coco_poly_to_mask");;
          masks ← lift (convert_coco_poly_to_mask polygons h w);
          mret (Some (mk_Instances (image_size instances) (gt_boxes instances)
                        (gt_classes instances) (Some (MaskTensor masks))))
      | Some (MaskTensor _) => raise (AttributeError "polygons")
      | None => mret (Some instances)
      end
  end.

(** Lines 254-296, which run in both modes: the copy of the record, the
    image, the copy-paste augmentation, the transforms and the regenerated
    annotations.  The copy, the transforms and the image shape are what the
    rest of [__call__] goes on with. *)
Definition prepare (self : Mapper) (dataset_dict : loc) : M (loc * transforms * list nat) :=
  dataset_dict ← deepcopy dataset_dict;
  file_name ← record_getitem dataset_dict "file_name";
  emit (Call "read_image");;
  let image := read_image file_name (img_format self) in
  emit (Call "check_image_size");;
  rec ← read_record dataset_dict;
  write_record dataset_dict (check_image_size rec image);;
  annos ← get_annotations dataset_dict;
  locals ←
    (if use_big_copy_paste self && bool_decide (0 < length annos)
     then Some <$> collect image annos
     else mret None);
  let padding_mask := ones (take 2 (shape image)) in
  locals ← local "masks" locals;
  let masks := locals.1.1 in
  let boxes := locals.1.2 in
  let label_dict := locals.2 in
  emit (Call "bigcopypaste");;
  let pasted := bigcopypaste image masks boxes label_dict in
  let image_ := pasted.1.1.1 in
  let masks := pasted.1.1.2 in
  let boxes := pasted.1.2 in
  let label_dict := pasted.2 in
  emit (Call "apply_transform_gens");;
  let image := (apply_transform_gens (tfm_gens self) image_).1 in
  let tfms := (apply_transform_gens (tfm_gens self) image_).2 in
  new_annotations ← regenerate_annotations masks boxes label_dict;
  record_setitem dataset_dict "annotations" (VAnnotations new_annotations);;
  emit (Call "apply_segmentation");;
  let padding_mask := apply_segmentation tfms padding_mask in
  let padding_mask := invert_bool padding_mask in
  let image_shape := take 2 (shape image) in
  chw ← lift (transpose_201 image);
  record_setitem dataset_dict "image" (VPy (PyArray (as_tensor chw)));;
  record_setitem dataset_dict "padding_mask" (VPy (PyArray (as_tensor padding_mask)));;
  mret (dataset_dict, tfms, image_shape).

Definition __call__ (self : Mapper) (dataset_dict : loc) : M loc :=
  prepared ← prepare self dataset_dict;
  let dataset_dict := prepared.1.1 in
  let tfms := prepared.1.2 in
  let image_shape := prepared.2 in
  if negb (is_train self) then
    record_pop dataset_dict "annotations";;
    mret dataset_dict
  else
    instances ← build_instances dataset_dict tfms image_shape;
    let num_class_obj := zero_counters (class_names self) in
    let task := "The task is instance" in
    instances ← local "instances" instances;
    classes ← attribute "gt_classes" (gt_classes instances);
    emit (Call "_get_texts");;
    text ← lift (_get_texts self classes num_class_obj);
    record_setitem dataset_dict "instances" (VInstances instances);;
    record_setitem dataset_dict "orig_shape"
      (VPy (PyTuple (map (fun n => PyInt (Z.of_nat n)) image_shape)));;
    record_setitem dataset_dict "task" (VPy (PyStr task));;
    record_setitem dataset_dict "text" (VPy (PyList (map PyStr text)));;
    record_setitem dataset_dict "thing_ids" (VPy (PyList (map PyInt (things self))));;
    mret dataset_dict.

End Call.

(** The accumulator of [convert_coco_poly_to_mask_] after the elements of
    [segmentations]: each element adds its polygons to those before it. *)
Fixpoint accumulated (masks_ : list pyval) (segmentations : list pyval)
    : result (list pyval) :=
  match segmentations with
  | [] => Ok masks_
  | polygons :: rest =>
      masks_ ← extend_masks_ masks_ polygons; accumulated masks_ rest
  end.

(** Line 107: the coordinates of a contour, x0, y0, x1, y1, ..., as floats. *)
Definition flatten_contour (contour : list (Z * Z)) : list float :=
  map float_of_Z (flat_map (fun xy => [fst xy; snd xy]) contour).

(** Lines 91-98: the array that [binary_masks_to_polygons] hands to
    [cv2.findContours] for one mask. *)
Definition contour_input (mask_np : array) : array :=
  let mask_np := match a_lib mask_np with Torch => numpy mask_np | Numpy => mask_np end in
  let mask_np := if decide (ndim mask_np = 3) then squeeze mask_np else mask_np in
  let mask_np := if decide (a_dtype mask_np <> uint8) then astype_uint8 mask_np else mask_np in
  astype_uint8 mask_np.

(** A text prompt that names a class of the mapper. *)
Definition class_prompt (self : Mapper) (text : string) : Prop :=
  exists cls_name, cls_name ∈ class_names self /\ text = photo_with cls_name.


(** ** Assertions about the store *)

(** Every object of [s0] is still there, with the same contents, in [s]. *)
Definition frame (s0 s : state) : Prop :=
  (forall l rec, records s0 !! l = Some rec -> records s !! l = Some rec) /\
  (forall a anno, annotations s0 !! a = Some anno -> annotations s !! a = Some anno).

(** Running [m] from a state that extends [s0] and satisfies [P] leaves the
    objects of [s0] alone, and a returned value satisfies [Q]. *)
Definition triple (s0 : state) (P : state -> Prop) {A} (m : M A)
    (Q : A -> state -> Prop) : Prop :=
  forall s, frame s0 s -> P s ->
    frame s0 (m s).2 /\ forall a, (m s).1 = Ok a -> Q a (m s).2.

(** [m] leaves the records alone and only adds annotation objects. *)
Definition quiet {A} (m : M A) : Prop :=
  forall s, records (m s).2 = records s /\
    forall a anno, annotations s !! a = Some anno -> annotations (m s).2 !! a = Some anno.

(** [P] looks at the records only. *)
Definition on_records (P : state -> Prop) : Prop :=
  forall s s', records s = records s' -> P s -> P s'.

Definition fresh_record (s0 : state) (d : loc) : Prop := records s0 !! d = None.
Definition fresh_annotation (s0 : state) (a : loc) : Prop := annotations s0 !! a = None.

(** The annotation objects the record at [d] refers to are not objects of [s0]. *)
Definition owns_annotations (s0 : state) (d : loc) (s : state) : Prop :=
  forall rec annos, records s !! d = Some rec ->
    rec !! "annotations" = Some (VAnnotations annos) ->
    Forall (fresh_annotation s0) annos.

(** ** Assertions about records and runs *)

(** An element of a segmentation that [convert_coco_poly_to_mask_] accepts. *)
Definition accepted (polygons : pyval) : bool :=
  match polygons with
  | PyList l => forallb is_float l || forallb is_list l
  | PyArray a => bool_decide (a_lib a = Numpy)
  | _ => false
  end.

(** An annotation dictionary [__call__] can read. *)
Definition readable (anno : gmap string pyval) : Prop :=
  (exists segmentation segmentations,
     anno !! "segmentation" = Some segmentation /\
     py_iter segmentation = Ok segmentations /\
     forallb accepted segmentations = true) /\
  is_Some (anno !! "bbox") /\
  is_Some (anno !! "category_id").

(** A record [__call__] can process: a file name and a non-empty list of
    readable annotation objects. *)
Definition processable (A : gmap loc (gmap string pyval)) (rec : gmap string value)
    : Prop :=
  is_Some (rec !! "file_name") /\
  exists annos contents,
    rec !! "annotations" = Some (VAnnotations annos) /\
    annos <> [] /\
    Forall2 (fun a anno => A !! a = Some anno /\ readable anno) annos contents.

(** A record without annotations: no such key, or an empty list. *)
Definition no_annotations (rec : gmap string value) : Prop :=
  rec !! "annotations" = None \/
  rec !! "annotations" = Some (VAnnotations []) \/
  rec !! "annotations" = Some (VPy (PyList [])).

(** The category of every annotation of the record is an integer that
    indexes [n] class names. *)
Definition classes_within (n : nat) (A : gmap loc (gmap string pyval))
    (rec : gmap string value) : Prop :=
  forall annos a anno,
    rec !! "annotations" = Some (VAnnotations annos) -> a ∈ annos ->
    A !! a = Some anno ->
    exists c, anno !! "category_id" = Some (PyInt c) /\ (0 <= c < Z.of_nat n)%Z.

(** [memo] maps annotation objects to copies of them. *)
Definition copies (memo : gmap loc loc) (A : gmap loc (gmap string pyval)) : Prop :=
  forall a a', memo !! a = Some a' ->
    exists anno, A !! a = Some anno /\ A !! a' = Some anno.

Definition from_ok {A} (default : A) (r : result A) : A :=
  match r with
  | Ok a => a
  | Raise _ => default
  end.

(** The dictionary that lines 277-283 build for a box, a label and the
    polygons of a mask. *)
Definition annotation_of (box : list float) (label : Z) (polygons : list (list float))
    : gmap string pyval :=
  match box with
  | [x1; y1; x2; y2] =>
      <["iscrowd" := PyInt 0]>
      (<["bbox" := PyList [PyFloat x1; PyFloat y1;
                           PyFloat (PrimFloat.sub x2 x1); PyFloat (PrimFloat.sub y2 y1)]]>
      (<["category_id" := PyInt label]>
      (<["segmentation" := polygons_value polygons]>
      (<["bbox_mode" := PyBoxMode XYWH_ABS]> ∅))))
  | _ => ∅
  end.

(** The library calls and record updates of lines 254-296, in order, for a
    record with [n] annotations. *)
Definition prepare_trace (n : nat) : list event :=
  [Call "read_image"; Call "check_image_size"] ++
  replicate n (Call "convert_coco_poly_to_mask_") ++
  [Call "bigcopypaste"; Call "apply_transform_gens"; Call "binary_masks_to_polygons";
   SetItem "annotations"; Call "apply_segmentation";
   SetItem "image"; SetItem "padding_mask"].


Definition is_tensor (v : option value) : Prop :=
  exists a, v = Some (VPy (PyArray a)) /\ a_lib a = Torch.

(** ** What the theorems ask of the libraries *)

Definition is_image (a : array) : Prop :=
  exists h w c, shape a = [h; w; c].

(** pycocotools decodes to height x width, or height x width x count. *)
Class MaskLaws (L : Library) : Prop := {
  decode_shape : forall pyobj height width,
    shape (decode (frPyObjects pyobj height width)) = [height; width] \/
    exists n, shape (decode (frPyObjects pyobj height width)) = [height; width; n]
}.

(** Images stay height x width x channels; the copy-paste augmentation
    returns one box of four coordinates and one label for each mask, and at
    least one mask when it was given one. *)
Class ImageLaws (L : Library) : Prop := {
  read_image_shape : forall file_name format, is_image (read_image file_name format);
  bigcopypaste_image : forall image masks boxes label_dict,
    is_image image -> is_image (bigcopypaste image masks boxes label_dict).1.1.1;
  bigcopypaste_boxes : forall image masks boxes label_dict,
    let pasted := bigcopypaste image masks boxes label_dict in
    length pasted.1.2 = length pasted.1.1.2 /\
    Forall (fun box => length box = 4) pasted.1.2;
  bigcopypaste_labels : forall image masks boxes label_dict,
    let pasted := bigcopypaste image masks boxes label_dict in
    exists labels, pasted.2 !! "labels" = Some labels /\
                   length labels = length pasted.1.1.2;
  bigcopypaste_nonempty : forall image masks boxes label_dict,
    masks <> [] -> (bigcopypaste image masks boxes label_dict).1.1.2 <> [];
  apply_transform_gens_image : forall gens image,
    is_image image -> is_image (apply_transform_gens gens image).1
}.

(** [check_image_size] touches the keys "width" and "height" only. *)
Class SizeLaws (L : Library) : Prop := {
  check_image_size_frame : forall (rec : gmap string value) image (key : string),
    key <> "width" -> key <> "height" ->
    check_image_size rec image !! key = rec !! key
}.

(** detectron2 builds polygon masks for a non-empty list of annotations and
    reports the category ids of the annotations as their classes; transforming
    an annotation leaves its category alone, and filtering keeps some of the
    instances, in their order. *)
Class InstancesLaws (L : Library) : Prop := {
  annotations_to_instances_masks : forall annos image_shape,
    annos <> [] ->
    exists polygons,
      gt_masks (annotations_to_instances annos image_shape) = Some (PolygonMasks polygons);
  filter_empty_instances_masks : forall i polygons,
    gt_masks i = Some (PolygonMasks polygons) ->
    gt_masks (filter_empty_instances i) = None \/
    exists polygons', gt_masks (filter_empty_instances i) = Some (PolygonMasks polygons');
  transform_instance_annotations_category : forall anno tfms image_shape,
    transform_instance_annotations anno tfms image_shape !! "category_id" =
      anno !! "category_id";
  annotations_to_instances_classes : forall annos image_shape classes,
    Forall2 (fun anno c => anno !! "category_id" = Some (PyInt c)) annos classes ->
    gt_classes (annotations_to_instances annos image_shape) = Some classes;
  filter_empty_instances_classes : forall i classes,
    gt_classes i = Some classes ->
    exists classes',
      gt_classes (filter_empty_instances i) = Some classes' /\
      classes' `sublist_of` classes
}.

(** The copy-paste augmentation pastes instances of the mapper's [n] classes:
    given labels that index the class names, so do the labels it returns. *)
Class LabelLaws (L : Library) (n : nat) : Prop := {
  bigcopypaste_classes : forall image masks boxes label_dict labels labels',
    label_dict !! "labels" = Some labels ->
    Forall (fun v => exists c, v = PyInt c /\ (0 <= c < Z.of_nat n)%Z) labels ->
    (bigcopypaste image masks boxes label_dict).2 !! "labels" = Some labels' ->
    Forall (fun c => (0 <= c < Z.of_nat n)%Z) labels'
}.

(** ** A small library instance

    Polygons are rasterized as their bounding rectangles, a contour is the
    bounding rectangle of the set pixels, images are 4 x 4 x 3, nothing is
    pasted and the transforms are the identity.  It serves to run the mapper
    on concrete records. *)
Module Demo.

Definition floats_of (p : pyval) : list float :=
  match p with
  | PyList l =>
      omap (fun x => match x with
                     | PyFloat f => Some f
                     | PyInt z => Some (float_of_Z z)
                     | _ => None
                     end) l
  | _ => []
  end.

Fixpoint evens (l : list float) : list float :=
  match l with
  | x :: _ :: l' => x :: evens l'
  | _ => []
  end.

Fixpoint odds (l : list float) : list float :=
  match l with
  | _ :: y :: l' => y :: odds l'
  | _ => []
  end.

Definition within (vs : list float) (i : nat) : bool :=
  let x := float_of_Z (Z.of_nat i) in
  existsb (fun v => PrimFloat.leb v x) vs && existsb (fun v => PrimFloat.ltb x v) vs.

(** Is pixel (row [i], column [j]) inside the bounding rectangle of [p]? *)
Definition covers (p : list float) (i j : nat) : bool :=
  within (evens p) j && within (odds p) i.

Definition polygons_of (pyobj : pyval) : list (list float) :=
  match pyobj with
  | PyList l => map floats_of l
  | _ => []
  end.

Definition frPyObjects (pyobj : pyval) (height width : nat)
    : nat * nat * list (list float) :=
  (height, width, polygons_of pyobj).

Definition decode (r : nat * nat * list (list float)) : array :=
  let height := r.1.1 in
  let width := r.1.2 in
  mk_array Numpy uint8 [height; width; length r.2]
    (flat_map (fun i =>
       flat_map (fun j =>
         map (fun p => if covers p i j then 1%Z else 0%Z) r.2)
         (seq 0 width))
       (seq 0 height)).

Definition cv2_resize (a : array) (dsize : nat * nat) : array :=
  match shape a with
  | [h; w] =>
      mk_array Numpy (a_dtype a) [dsize.2; dsize.1]
        (flat_map (fun i =>
           map (fun j => nth ((i * h / dsize.2) * w + j * w / dsize.1) (data a) 0%Z)
             (seq 0 dsize.1))
           (seq 0 dsize.2))
  | _ => mk_array Numpy (a_dtype a) [dsize.2; dsize.1] (repeat 0%Z (dsize.2 * dsize.1))
  end.

(** The rows and the columns of a 2-d mask that hold a set pixel. *)
Definition set_pixels (a : array) : list (nat * nat) :=
  match shape a with
  | [h; w] =>
      flat_map (fun i =>
        omap (fun j => if nonzero (nth (i * w + j) (data a) 0%Z) then Some (i, j) else None)
          (seq 0 w))
        (seq 0 h)
  | _ => []
  end.

Definition findContours (a : array) : list (list (Z * Z)) :=
  match set_pixels a with
  | [] => []
  | (i0, j0) :: rest =>
      let rows := i0 :: map fst rest in
      let cols := j0 :: map snd rest in
      let top := Z.of_nat (foldr Nat.min i0 rows) in
      let bottom := Z.of_nat (foldr Nat.max i0 rows) in
      let left := Z.of_nat (foldr Nat.min j0 cols) in
      let right := Z.of_nat (foldr Nat.max j0 cols) in
      [remove_dups [(left, top); (right, top); (right, bottom); (left, bottom)]]
  end.

Definition read_image (file_name : value) (format : string) : array :=
  mk_array Numpy uint8 [4; 4; 3] (repeat 7%Z 48).

Definition check_image_size (rec : gmap string value) (image : array)
    : gmap string value :=
  let rec := match rec !! "width" with
             | Some _ => rec
             | None => <["width" := VPy (PyInt (Z.of_nat (nth 1 (shape image) 0)))]> rec
             end in
  match rec !! "height" with
  | Some _ => rec
  | None => <["height" := VPy (PyInt (Z.of_nat (nth 0 (shape image) 0)))]> rec
  end.

(** The last mask of a stack of masks. *)
Definition last_mask (a : array) : array :=
  match shape a with
  | S n :: _ => default a (slice0 a n)
  | _ => a
  end.

(** XYWH to XYXY. *)
Definition corners (box : pyval) : list float :=
  match floats_of box with
  | [x; y; w; h] => [x; y; PrimFloat.add x w; PrimFloat.add y h]
  | _ => [float_of_Z 0; float_of_Z 0; float_of_Z 0; float_of_Z 0]
  end.

Definition label_of (v : pyval) : Z :=
  match v with
  | PyInt z => z
  | _ => 0%Z
  end.

Definition as_image (a : array) : array :=
  match shape a with
  | [_; _; _] => a
  | _ => read_image (VPy PyNone) ""
  end.

Definition bigcopypaste (image : array) (masks : list array) (boxes : list pyval)
    (label_dict : gmap string (list pyval))
    : array * list array * list (list float) * gmap string (list Z) :=
  let labels := default [] (label_dict !! "labels") in
  (as_image image,
   map last_mask masks,
   map (fun i => corners (default PyNone (boxes !! i))) (seq 0 (length masks)),
   {["labels" := map (fun i => label_of (default PyNone (labels !! i)))
                   (seq 0 (length masks))]}).

Definition apply_transform_gens (gens : list Augmentation) (image : array)
    : array * unit :=
  (as_image image, tt).

Definition apply_segmentation (tfms : unit) (a : array) : array := a.

Definition transform_instance_annotations (anno : gmap string pyval) (tfms : unit)
    (image_shape : list nat) : gmap string pyval :=
  <["bbox_mode" := PyBoxMode XYXY_ABS]> anno.

(** [int(obj["category_id"])] *)
Definition class_of (anno : gmap string pyval) : Z :=
  match anno !! "category_id" with
  | Some (PyInt c) => c
  | _ => 0%Z
  end.

Definition annotations_to_instances (annos : list (gmap string pyval))
    (image_shape : list nat) : Instances :=
  mk_Instances (nth 0 image_shape 0, nth 1 image_shape 0)
    (Some (mk_array Torch float64 [length annos; 4] (repeat 0%Z (length annos * 4))))
    (Some (map class_of annos))
    (match annos with
     | [] => None
     | _ => Some (PolygonMasks
                    (map (fun anno => default (PyList []) (anno !! "segmentation")) annos))
     end).

Definition get_bounding_boxes (m : gt_masks_t) : array :=
  match m with
  | PolygonMasks polygons =>
      mk_array Torch float64 [length polygons; 4] (repeat 0%Z (length polygons * 4))
  | MaskTensor a => mk_array Torch float64 [nth 0 (shape a) 0; 4] []
  end.

Definition filter_empty_instances (i : Instances) : Instances := i.

#[export] Instance library : Library :=
  Build_Library (nat * nat * list (list float)) frPyObjects decode cv2_resize
    findContours read_image check_image_size bigcopypaste unit apply_transform_gens
    apply_segmentation transform_instance_annotations annotations_to_instances
    get_bounding_boxes filter_empty_instances.

Definition metadata : Metadata :=
  mk_meta [(1%Z, 0%Z); (2%Z, 1%Z)] ["person"; "car"].

Definition mapper (is_train : bool) : Mapper :=
  __init__ is_train 4 [RandomFlip true false] metadata "RGB".

End Demo.

(** ** Concrete inputs *)

Module Examples.

(** The square with corner (x, y) and side s, as a COCO polygon. *)
Definition square (x y s : Z) : pyval :=
  PyList (map (fun z => PyFloat (float_of_Z z))
            [x; y; x + s; y; x + s; y + s; x; y + s]%Z).

(** The same square with integer coordinates, as JSON decodes [[0, 0, 2, 0, ...]]. *)
Definition int_square (x y s : Z) : pyval :=
  PyList (map PyInt [x; y; x + s; y; x + s; y + s; x; y + s]%Z).

Definition annotation (segmentation : pyval) (category_id : Z) : gmap string pyval :=
  <["segmentation" := segmentation]>
  (<["bbox" := PyList [PyFloat (float_of_Z 0); PyFloat (float_of_Z 0);
                       PyFloat (float_of_Z 2); PyFloat (float_of_Z 2)]]>
  (<["category_id" := PyInt category_id]> ∅)).

Definition record (annos : list loc) : gmap string value :=
  <["file_name" := VPy (PyStr "a.jpg")]> (<["annotations" := VAnnotations annos]> ∅).

(** A store holding one record, at location 0, with one square instance. *)
Definition store : state :=
  mk_state {[ 0 := record [0] ]} {[ 0 := annotation (PyList [square 0 0 2]) 1 ]} [].

(** The same with integer polygon coordinates. *)
Definition int_store : state :=
  mk_state {[ 0 := record [0] ]} {[ 0 := annotation (PyList [int_square 0 0 2]) 1 ]} [].


(** A record whose annotations list is empty, and one that has no such key. *)
Definition empty_store : state :=
  mk_state {[ 0 := record [] ]} ∅ [].

Definition bare_store : state :=
  mk_state {[ 0 := <["file_name" := VPy (PyStr "a.jpg")]> ∅ ]} ∅ [].


(** A record that already carries a "task" entry. *)
Definition task_store : state :=
  mk_state {[ 0 := <["task" := VPy (PyStr "mine")]> (record [0]) ]}
    {[ 0 := annotation (PyList [square 0 0 2]) 1 ]} [].

End Examples.

(** * Theorems *)

(** ** The list of augmentations *)

(** C5: in training mode [build_transform_gen] returns, in this order, a
    RandomFlip (there exactly when RANDOM_FLIP is not "none", horizontal
    exactly when it is "horizontal", vertical exactly when it is "vertical"),
    a ResizeScale with the configured scales and target size, and a
    FixedSizeCrop of (image_size, image_size). *)
Theorem build_transform_gen_order (cfg : CfgNode) :
  exists flips,
    build_transform_gen cfg true =
      Ok (flips ++
          [ResizeScale (MIN_SCALE (INPUT cfg)) (MAX_SCALE (INPUT cfg))
             (IMAGE_SIZE (INPUT cfg)) (IMAGE_SIZE (INPUT cfg));
           FixedSizeCrop (IMAGE_SIZE (INPUT cfg), IMAGE_SIZE (INPUT cfg))]) /\
    (RANDOM_FLIP (INPUT cfg) = "none" -> flips = []) /\
    (RANDOM_FLIP (INPUT cfg) <> "none" ->
       exists horizontal vertical,
         flips = [RandomFlip horizontal vertical] /\
         (horizontal = true <-> RANDOM_FLIP (INPUT cfg) = "horizontal") /\
         (vertical = true <-> RANDOM_FLIP (INPUT cfg) = "vertical")).
Proof.
  unfold build_transform_gen; simpl.
  destruct (String.eqb_spec (RANDOM_FLIP (INPUT cfg)) "none") as [Hn | Hn]; simpl.
  - exists []. split; [reflexivity | split; [reflexivity | congruence]].
  - exists [RandomFlip (String.eqb (RANDOM_FLIP (INPUT cfg)) "horizontal")
                        (String.eqb (RANDOM_FLIP (INPUT cfg)) "vertical")].
    split; [reflexivity | split; [congruence |]].
    intros _. do 2 eexists. split; [reflexivity |].
    split; apply String.eqb_eq.
Qed.

(** Outside training mode the assertion fails. *)
Lemma build_transform_gen_inference (cfg : CfgNode) :
  build_transform_gen cfg false = Raise (AssertionError "Only support training augmentation").
Proof. reflexivity. Qed.

(** ** Contours to polygons *)

Lemma contour_to_polygon_Some contour polygon :
  contour_to_polygon contour = Some polygon ->
  length polygon = 2 * length contour /\ 3 <= length contour.
Proof.
  unfold contour_to_polygon.
  destruct (decide (length contour < 3)) as [|Hge]; [discriminate |].
  case_decide; [| discriminate].
  intros [= <-]. split; [| lia].
  rewrite length_map. clear. induction contour as [| xy contour IH]; simpl; lia.
Qed.

(** C4: [binary_masks_to_polygons] returns one entry for each mask, and every
    polygon of every entry has an even number of coordinates, at least six. *)
Theorem binary_masks_to_polygons_wf `{Library} (masks : list array) :
  length (binary_masks_to_polygons masks) = length masks /\
  Forall (Forall (fun polygon : list float =>
                    Nat.Even (length polygon) /\ 6 <= length polygon))
    (binary_masks_to_polygons masks).
Proof.
  unfold binary_masks_to_polygons. split; [apply length_map |].
  apply Forall_forall. intros polygons [mask [-> _]]%list_elem_of_fmap.
  apply Forall_forall. intros polygon Hin. unfold mask_to_polygons in Hin.
  apply list_elem_of_omap in Hin as (contour & _ & Hc).
  apply contour_to_polygon_Some in Hc as [Hlen Hge].
  split; [exists (length contour) | ]; lia.
Qed.

(** ** Polygons to masks *)

Lemma rmapM_total {A B} (f : A -> result B) (P : B -> Prop) (l : list A) :
  (forall x, exists y, f x = Ok y /\ P y) ->
  exists ys, rmapM f l = Ok ys /\ length ys = length l /\ Forall P ys.
Proof.
  intros Hf. induction l as [| x l (ys & Hys & Hlen & HP)]; simpl.
  - exists []. auto.
  - destruct (Hf x) as (y & Hy & Py). rewrite Hy; simpl. rewrite Hys; simpl.
    exists (y :: ys). simpl. auto.
Qed.

Lemma stack_same_shape (s : list nat) (m : array) (masks : list array) :
  Forall (fun m' => shape m' = s) (m :: masks) ->
  exists a, stack (m :: masks) = Ok a /\ shape a = S (length masks) :: s.
Proof.
  intros Hall. apply Forall_cons in Hall as [Hm Hall]. unfold stack.
  replace (forallb _ masks) with true.
  - eexists. split; [reflexivity |]. simpl. by rewrite Hm.
  - symmetry. apply forallb_forall. intros m' Hin. apply bool_decide_eq_true.
    rewrite Forall_forall in Hall. rewrite Hm. apply Hall. by apply list_elem_of_In.
Qed.

Section MaskFacts.
Context `{L : Library} {HL : MaskLaws L}.

Lemma rasterize_shape (pyobj : pyval) (height width : nat) :
  exists mask, rasterize pyobj height width = Ok mask /\ shape mask = [height; width].
Proof.
  unfold rasterize.
  destruct (decode_shape pyobj height width) as [Hs | [n Hs]];
    unfold ndim, any_dim2, as_tensor_uint8, new_last_axis;
    repeat (rewrite Hs; simpl); eexists; split; reflexivity.
Qed.

(** The masks the loop of [convert_coco_poly_to_mask_] collects all have the
    requested shape. *)
Lemma convert_loop_shapes segmentations height width masks_ masks out :
  Forall (fun m => shape m = [height; width]) masks ->
  convert_loop segmentations height width masks_ masks = Ok out ->
  Forall (fun m => shape m = [height; width]) out /\
  length out = length masks + length segmentations.
Proof.
  revert masks_ masks. induction segmentations as [| polygons rest IH];
    intros masks_ masks Hall; simpl.
  - intros [= <-]. split; [done | lia].
  - destruct (extend_masks_ masks_ polygons) as [masks_' |]; simpl; [| discriminate].
    destruct (rasterize_shape (PyList masks_') height width) as (mask & -> & Hs); simpl.
    rewrite decide_False by (intros Hne; by apply Hne).
    intros Hout. apply IH in Hout as [Hout Hlen].
    + split; [done |]. rewrite length_app in Hlen. simpl in Hlen. lia.
    + apply Forall_app. split; [done |]. by constructor.
Qed.

End MaskFacts.

Lemma convert_coco_poly_to_mask_run `{L : Library} {HL : MaskLaws L}
    (segmentations : list pyval) (height width : nat) :
  exists masks,
    convert_coco_poly_to_mask segmentations height width = Ok masks /\
    shape masks = [length segmentations; height; width] /\
    a_lib masks = Torch.
Proof.
  unfold convert_coco_poly_to_mask.
  destruct (rmapM_total (fun polygons => rasterize polygons height width)
              (fun m => shape m = [height; width]) segmentations)
    as (masks & -> & Hlen & Hall); [intros x; apply rasterize_shape |].
  simpl. destruct masks as [| m masks].
  - destruct segmentations; [| discriminate]. eexists; split; [reflexivity |]. done.
  - destruct (stack_same_shape _ _ _ Hall) as (a & Ha & Hs).
    exists a. split; [done |]. split; [by rewrite Hs, <- Hlen |].
    unfold stack in Ha. destruct (forallb _ _); [| discriminate]. by injection Ha as <-.
Qed.

(** C6: [convert_coco_poly_to_mask] returns a tensor of shape
    (len(segmentations), height, width); for an empty list it is the zero
    tensor of shape (0, height, width) with dtype uint8. *)
Theorem convert_coco_poly_to_mask_shape (L : Library) (HL : MaskLaws L)
    (segmentations : list pyval) (height width : nat) :
  (exists masks,
     convert_coco_poly_to_mask segmentations height width = Ok masks /\
     shape masks = [length segmentations; height; width] /\
     a_lib masks = Torch) /\
  convert_coco_poly_to_mask [] height width =
    Ok (mk_array Torch uint8 [0; height; width] []).
Proof.
  split; [apply convert_coco_poly_to_mask_run | reflexivity].
Qed.

(** The [i]-th mask that the loop collects is the rasterization of what has
    accumulated over the elements 0 to [i], not of element [i] alone. *)
Lemma convert_loop_accumulates `{Library} segmentations height width masks_ masks out i :
  convert_loop segmentations height width masks_ masks = Ok out ->
  i < length segmentations ->
  exists acc mask,
    accumulated masks_ (take (S i) segmentations) = Ok acc /\
    rasterize (PyList acc) height width = Ok mask /\
    out !! (length masks + i) =
      Some (if decide (shape mask <> [height; width])
            then as_tensor (cv2_resize (astype_uint8 (numpy mask)) (width, height))
            else mask).
Proof.
  revert masks_ masks i. induction segmentations as [| polygons rest IH];
    intros masks_ masks i; simpl; [lia |].
  destruct (extend_masks_ masks_ polygons) as [masks_' |] eqn:He; simpl; [| discriminate].
  destruct (rasterize (PyList masks_') height width) as [mask |] eqn:Hr; simpl;
    [| discriminate].
  intros Hout Hi. destruct i as [| i].
  - rewrite take_0. simpl. exists masks_', mask. split; [done | split; [done |]].
    assert (Hpre : forall segs m_ ms o, convert_loop segs height width m_ ms = Ok o ->
                     forall j x, ms !! j = Some x -> o !! j = Some x).
    { clear. induction segs as [| p segs IH]; intros m_ ms o; simpl.
      - by intros [= <-].
      - destruct (extend_masks_ m_ p); simpl; [| discriminate].
        destruct (rasterize _ _ _); simpl; [| discriminate].
        intros Ho j x Hj. eapply IH; [exact Ho |]. by apply lookup_app_l_Some. }
    eapply Hpre; [exact Hout |]. rewrite Nat.add_0_r.
    rewrite lookup_app_r by lia. by rewrite Nat.sub_diag.
  - apply IH with (i := i) in Hout as (acc & mask' & Hacc & Hm & Hlook); [| lia].
    exists acc, mask'. split; [done | split; [done |]].
    rewrite length_app in Hlook. simpl in Hlook.
    by replace (length masks + S i) with (length masks + 1 + i) by lia.
Qed.

(** C2: on two disjoint squares the second mask that
    [convert_coco_poly_to_mask_] returns is the union of both squares, while
    the second square alone rasterizes to the lower right square only. *)
Theorem convert_coco_poly_to_mask__second_mask :
  let segmentations := [Examples.square 0 0 2; Examples.square 2 2 2] in
  (fun masks => slice0 masks 1) <$>
    convert_coco_poly_to_mask_ (L := Demo.library) segmentations 4 4 =
    Ok (Some (mk_array Torch uint8 [4; 4]
                [1; 1; 0; 0;
                 1; 1; 0; 0;
                 0; 0; 1; 1;
                 0; 0; 1; 1]%Z)) /\
  rasterize (L := Demo.library) (PyList [Examples.square 2 2 2]) 4 4 =
    Ok (mk_array Torch uint8 [4; 4]
          [0; 0; 0; 0;
           0; 0; 0; 0;
           0; 0; 1; 1;
           0; 0; 1; 1]%Z).
Proof. split; vm_compute; reflexivity. Qed.

(** ** The text prompts *)

Lemma zero_counters_lookup (class_names : list string) (name : string) :
  zero_counters class_names !! name =
    if decide (name ∈ class_names) then Some 0%Z else None.
Proof.
  unfold zero_counters.
  assert (Hgen : forall (d : gmap string Z),
            foldl (fun d name => <[name := 0%Z]> d) d class_names !! name =
            if decide (name ∈ class_names) then Some 0%Z else d !! name).
  { induction class_names as [| c cn IH]; intros d; cbn [foldl].
    - case_decide as Hin; [by apply elem_of_nil in Hin | done].
    - rewrite IH. destruct (decide (name ∈ cn)) as [Hin | Hnin].
      + rewrite decide_True by (by right). done.
      + destruct (decide (name = c)) as [-> | Hne].
        * rewrite decide_True by left. apply lookup_insert_eq.
        * rewrite decide_False by (intros [? | ?]%elem_of_cons; done).
          by apply lookup_insert_ne. }
  rewrite Hgen. by rewrite lookup_empty.
Qed.

Lemma py_index_valid {A} (l : list A) (i : Z) :
  (0 <= i < Z.of_nat (length l))%Z ->
  exists x, py_index l i = Ok x /\ l !! Z.to_nat i = Some x.
Proof.
  intros Hi. unfold py_index.
  destruct (Z.ltb_spec i 0) as [|_]; [lia |].
  destruct (Z.ltb_spec i 0) as [|_]; [lia |].
  destruct (lookup_lt_is_Some_2 l (Z.to_nat i)) as [x Hx]; [lia |].
  exists x. by rewrite Hx.
Qed.

Lemma count_classes_valid (class_names : list string) (classes : list Z)
    (d : gmap string Z) :
  Forall (fun c => (0 <= c < Z.of_nat (length class_names))%Z) classes ->
  (forall name, name ∈ class_names -> is_Some (d !! name)) ->
  exists names d',
    count_classes class_names classes d = Ok d' /\
    Forall2 (fun c name => class_names !! Z.to_nat c = Some name) classes names /\
    forall name, d' !! name =
      (fun n => (n + Z.of_nat (occurrences name names))%Z) <$> d !! name.
Proof.
  intros Hvalid. revert d. induction Hvalid as [| c classes Hc _ IH]; intros d Hdom; simpl.
  - exists [], d. split; [done | split; [constructor |]].
    intros name. unfold occurrences. simpl. destruct (d !! name); simpl; f_equal. lia.
  - destruct (py_index_valid class_names c Hc) as (cls & -> & Hcls). simpl.
    destruct (Hdom cls) as [n Hn]; [by eapply list_elem_of_lookup_2 |].
    unfold getitem. rewrite Hn. simpl.
    destruct (IH (<[cls := (n + 1)%Z]> d)) as (names & d' & -> & Hnames & Hd').
    { intros name Hin. destruct (decide (cls = name)) as [-> | Hne].
      - rewrite lookup_insert_eq. eauto.
      - rewrite lookup_insert_ne by done. by apply Hdom. }
    exists (cls :: names), d'. split; [done | split; [by constructor |]].
    intros name. rewrite Hd'. unfold occurrences. rewrite filter_cons.
    destruct (decide (name = cls)) as [-> | Hne].
    + rewrite lookup_insert_eq, Hn. simpl. f_equal. lia.
    + rewrite lookup_insert_ne by done. done.
Qed.

Lemma filled_length nq written texts num :
  filled nq written texts num -> length texts = nq.
Proof.
  intros [-> _]. rewrite length_app, length_take, length_replicate. lia.
Qed.

Lemma fill_texts_filled nq k cls_name written texts num :
  filled nq written texts num ->
  filled nq (written ++ replicate k (photo_with cls_name))
    (fill_texts k cls_name texts num).1 (fill_texts k cls_name texts num).2.
Proof.
  revert written texts num. induction k as [| k IH]; intros written texts num Hf; simpl.
  - by rewrite app_nil_r.
  - pose proof (filled_length _ _ _ _ Hf) as Hlen.
    destruct Hf as [Htexts Hnum].
    destruct (decide (length texts <= num)) as [Hfull | Hroom]; simpl.
    + assert (nq <= length written) by lia.
      split; [| rewrite length_app; lia].
      rewrite take_app_le by done. rewrite length_app.
      replace (nq - (length written + _)) with 0 by lia.
      replace (nq - length written) with 0 in Htexts by lia. done.
    + assert (length written < nq) by lia.
      replace (written ++ photo_with cls_name :: replicate k (photo_with cls_name))
        with ((written ++ [photo_with cls_name]) ++ replicate k (photo_with cls_name))
        by (by rewrite <- app_assoc).
      apply IH. split; [| rewrite length_app; simpl; lia].
      rewrite Htexts, Hnum. rewrite !take_ge by (rewrite ?length_app; simpl; lia).
      replace (length written `min` nq) with (length written + 0) by lia.
      rewrite insert_app_r. rewrite <- app_assoc. f_equal.
      rewrite length_app. simpl.
      destruct (nq - length written) as [| m] eqn:Hm; [lia |]. simpl.
      do 2 f_equal. lia.
Qed.

Lemma texts_loop_filled nq names (d : gmap string Z) (count : string -> nat)
    written texts num :
  (forall name, name ∈ names -> d !! name = Some (Z.of_nat (count name))) ->
  filled nq written texts num ->
  exists texts' num',
    texts_loop names d texts num = Ok (texts', num') /\
    filled nq (written ++ flat_map (fun name => replicate (count name) (photo_with name)) names)
      texts' num'.
Proof.
  revert written texts num. induction names as [| name names IH];
    intros written texts num Hd Hf; simpl.
  - exists texts, num. by rewrite app_nil_r.
  - unfold getitem. rewrite (Hd name) by left. simpl.
    rewrite app_assoc. apply IH; [intros; apply Hd; by right |].
    destruct (Z.ltb_spec 0 (Z.of_nat (count name))) as [Hpos | Hzero].
    + rewrite Nat2Z.id. by apply fill_texts_filled.
    + replace (count name) with 0 by lia. simpl. by rewrite app_nil_r.
Qed.

Lemma filter_eq_replicate (key : string) (names : list string) :
  filter (eq key) names = replicate (occurrences key names) key.
Proof.
  unfold occurrences. induction names as [| name names IH]; [done |].
  rewrite filter_cons. destruct (decide (key = name)) as [<- |]; simpl; [| done].
  by rewrite <- IH.
Qed.

Lemma occurrences_filter_ne (key k : string) (names : list string) :
  k <> key ->
  occurrences k (filter (fun x => key <> x) names) = occurrences k names.
Proof.
  intros Hne. unfold occurrences. induction names as [| name names IH]; [done |].
  rewrite !filter_cons.
  destruct (decide (key <> name)) as [Hk | Hk], (decide (k = name)) as [Hn | Hn];
    simpl; rewrite ?filter_cons, ?decide_True, ?decide_False by done; simpl;
    try (by rewrite IH).
  exfalso. apply Hk. intros ->. done.
Qed.

Lemma flat_map_ext_elem {A B} (f g : A -> list B) (l : list A) :
  (forall x, x ∈ l -> f x = g x) -> flat_map f l = flat_map g l.
Proof.
  induction l as [| x l IH]; intros Hfg; simpl; [done |].
  rewrite Hfg by left. rewrite IH; [done |]. intros y Hy. apply Hfg. by right.
Qed.

(** Grouping a list by the distinct keys it draws from permutes it. *)
Lemma grouped_permutation (keys names : list string) :
  NoDup keys ->
  (forall name, name ∈ names -> name ∈ keys) ->
  flat_map (fun key => replicate (occurrences key names) key) keys ≡ₚ names.
Proof.
  intros Hnd. revert names. induction Hnd as [| key keys Hnotin Hnd IH]; intros names Hin; simpl.
  - destruct names as [| name names]; [done |].
    exfalso. eapply not_elem_of_nil, Hin. left.
  - etrans; [| apply (filter_app_complement (eq key) names)].
    apply Permutation_app; [by rewrite filter_eq_replicate |].
    etrans; [| apply (IH (filter (fun x => key <> x) names))].
    + apply reflexive_eq. apply flat_map_ext_elem. intros k Hk.
      rewrite occurrences_filter_ne; [done |]. by intros ->.
    + intros name [Hne Hname]%list_elem_of_filter.
      apply Hin in Hname. apply elem_of_cons in Hname as [-> | ?]; done.
Qed.

Lemma flat_map_photo (count : string -> nat) (keys : list string) :
  flat_map (fun name => replicate (count name) (photo_with name)) keys =
  map photo_with (flat_map (fun name => replicate (count name) name) keys).
Proof.
  induction keys as [| key keys IH]; simpl; [done |].
  rewrite map_app, IH. f_equal. symmetry. apply (fmap_replicate photo_with).
Qed.

Lemma get_texts_run (self : Mapper) (classes : list Z) :
  Forall (fun c => (0 <= c < Z.of_nat (length (class_names self)))%Z) classes ->
  exists texts names num,
    _get_texts self classes (zero_counters (class_names self)) = Ok texts /\
    Forall2 (fun c name => class_names self !! Z.to_nat c = Some name) classes names /\
    filled (num_queries self)
      (flat_map (fun name => replicate (occurrences name names) (photo_with name))
         (class_names self))
      texts num.
Proof.
  intros Hvalid. unfold _get_texts.
  destruct (count_classes_valid (class_names self) classes
              (zero_counters (class_names self)) Hvalid)
    as (names & d & -> & Hnames & Hd).
  { intros name Hin. rewrite zero_counters_lookup, decide_True by done. eauto. }
  simpl.
  destruct (texts_loop_filled (num_queries self) (class_names self) d
              (fun name => occurrences name names) []
              (replicate (num_queries self) instance_photo) 0)
    as (texts & num & -> & Hfilled).
  { intros name Hin. rewrite Hd, zero_counters_lookup, decide_True by done.
    simpl. f_equal. }
  { split; [| simpl; lia]. rewrite take_nil. simpl. f_equal. lia. }
  simpl in *. by exists texts, names, num.
Qed.

(** C7, amended: when the class names are pairwise distinct, [_get_texts]
    returns exactly [num_queries] strings; the first min(number of instances,
    num_queries) are "a photo with a {cls_name}", one for each instance,
    grouped in the order of [class_names]; every remaining one is
    "an instance photo". *)
Theorem get_texts_prompts (self : Mapper) (classes : list Z) :
  NoDup (class_names self) ->
  Forall (fun c => (0 <= c < Z.of_nat (length (class_names self)))%Z) classes ->
  exists texts names,
    _get_texts self classes (zero_counters (class_names self)) = Ok texts /\
    Forall2 (fun c name => class_names self !! Z.to_nat c = Some name) classes names /\
    length texts = num_queries self /\
    let grouped :=
      flat_map (fun name => replicate (occurrences name names) (photo_with name))
        (class_names self) in
    grouped ≡ₚ map photo_with names /\
    (forall i, i < min (length classes) (num_queries self) -> texts !! i = grouped !! i) /\
    (forall i, min (length classes) (num_queries self) <= i < num_queries self ->
               texts !! i = Some instance_photo).
Proof.
  intros Hnd Hvalid.
  destruct (get_texts_run self classes Hvalid) as (texts & names & num & Hrun & Hnames & Hfilled).
  exists texts, names. split; [done | split; [done |]].
  split; [by eapply filled_length |].
  assert (Hperm : flat_map (fun name => replicate (occurrences name names) (photo_with name))
                    (class_names self) ≡ₚ map photo_with names).
  { rewrite flat_map_photo. apply fmap_Permutation, grouped_permutation; [done |].
    intros name [i Hi]%list_elem_of_lookup.
    destruct (Forall2_lookup_r _ _ _ _ _ Hnames Hi) as (c & _ & Hc).
    by eapply list_elem_of_lookup_2. }
  split; [done |].
  pose proof (Permutation_length Hperm) as Hlen. rewrite length_map in Hlen.
  pose proof (Forall2_length _ _ _ Hnames) as Hlen'.
  destruct Hfilled as [-> _]. split.
  - intros i Hi. rewrite lookup_app_l by (rewrite length_take; lia).
    apply lookup_take_lt. lia.
  - intros i Hi. rewrite lookup_app_r by (rewrite length_take; lia).
    rewrite length_take. apply lookup_replicate_2. lia.
Qed.

Lemma get_texts_prompts_witness :
  exists texts names,
    _get_texts (Demo.mapper true) [1; 0; 1]%Z
      (zero_counters (class_names (Demo.mapper true))) = Ok texts /\
    Forall2 (fun c name => class_names (Demo.mapper true) !! Z.to_nat c = Some name)
      [1; 0; 1]%Z names /\
    length texts = num_queries (Demo.mapper true) /\
    let grouped :=
      flat_map (fun name => replicate (occurrences name names) (photo_with name))
        (class_names (Demo.mapper true)) in
    grouped ≡ₚ map photo_with names /\
    (forall i, i < min (length [1; 0; 1]%Z) (num_queries (Demo.mapper true)) ->
               texts !! i = grouped !! i) /\
    (forall i, min (length [1; 0; 1]%Z) (num_queries (Demo.mapper true)) <= i
               < num_queries (Demo.mapper true) ->
               texts !! i = Some instance_photo).
Proof.
  apply (get_texts_prompts (Demo.mapper true) [1; 0; 1]%Z).
  - simpl. apply NoDup_cons_2; [| apply NoDup_singleton].
    rewrite list_elem_of_singleton. discriminate.
  - simpl. repeat constructor; lia.
Defined.

(** With two classes of the same name, one instance yields two prompts: the
    entry at position 1 = min(1, 3) is not "an instance photo". *)
Lemma get_texts_duplicate_names :
  let self := __init__ true 3 [] (mk_meta [(1, 0); (2, 1)]%Z ["cat"; "cat"]) "RGB" in
  _get_texts self [0%Z] (zero_counters (class_names self)) =
    Ok ["a photo with a cat"; "a photo with a cat"; "an instance photo"] /\
  min (length [0%Z]) (num_queries self) <= 1 < num_queries self.
Proof. split; [vm_compute; reflexivity | simpl; lia]. Qed.

(** ** The caller's objects are left alone *)

Lemma frame_refl s : frame s s.
Proof. by split. Qed.

Section Frame.
Context `{L : Library} (s0 : state).

Local Abbreviation fresh_record := (fresh_record s0).
Local Abbreviation fresh_annotation := (fresh_annotation s0).
Local Abbreviation owns_annotations := (owns_annotations s0).

Lemma on_records_True : on_records (fun _ => True).
Proof. done. Qed.

Lemma on_records_owns d : on_records (owns_annotations d).
Proof. intros s s' Heq Ho rec annos. rewrite <- Heq. apply Ho. Qed.

Lemma triple_bind {A B} P Q R (m : M A) (k : A -> M B) :
  triple s0 P m Q -> (forall a, triple s0 (Q a) (k a) R) -> triple s0 P (m ≫= k) R.
Proof.
  intros Hm Hk s Hf HP. destruct (Hm s Hf HP) as [Hf' HQ].
  unfold mbind, M_bind. destruct (m s) as [[a | e] s'] eqn:Hms; simpl in *; [| done].
  apply Hk; [done | by apply HQ].
Qed.

Lemma triple_consequence {A} (P P' : state -> Prop) (Q Q' : A -> state -> Prop) (m : M A) :
  triple s0 P' m Q' -> (forall s, P s -> P' s) -> (forall a s, Q' a s -> Q a s) ->
  triple s0 P m Q.
Proof.
  intros Hm HP HQ s Hf Hs. destruct (Hm s Hf (HP s Hs)) as [Hf' Hq]. split; [done |].
  intros a Ha. by apply HQ, Hq.
Qed.

Lemma triple_pure {A} (phi : Prop) (P : state -> Prop) (m : M A) Q :
  (phi -> triple s0 P m Q) -> triple s0 (fun s => phi /\ P s) m Q.
Proof. intros Hm s Hf [Hphi HP]. by apply Hm. Qed.

Lemma triple_quiet {A} (P : state -> Prop) (m : M A) :
  quiet m -> on_records P -> triple s0 P m (fun _ => P).
Proof.
  intros Hq HP s [Hr Ha] Hs. destruct (Hq s) as [Hrec Hann]. split; [split |].
  - intros l rec Hl. rewrite Hrec. by apply Hr.
  - intros a anno Hl. by apply Hann, Ha.
  - intros _ _. by apply (HP s).
Qed.

(** *** Quiet computations *)

Lemma quiet_ret {A} (a : A) : quiet (mret a).
Proof. by intros s. Qed.

Lemma quiet_lift {A} (r : result A) : quiet (lift r).
Proof. by intros s. Qed.

Lemma quiet_raise {A} (e : exn) : quiet (raise (A := A) e).
Proof. by intros s. Qed.

Lemma quiet_local {A} name (v : option A) : quiet (local name v).
Proof. destruct v; by intros s. Qed.

Lemma quiet_attribute {A} name (v : option A) : quiet (attribute name v).
Proof. destruct v; by intros s. Qed.

Lemma quiet_emit e : quiet (emit e).
Proof. by intros s. Qed.

Lemma quiet_bind {A B} (m : M A) (k : A -> M B) :
  quiet m -> (forall a, quiet (k a)) -> quiet (m ≫= k).
Proof.
  intros Hm Hk s. destruct (Hm s) as [Hr Ha]. unfold mbind, M_bind.
  destruct (m s) as [[a | e] s'] eqn:Hms; simpl in *; [| done].
  destruct (Hk a s') as [Hr' Ha']. split; [congruence | eauto].
Qed.

Lemma quiet_fmap {A B} (f : A -> B) (m : M A) : quiet m -> quiet (f <$> m).
Proof.
  intros Hm s. destruct (Hm s) as [Hr Ha]. unfold fmap, M_fmap.
  by destruct (m s) as [[a | e] s'].
Qed.

Lemma quiet_mapM {A B} (f : A -> M B) (l : list A) :
  (forall x, quiet (f x)) -> quiet (mapM_M f l).
Proof.
  intros Hf. induction l as [| x l IH]; simpl; [apply quiet_ret |].
  apply quiet_bind; [done |]. intros y. apply quiet_bind; [done |].
  intros ys. apply quiet_ret.
Qed.

Lemma quiet_read_record d : quiet (read_record d).
Proof. intros s. unfold read_record. by destruct (records s !! d). Qed.

Lemma quiet_read_annotation a : quiet (read_annotation a).
Proof. intros s. unfold read_annotation. by destruct (annotations s !! a). Qed.

Lemma alloc_annotation_fresh (s : state) : annotations s !! fresh (dom (annotations s)) = None.
Proof. apply not_elem_of_dom, is_fresh. Qed.

Lemma quiet_alloc_annotation anno : quiet (alloc_annotation anno).
Proof.
  intros s. split; [done |]. simpl. intros a c Ha.
  rewrite lookup_insert_ne; [done |]. intros <-.
  by rewrite alloc_annotation_fresh in Ha.
Qed.

Lemma quiet_record_getitem d key : quiet (record_getitem d key).
Proof. apply quiet_bind; [apply quiet_read_record | intros; apply quiet_lift]. Qed.

Lemma quiet_annotation_getitem a key : quiet (annotation_getitem a key).
Proof. apply quiet_bind; [apply quiet_read_annotation | intros; apply quiet_lift]. Qed.

Lemma quiet_get_annotations d : quiet (get_annotations d).
Proof.
  apply quiet_bind; [apply quiet_read_record |]. intros rec.
  destruct (rec !! "annotations") as [[[| | | | | [|] | | | |] | |] |];
    first [apply quiet_ret | apply quiet_raise].
Qed.

Lemma quiet_collect image annos : quiet (collect image annos).
Proof.
  unfold collect.
  repeat first
    [ apply quiet_ret | apply quiet_lift | apply quiet_emit
    | apply quiet_annotation_getitem
    | apply quiet_mapM; intros ?
    | apply quiet_bind; [| intros ?] ].
Qed.

Lemma quiet_regenerate_annotations masks boxes label_dict :
  quiet (regenerate_annotations masks boxes label_dict).
Proof.
  unfold regenerate_annotations.
  repeat first
    [ apply quiet_ret | apply quiet_lift | apply quiet_emit
    | apply quiet_alloc_annotation
    | apply quiet_mapM; intros ?
    | apply quiet_bind; [| intros ?] ].
Qed.

Lemma quiet_copy_annotations ls memo : quiet (copy_annotations ls memo).
Proof.
  revert memo. induction ls as [| l ls IH]; intros memo; simpl; [apply quiet_ret |].
  destruct (memo !! l); [apply IH |].
  intros s. destruct (annotations s !! l) as [anno |] eqn:Hl; [| apply IH].
  apply (quiet_bind (alloc_annotation anno)); [apply quiet_alloc_annotation |].
  intros a. apply IH.
Qed.

(** *** Writes *)

Lemma frame_write_record d rec s t :
  fresh_record d -> frame s0 s ->
  frame s0 (mk_state (<[d := rec]> (records s)) (annotations s) t).
Proof.
  intros Hd [Hr Ha]. split; [| done]. simpl. intros l r Hl.
  rewrite lookup_insert_ne; [by apply Hr |]. intros <-. congruence.
Qed.

Lemma frame_write_annotation a anno s t :
  fresh_annotation a -> frame s0 s ->
  frame s0 (mk_state (records s) (<[a := anno]> (annotations s)) t).
Proof.
  intros Hd [Hr Ha]. split; [done |]. simpl. intros l r Hl.
  rewrite lookup_insert_ne; [by apply Ha |]. intros <-. congruence.
Qed.

Lemma alloc_record_triple rec :
  triple s0 (fun _ => True) (alloc_record rec) (fun d _ => fresh_record d).
Proof.
  intros s Hf _. simpl.
  assert (Hd : fresh_record (fresh (dom (records s)))).
  { destruct (records s0 !! fresh (dom (records s))) as [r |] eqn:Hl; [| done].
    apply Hf in Hl. apply (elem_of_dom_2 (records s)) in Hl. by apply is_fresh in Hl. }
  split; [by apply frame_write_record |]. by intros d [= <-].
Qed.

Lemma deepcopy_triple d :
  triple s0 (fun _ => True) (deepcopy d) (fun d' _ => fresh_record d').
Proof.
  unfold deepcopy.
  eapply triple_bind;
    [apply triple_quiet; [apply quiet_read_record | apply on_records_True] | intros rec].
  eapply triple_bind;
    [apply triple_quiet; [apply quiet_copy_annotations | apply on_records_True] |
     intros memo].
  apply alloc_record_triple.
Qed.

Lemma record_setitem_run d key v s :
  record_setitem d key v s =
    match records s !! d with
    | Some rec =>
        (Ok tt, mk_state (<[d := <[key := v]> rec]> (records s)) (annotations s)
                  (trace s ++ [SetItem key]))
    | None => (Raise (RuntimeError "dangling reference"), s)
    end.
Proof.
  unfold record_setitem, read_record, mbind, M_bind. by destruct (records s !! d).
Qed.

Lemma record_pop_run d key s :
  record_pop d key s =
    match records s !! d with
    | Some rec =>
        (Ok (rec !! key), mk_state (<[d := delete key rec]> (records s)) (annotations s)
                            (trace s ++ [Pop key]))
    | None => (Raise (RuntimeError "dangling reference"), s)
    end.
Proof.
  unfold record_pop, read_record, mbind, M_bind. by destruct (records s !! d).
Qed.

Lemma write_record_triple d rec :
  fresh_record d ->
  triple s0 (fun _ => True) (write_record d rec) (fun _ _ => True).
Proof. intros Hd s Hf _. split; [by apply frame_write_record | done]. Qed.

Lemma record_setitem_triple d key v :
  fresh_record d ->
  triple s0 (fun _ => True) (record_setitem d key v) (fun _ _ => True).
Proof.
  intros Hd s Hf _. rewrite record_setitem_run.
  destruct (records s !! d); simpl; [| done]. split; [by apply frame_write_record | done].
Qed.

Lemma record_setitem_keeps d key v :
  fresh_record d -> key <> "annotations" ->
  triple s0 (owns_annotations d) (record_setitem d key v) (fun _ => owns_annotations d).
Proof.
  intros Hd Hkey s Hf Ho. rewrite record_setitem_run.
  destruct (records s !! d) as [rec |] eqn:Hrec; simpl; [| done].
  split; [by apply frame_write_record |]. intros _ _ rec' annos. simpl.
  rewrite lookup_insert_eq. intros [= <-]. rewrite lookup_insert_ne by done.
  by apply Ho.
Qed.

Lemma record_setitem_annotations d annos :
  fresh_record d -> Forall fresh_annotation annos ->
  triple s0 (fun _ => True) (record_setitem d "annotations" (VAnnotations annos))
    (fun _ => owns_annotations d).
Proof.
  intros Hd Hannos s Hf _. rewrite record_setitem_run.
  destruct (records s !! d) as [rec |] eqn:Hrec; simpl; [| done].
  split; [by apply frame_write_record |]. intros _ _ rec' annos'. simpl.
  rewrite lookup_insert_eq. intros [= <-]. rewrite lookup_insert_eq. by intros [= <-].
Qed.

Lemma record_pop_triple d key :
  fresh_record d ->
  triple s0 (owns_annotations d) (record_pop d key) (fun _ => owns_annotations d).
Proof.
  intros Hd s Hf Ho. rewrite record_pop_run.
  destruct (records s !! d) as [rec |] eqn:Hrec; simpl; [| done].
  split; [by apply frame_write_record |]. intros _ _ rec' annos'. simpl.
  rewrite lookup_insert_eq. intros [= <-]. intros Hl.
  apply lookup_delete_Some in Hl as [_ Hl]. by eapply Ho.
Qed.

Lemma write_annotation_triple a anno P :
  fresh_annotation a -> on_records P ->
  triple s0 P (write_annotation a anno) (fun _ => P).
Proof.
  intros Ha HP s Hf Hs. split; [by apply frame_write_annotation |].
  intros _ _. by apply (HP s).
Qed.

Lemma alloc_annotation_triple anno P :
  on_records P ->
  triple s0 P (alloc_annotation anno) (fun a s => fresh_annotation a /\ P s).
Proof.
  intros HP s Hf Hs.
  destruct (triple_quiet P _ (quiet_alloc_annotation anno) HP s Hf Hs) as [Hf' _].
  split; [done |]. intros a [= <-]. split; [| by apply (HP s)].
  destruct (annotations s0 !! fresh (dom (annotations s))) as [c |] eqn:Hl; [| done].
  apply Hf in Hl. by rewrite alloc_annotation_fresh in Hl.
Qed.

Lemma triple_mapM {A B} (P : state -> Prop) (phi : B -> Prop) (f : A -> M B) l :
  (forall x, triple s0 P (f x) (fun y s => phi y /\ P s)) ->
  triple s0 P (mapM_M f l) (fun ys s => Forall phi ys /\ P s).
Proof.
  intros Hf. induction l as [| x l IH]; simpl.
  - intros s Hs HP. split; [done |]. by intros ys [= <-].
  - eapply triple_bind; [apply Hf | intros y].
    apply triple_pure. intros Hy.
    eapply triple_bind; [apply IH | intros ys].
    apply triple_pure. intros Hys s Hs HP. split; [done |].
    intros zs [= <-]. split; [by constructor | done].
Qed.

Lemma triple_mapM_Forall {A B} (P : state -> Prop) (phi : A -> Prop) (f : A -> M B) l :
  (forall x, phi x -> triple s0 P (f x) (fun _ => P)) ->
  Forall phi l -> triple s0 P (mapM_M f l) (fun _ => P).
Proof.
  intros Hf Hl. induction Hl as [| x l Hx _ IH]; simpl.
  - by intros s Hs HP.
  - eapply triple_bind; [by apply Hf | intros y].
    eapply triple_bind; [apply IH | intros ys]. by intros s Hs HP.
Qed.

Lemma regenerate_annotations_triple masks boxes label_dict P :
  on_records P ->
  triple s0 P (regenerate_annotations masks boxes label_dict)
    (fun annos s => Forall fresh_annotation annos /\ P s).
Proof.
  intros HP. unfold regenerate_annotations.
  eapply triple_bind; [apply triple_quiet; [apply quiet_emit | done] | intros ?].
  apply triple_mapM. intros i.
  eapply triple_bind; [apply triple_quiet; [apply quiet_lift | done] | intros anno].
  by apply alloc_annotation_triple.
Qed.

Lemma get_annotations_triple d :
  triple s0 (owns_annotations d) (get_annotations d)
    (fun annos s => Forall fresh_annotation annos /\ owns_annotations d s).
Proof.
  intros s Hf Ho. unfold get_annotations, read_record, mbind, M_bind.
  destruct (records s !! d) as [rec |] eqn:Hrec; simpl; [| done].
  destruct (rec !! "annotations") as [[[| | | | | [|] | | | |] | annos |] |] eqn:Hl;
    simpl; (split; [done |]); intros res Hres; simplify_eq/=; (split; [| done]);
    try by constructor.
  by eapply Ho.
Qed.

Lemma transform_annotation_triple tfms image_shape obj P :
  fresh_annotation obj -> on_records P ->
  triple s0 P (transform_annotation tfms image_shape obj) (fun _ => P).
Proof.
  intros Hobj HP. unfold transform_annotation.
  eapply triple_bind;
    [apply triple_quiet; [apply quiet_read_annotation | done] | intros anno].
  destruct (py_eq_zero _).
  - eapply triple_bind; [apply triple_quiet; [apply quiet_emit | done] | intros ?].
    eapply triple_bind; [by apply write_annotation_triple | intros ?].
    apply triple_quiet; [apply quiet_ret | done].
  - apply triple_quiet; [apply quiet_ret | done].
Qed.

Tactic Notation "quiet_step" uconstr(lem) :=
  eapply triple_bind;
  [ apply triple_quiet; [apply lem | first [apply on_records_True | apply on_records_owns]]
  | intros ? ].

Lemma build_instances_triple d tfms image_shape :
  fresh_record d ->
  triple s0 (owns_annotations d) (build_instances d tfms image_shape)
    (fun _ _ => True).
Proof.
  intros Hd. unfold build_instances.
  quiet_step quiet_read_record.
  destruct (_ !! "annotations") as [v |].
  2: { eapply triple_consequence;
         [apply (triple_quiet (owns_annotations d)); [apply quiet_ret | apply on_records_owns]
         | done | done]. }
  eapply triple_bind; [apply get_annotations_triple | intros annos].
  apply triple_pure. intros Hannos.
  eapply triple_bind.
  { apply (triple_mapM_Forall _ fresh_annotation); [| exact Hannos].
    intros obj Hobj.
    quiet_step quiet_read_annotation.
    apply write_annotation_triple; [done | apply on_records_owns]. }
  intros ?.
  eapply triple_bind; [by apply record_pop_triple | intros ?].
  eapply triple_bind.
  { apply (triple_mapM_Forall _ fresh_annotation); [| exact Hannos].
    intros obj Hobj. apply transform_annotation_triple; [done | apply on_records_owns]. }
  intros transformed.
  eapply triple_consequence with (P' := owns_annotations d) (Q' := fun _ => owns_annotations d);
    [| done | done].
  quiet_step quiet_emit.
  quiet_step quiet_attribute.
  quiet_step quiet_emit.
  destruct (gt_masks _) as [[polygons | a'] |].
  - quiet_step quiet_emit. quiet_step quiet_lift.
    apply triple_quiet; [apply quiet_ret | apply on_records_owns].
  - apply triple_quiet; [apply quiet_raise | apply on_records_owns].
  - apply triple_quiet; [apply quiet_ret | apply on_records_owns].
Qed.

Lemma prepare_triple (self : Mapper) (dataset_dict : loc) :
  triple s0 (fun _ => True) (prepare self dataset_dict)
    (fun prepared s => fresh_record prepared.1.1 /\ owns_annotations prepared.1.1 s).
Proof.
  unfold prepare.
  eapply triple_bind; [apply deepcopy_triple | intros d].
  eapply triple_consequence with
    (P' := fun s => fresh_record d /\ True)
    (Q' := fun prepared s => fresh_record prepared.1.1 /\ owns_annotations prepared.1.1 s);
    [| done | done].
  apply triple_pure. intros Hd.
  quiet_step quiet_record_getitem.
  quiet_step quiet_emit.
  quiet_step quiet_emit.
  quiet_step quiet_read_record.
  eapply triple_bind; [by apply write_record_triple | intros ?].
  quiet_step quiet_get_annotations.
  eapply triple_bind.
  { apply triple_quiet; [| apply on_records_True].
    destruct (_ && _); [apply quiet_fmap, quiet_collect | apply quiet_ret]. }
  intros locals.
  quiet_step quiet_local.
  quiet_step quiet_emit.
  quiet_step quiet_emit.
  eapply triple_bind; [apply regenerate_annotations_triple, on_records_True | intros annos].
  apply triple_pure. intros Hannos.
  eapply triple_bind; [by apply record_setitem_annotations | intros ?].
  quiet_step quiet_emit.
  quiet_step quiet_lift.
  eapply triple_bind; [by apply record_setitem_keeps | intros ?].
  eapply triple_bind; [by apply record_setitem_keeps | intros ?].
  intros s Hf Ho. split; [done |]. by intros prepared [= <-].
Qed.

Lemma call_triple (self : Mapper) (dataset_dict : loc) :
  triple s0 (fun _ => True) (__call__ self dataset_dict) (fun _ _ => True).
Proof.
  unfold __call__.
  eapply triple_bind; [apply prepare_triple | intros [[d tfms] image_shape]]. simpl.
  eapply triple_consequence with
    (P' := fun s => fresh_record d /\ owns_annotations d s) (Q' := fun _ _ => True);
    [| done | done].
  apply triple_pure. intros Hd.
  destruct (negb (is_train self)).
  - eapply triple_bind; [by apply record_pop_triple | intros ?].
    eapply triple_consequence;
      [apply (triple_quiet (fun _ => True)); [apply quiet_ret | done] | done | done].
  - eapply triple_bind; [by apply build_instances_triple | intros instances].
    quiet_step quiet_local.
    quiet_step quiet_attribute.
    quiet_step quiet_emit.
    quiet_step quiet_lift.
    do 5 (eapply triple_bind; [by apply record_setitem_triple | intros ?]).
    apply triple_quiet; [apply quiet_ret | done].
Qed.

End Frame.

Lemma call_frame `{L : Library} (self : Mapper) (dataset_dict : loc) (s : state) :
  frame s (__call__ self dataset_dict s).2.
Proof. by apply (call_triple s self dataset_dict s (frame_refl s)). Qed.

(** ** Running the mapper *)

Section Runs.
Context `{L : Library}.

Lemma bind_run {A B} (m : M A) (k : A -> M B) s a s1 :
  m s = (Ok a, s1) -> (m ≫= k) s = k a s1.
Proof. intros Hm. unfold mbind, M_bind. by rewrite Hm. Qed.

Lemma bind_raise {A B} (m : M A) (k : A -> M B) s e s1 :
  m s = (Raise e, s1) -> (m ≫= k) s = (Raise e, s1).
Proof. intros Hm. unfold mbind, M_bind. by rewrite Hm. Qed.

Lemma fmap_run {A B} (f : A -> B) (m : M A) s a s1 :
  m s = (Ok a, s1) -> (f <$> m) s = (Ok (f a), s1).
Proof. intros Hm. unfold fmap, M_fmap. by rewrite Hm. Qed.

Lemma emit_run {B} e (k : unit -> M B) R A T :
  (emit e ≫= k) (mk_state R A T) = k tt (mk_state R A (T ++ [e])).
Proof. done. Qed.

Lemma lift_run {A' B} (r : result A') (k : A' -> M B) a s :
  r = Ok a -> (lift r ≫= k) s = k a s.
Proof. by intros ->. Qed.

Lemma local_run {A' B} name (v : A') (k : A' -> M B) s :
  (local name (Some v) ≫= k) s = k v s.
Proof. done. Qed.

Lemma attribute_run {A' B} name (v : A') (k : A' -> M B) s :
  (attribute name (Some v) ≫= k) s = k v s.
Proof. done. Qed.

Lemma write_record_run {B} d rec (k : unit -> M B) R A T :
  (write_record d rec ≫= k) (mk_state R A T) = k tt (mk_state (<[d := rec]> R) A T).
Proof. done. Qed.

Lemma read_record_run d R A T rec :
  R !! d = Some rec -> read_record d (mk_state R A T) = (Ok rec, mk_state R A T).
Proof. intros HR. unfold read_record. simpl. by rewrite HR. Qed.

Lemma record_getitem_run d key R A T rec v :
  R !! d = Some rec -> rec !! key = Some v ->
  record_getitem d key (mk_state R A T) = (Ok v, mk_state R A T).
Proof.
  intros HR Hk. unfold record_getitem, read_record, lift, getitem, mbind, M_bind. simpl.
  by rewrite HR, Hk.
Qed.

Lemma record_setitem_step {B} d key v (k : unit -> M B) R A T rec :
  R !! d = Some rec ->
  (record_setitem d key v ≫= k) (mk_state R A T) =
    k tt (mk_state (<[d := <[key := v]> rec]> R) A (T ++ [SetItem key])).
Proof.
  intros HR. unfold mbind at 1, M_bind at 1. rewrite record_setitem_run. simpl.
  by rewrite HR.
Qed.

Lemma record_pop_step {B} d key (k : option value -> M B) R A T rec :
  R !! d = Some rec ->
  (record_pop d key ≫= k) (mk_state R A T) =
    k (rec !! key) (mk_state (<[d := delete key rec]> R) A (T ++ [Pop key])).
Proof.
  intros HR. unfold mbind at 1, M_bind at 1. rewrite record_pop_run. simpl.
  by rewrite HR.
Qed.

Lemma get_annotations_run d R A T rec annos :
  R !! d = Some rec -> rec !! "annotations" = Some (VAnnotations annos) ->
  get_annotations d (mk_state R A T) = (Ok annos, mk_state R A T).
Proof.
  intros HR Hk. unfold get_annotations.
  rewrite (bind_run _ _ _ _ _ (read_record_run d R A T rec HR)). by rewrite Hk.
Qed.

Lemma annotation_getitem_run a key R A T anno v :
  A !! a = Some anno -> anno !! key = Some v ->
  annotation_getitem a key (mk_state R A T) = (Ok v, mk_state R A T).
Proof.
  intros HA Hk. unfold annotation_getitem, read_annotation, lift, getitem, mbind, M_bind.
  simpl. by rewrite HA, Hk.
Qed.

(** *** [deepcopy] *)

Lemma copy_annotations_run ls memo A :
  copies memo A ->
  exists memo' A',
    (forall R T,
       copy_annotations ls memo (mk_state R A T) = (Ok memo', mk_state R A' T)) /\
    (forall a anno, A !! a = Some anno -> A' !! a = Some anno) /\
    copies memo' A' /\
    (forall a, a ∈ ls -> is_Some (A !! a) -> is_Some (memo' !! a)) /\
    (forall a, is_Some (memo !! a) -> is_Some (memo' !! a)).
Proof.
  revert memo A. induction ls as [| l ls IH]; intros memo A Hc.
  - exists memo, A. split; [done |]. split; [done |]. split; [done |].
    split; [| done]. by intros a ?%elem_of_nil.
  - destruct (memo !! l) as [l' |] eqn:Hl.
    { destruct (IH memo A Hc) as (memo' & A' & Hrun & Hext & Hc' & Hin & Hmono).
      exists memo', A'. split; [intros R T; simpl; rewrite Hl; apply Hrun |].
      split; [done |]. split; [done |].
      split; [| done]. intros a [-> | Ha]%elem_of_cons Hs; [| by apply Hin].
      apply Hmono. by rewrite Hl. }
    destruct (A !! l) as [anno |] eqn:HA.
    + set (a := fresh (dom A)).
      assert (Ha : A !! a = None) by apply not_elem_of_dom, is_fresh.
      assert (Hext1 : forall x c, A !! x = Some c -> <[a := anno]> A !! x = Some c).
      { intros x c Hx. rewrite lookup_insert_ne; [done |]. intros <-. congruence. }
      destruct (IH (<[l := a]> memo) (<[a := anno]> A))
        as (memo' & A' & Hrun & Hext & Hc' & Hin & Hmono).
      { intros x x'. destruct (decide (l = x)) as [<- | Hne].
        - rewrite lookup_insert_eq. intros [= <-]. exists anno.
          split; [by apply Hext1 | apply lookup_insert_eq].
        - rewrite lookup_insert_ne by done. intros Hx.
          destruct (Hc x x' Hx) as (c & H1 & H2). exists c. split; by apply Hext1. }
      exists memo', A'.
      split; [intros R T; simpl; rewrite Hl; simpl; rewrite HA; apply Hrun |].
      split; [intros x c Hx; by apply Hext, Hext1 |]. split; [done |]. split.
      * intros x [-> | Hx]%elem_of_cons Hs.
        -- apply Hmono. rewrite lookup_insert_eq. eauto.
        -- apply Hin; [done |]. destruct Hs as [c Hs]. exists c. by apply Hext1.
      * intros x Hx. apply Hmono. destruct (decide (l = x)) as [<- | Hne].
        -- rewrite lookup_insert_eq. eauto.
        -- by rewrite lookup_insert_ne.
    + destruct (IH memo A Hc) as (memo' & A' & Hrun & Hext & Hc' & Hin & Hmono).
      exists memo', A'. split; [intros R T; simpl; rewrite Hl; simpl; rewrite HA; apply Hrun |].
      split; [done |]. split; [done |].
      split; [| done]. intros a [-> | Ha]%elem_of_cons Hs; [| by apply Hin].
      destruct Hs as [c Hs]. congruence.
Qed.

Lemma deepcopy_run l R A rec :
  R !! l = Some rec ->
  exists d memo A',
    (forall T, deepcopy l (mk_state R A T) =
                 (Ok d, mk_state (<[d := rename memo <$> rec]> R) A' T)) /\
    R !! d = None /\
    (forall a anno, A !! a = Some anno -> A' !! a = Some anno) /\
    (forall key annos a anno,
       rec !! key = Some (VAnnotations annos) -> a ∈ annos -> A !! a = Some anno ->
       exists a', memo !! a = Some a' /\ A' !! a' = Some anno).
Proof.
  intros Hl. unfold deepcopy.
  destruct (copy_annotations_run
              (flat_map (fun kv : string * value => value_refs kv.2) (map_to_list rec))
              ∅ A) as (memo & A' & Hrun & Hext & Hc & Hin & _).
  { intros a a'. by rewrite lookup_empty. }
  exists (fresh (dom R)), memo, A'.
  split.
  { intros T. rewrite (bind_run _ _ _ _ _ (read_record_run l R A T rec Hl)).
    by rewrite (bind_run _ _ _ _ _ (Hrun R T)). }
  split; [apply not_elem_of_dom, is_fresh |]. split; [done |].
  intros key annos a anno Hkey Ha HA.
  destruct (Hin a) as [a' Ha']; [| by eauto |].
  { apply list_elem_of_In, in_flat_map. exists (key, VAnnotations annos).
    split; [| by apply list_elem_of_In].
    apply list_elem_of_In. by apply elem_of_map_to_list. }
  exists a'. split; [done |]. destruct (Hc a a' Ha') as (c & H1 & H2).
  apply Hext in HA. congruence.
Qed.

(** *** Loops over the annotation objects *)

Lemma flat_map_const_nil {A B} (l : list A) : flat_map (fun _ => @nil B) l = [].
Proof. by induction l. Qed.

Lemma flat_map_const_singleton {A B} (l : list A) (b : B) :
  flat_map (fun _ => [b]) l = replicate (length l) b.
Proof. induction l as [| x l IH]; simpl; [done |]. by rewrite IH. Qed.

(** A loop whose body reads the store and emits [tr]. *)
Lemma mapM_readonly {X B} (f : X -> M B) (tr : list event) A (l : list X) :
  Forall (fun x => exists y, forall R T,
            f x (mk_state R A T) = (Ok y, mk_state R A (T ++ tr))) l ->
  exists ys,
    (forall R T, mapM_M f l (mk_state R A T) =
                   (Ok ys, mk_state R A (T ++ flat_map (fun _ => tr) l))) /\
    length ys = length l.
Proof.
  intros Hl. induction Hl as [| x l [y Hy] _ (ys & Hys & Hlen)]; simpl.
  - exists []. split; [| done]. intros R T. by rewrite app_nil_r.
  - exists (y :: ys). split; [| simpl; lia]. intros R T.
    rewrite (bind_run _ _ _ _ _ (Hy R T)). rewrite (bind_run _ _ _ _ _ (Hys R _)).
    by rewrite <- app_assoc.
Qed.

(** A loop that allocates one annotation object for each element. *)
Lemma alloc_loop_run {X} (g : X -> result (gmap string pyval)) (l : list X) A :
  (forall x, x ∈ l -> exists anno, g x = Ok anno) ->
  exists locs A',
    (forall R T,
       mapM_M (fun x => anno ← lift (g x); alloc_annotation anno) l (mk_state R A T) =
         (Ok locs, mk_state R A' T)) /\
    NoDup locs /\
    Forall (fun a => A !! a = None) locs /\
    (forall a anno, A !! a = Some anno -> A' !! a = Some anno) /\
    Forall2 (fun a x => A' !! a = Some (from_ok ∅ (g x))) locs l.
Proof.
  revert A. induction l as [| x l IH]; intros A Hg; simpl.
  - exists [], A. split; [done |]. split; [constructor |]. by repeat split.
  - destruct (Hg x) as [anno Hx]; [left |].
    set (a := fresh (dom A)).
    assert (Ha : A !! a = None) by apply not_elem_of_dom, is_fresh.
    destruct (IH (<[a := anno]> A)) as (locs & A' & Hrun & Hnd & Hfresh & Hext & Hall).
    { intros y Hy. apply Hg. by right. }
    exists (a :: locs), A'.
    assert (Hstep : forall R T,
              (anno0 ← lift (g x); alloc_annotation anno0) (mk_state R A T) =
              (Ok a, mk_state R (<[a := anno]> A) T)).
    { intros R T. unfold lift, mbind, M_bind. by rewrite Hx. }
    split.
    { intros R T. rewrite (bind_run _ _ _ _ _ (Hstep R T)).
      by rewrite (bind_run _ _ _ _ _ (Hrun R T)). }
    assert (Hnotin : a ∉ locs).
    { intros Hin. rewrite Forall_forall in Hfresh. apply Hfresh in Hin.
      by rewrite lookup_insert_eq in Hin. }
    split; [by constructor |]. split.
    { constructor; [done |]. eapply Forall_impl; [exact Hfresh |]. simpl.
      intros b Hb. destruct (decide (a = b)) as [<- | Hne]; [done |].
      by rewrite lookup_insert_ne in Hb. }
    split.
    { intros b c Hb. apply Hext. rewrite lookup_insert_ne; [done |]. intros <-. congruence. }
    constructor; [| done]. rewrite Hx. simpl. apply Hext, lookup_insert_eq.
Qed.

(** A loop that rewrites each annotation object in place. *)
Lemma update_loop_run {B} (f : loc -> M B) (h : gmap string pyval -> gmap string pyval)
    (out : gmap string pyval -> B) (tr : list event) (phi : gmap string pyval -> Prop) :
  (forall a R A T c, A !! a = Some c -> phi c ->
     f a (mk_state R A T) = (Ok (out c), mk_state R (<[a := h c]> A) (T ++ tr))) ->
  forall locs cs A,
    NoDup locs ->
    Forall2 (fun a c => A !! a = Some c /\ phi c) locs cs ->
    exists A',
      (forall R T, mapM_M f locs (mk_state R A T) =
                     (Ok (map out cs), mk_state R A' (T ++ flat_map (fun _ => tr) locs))) /\
      Forall2 (fun a c => A' !! a = Some (h c)) locs cs /\
      (forall a, a ∉ locs -> A' !! a = A !! a).
Proof.
  intros Hf locs cs A Hnd Hall. revert A Hall.
  revert cs. induction Hnd as [| a locs Hnotin Hnd IH]; intros cs A Hall.
  - apply Forall2_nil_inv_l in Hall as ->. exists A. simpl.
    split; [intros R T; by rewrite app_nil_r |]. split; [constructor | done].
  - apply Forall2_cons_inv_l in Hall as (c & cs' & [Ha Hphi] & Hall & ->).
    destruct (IH cs' (<[a := h c]> A)) as (A' & Hrun & Hall' & Hother).
    { clear IH Hnd. induction Hall as [| b cb locs cs' [Hb Hpb] _ IH]; constructor.
      - split; [| done]. rewrite lookup_insert_ne; [done |]. intros <-. apply Hnotin. left.
      - apply IH. intros Hin. apply Hnotin. by right. }
    exists A'. simpl. split.
    { intros R T. rewrite (bind_run _ _ _ _ _ (Hf a R A T c Ha Hphi)).
      rewrite (bind_run _ _ _ _ _ (Hrun R _)). by rewrite <- app_assoc. }
    split.
    + constructor; [| done]. rewrite Hother by done. apply lookup_insert_eq.
    + intros b Hb. apply not_elem_of_cons in Hb as [Hne Hb].
      rewrite Hother by done. by rewrite lookup_insert_ne.
Qed.

End Runs.

(** *** The blocks of [__call__] *)

Section Blocks.
Context `{L : Library}.

Lemma extend_masks__accepted (masks_ : list pyval) (polygons : pyval) :
  accepted polygons = true -> exists acc, extend_masks_ masks_ polygons = Ok acc.
Proof.
  destruct polygons as [| | | | | l | | | a |]; simpl; try discriminate.
  - destruct (forallb is_float l); [eauto |]. simpl. intros ->. eauto.
  - intros Ha%bool_decide_eq_true. rewrite Ha. eauto.
Qed.

Lemma convert_loop_total {HL : MaskLaws L} segmentations height width masks_ masks :
  forallb accepted segmentations = true ->
  exists out, convert_loop segmentations height width masks_ masks = Ok out.
Proof.
  revert masks_ masks. induction segmentations as [| polygons rest IH];
    intros masks_ masks; simpl; [eauto |].
  intros [Hp Hrest]%andb_prop.
  destruct (extend_masks__accepted masks_ polygons Hp) as [acc ->]. simpl.
  destruct (rasterize_shape (PyList acc) height width) as (mask & -> & _). simpl.
  by apply IH.
Qed.

Lemma convert_coco_poly_to_mask__total {HL : MaskLaws L} segmentations height width :
  forallb accepted segmentations = true ->
  exists masks, convert_coco_poly_to_mask_ segmentations height width = Ok masks.
Proof.
  intros Hacc. unfold convert_coco_poly_to_mask_.
  destruct (convert_loop_total segmentations height width [] [] Hacc) as [out Hout].
  rewrite Hout. simpl.
  apply convert_loop_shapes in Hout as [Hshapes _]; [| constructor].
  destruct out as [| m [| m' out]]; [eauto | eauto |].
  destruct (stack_same_shape _ _ _ Hshapes) as (a & -> & _). eauto.
Qed.

Lemma Forall_exists_Forall2 {A B} (P : A -> B -> Prop) (l : list A) :
  Forall (fun a => exists b, P a b) l -> exists bs, Forall2 P l bs.
Proof.
  induction 1 as [| a l [b Hb] _ [bs Hbs]]; [by exists [] |].
  exists (b :: bs). by constructor.
Qed.

Lemma mapM_getitem_run key A (annos : list loc) (contents : list (gmap string pyval))
    (vs : list pyval) :
  Forall2 (fun a anno => A !! a = Some anno) annos contents ->
  Forall2 (fun anno v => anno !! key = Some v) contents vs ->
  forall R T,
    mapM_M (fun anno => annotation_getitem anno key) annos (mk_state R A T) =
      (Ok vs, mk_state R A T).
Proof.
  intros Hannos. revert vs. induction Hannos as [| a anno annos contents Ha _ IH];
    intros vs Hvs R T.
  - by apply Forall2_nil_inv_l in Hvs as ->.
  - apply Forall2_cons_inv_l in Hvs as (v & vs' & Hv & Hvs & ->). simpl.
    rewrite (bind_run _ _ _ _ _ (annotation_getitem_run a key R A T anno v Ha Hv)).
    by rewrite (bind_run _ _ _ _ _ (IH vs' Hvs R T)).
Qed.

Lemma collect_run {HL : MaskLaws L} image annos contents A :
  is_image image ->
  Forall2 (fun a anno => A !! a = Some anno /\ readable anno) annos contents ->
  exists masks boxes labels,
    (forall R T,
       collect image annos (mk_state R A T) =
         (Ok (masks, boxes, {["labels" := labels]}),
          mk_state R A
            (T ++ replicate (length annos) (Call "convert_coco_poly_to_mask_")))) /\
    length masks = length annos /\
    Forall2 (fun anno v => anno !! "category_id" = Some v) contents labels.
Proof.
  intros (h & w & c & Himage) Hannos. unfold collect.
  assert (Hall : Forall (fun a => exists anno, A !! a = Some anno /\ readable anno) annos).
  { clear -Hannos. induction Hannos; constructor; eauto. }
  destruct (mapM_readonly
    (fun anno =>
       segmentation ← annotation_getitem anno "segmentation";
       height ← lift (list_getitem (shape image) 0);
       width ← lift (list_getitem (shape image) 1);
       emit (Call "convert_coco_poly_to_mask_");;
       segmentations ← lift (py_iter segmentation);
       lift (convert_coco_poly_to_mask_ segmentations height width))
    [Call "convert_coco_poly_to_mask_"] A annos) as (masks & Hmasks & Hlen).
  { eapply Forall_impl; [exact Hall |]. simpl.
    intros a (anno & Ha & (seg & segs & Hseg & Hiter & Hacc) & _ & _).
    destruct (convert_coco_poly_to_mask__total segs h w Hacc) as [mask Hmask].
    exists mask. intros R' T'.
    rewrite (bind_run _ _ _ _ _ (annotation_getitem_run a _ R' A T' anno seg Ha Hseg)).
    rewrite Himage. unfold lift, emit, mbind, M_bind. simpl. by rewrite Hiter, Hmask. }
  rewrite flat_map_const_singleton in Hmasks.
  destruct (mapM_readonly (fun anno => annotation_getitem anno "bbox") [] A annos)
    as (boxes & Hboxes & _).
  { eapply Forall_impl; [exact Hall |]. simpl.
    intros a (anno & Ha & _ & [v Hv] & _). exists v. intros R' T'. rewrite app_nil_r.
    by eapply annotation_getitem_run. }
  assert (Hcat : exists labels,
            Forall2 (fun anno v => anno !! "category_id" = Some v) contents labels).
  { apply Forall_exists_Forall2. clear -Hannos.
    induction Hannos as [| a anno annos contents [_ (_ & _ & Hv)] _ IH]; constructor; done. }
  destruct Hcat as [labels Hcat].
  pose proof (mapM_getitem_run "category_id" A annos contents labels
                ltac:(eapply Forall2_impl; [exact Hannos |]; by intros ? ? [? _]) Hcat)
    as Hlabels.
  rewrite flat_map_const_nil in Hboxes.
  exists masks, boxes, labels. split; [| done]. intros R T.
  rewrite (bind_run _ _ _ _ _ (Hmasks R T)), (bind_run _ _ _ _ _ (Hboxes R _)),
    (bind_run _ _ _ _ _ (Hlabels R _)).
  by rewrite !app_nil_r.
Qed.

Lemma new_annotation_run boxes (label_dict : gmap string (list Z)) labels
    (masks : list (list (list float))) i :
  length masks <= length boxes ->
  Forall (fun box => length box = 4) boxes ->
  label_dict !! "labels" = Some labels ->
  length masks <= length labels ->
  i < length masks ->
  exists box label polygons,
    boxes !! i = Some box /\ labels !! i = Some label /\ masks !! i = Some polygons /\
    new_annotation boxes label_dict masks i = Ok (annotation_of box label polygons).
Proof.
  intros Hboxes Hfour Hlabels Hlen Hi.
  destruct (lookup_lt_is_Some_2 boxes i) as [box Hbox]; [lia |].
  destruct (lookup_lt_is_Some_2 labels i) as [label Hlabel]; [lia |].
  destruct (lookup_lt_is_Some_2 masks i) as [polygons Hpolygons]; [lia |].
  exists box, label, polygons. split; [done |]. split; [done |]. split; [done |].
  unfold new_annotation, list_getitem, getitem. rewrite Hbox, Hlabels. simpl.
  rewrite Forall_forall in Hfour.
  pose proof (Hfour box (list_elem_of_lookup_2 _ _ _ Hbox)) as Hb.
  destruct box as [| x1 [| y1 [| x2 [| y2 [| ? ?]]]]]; try discriminate. simpl.
  by rewrite Hlabel, Hpolygons.
Qed.

Lemma regenerate_annotations_run masks boxes (label_dict : gmap string (list Z)) labels A :
  length masks <= length boxes ->
  Forall (fun box => length box = 4) boxes ->
  label_dict !! "labels" = Some labels ->
  length masks <= length labels ->
  exists annos A',
    (forall R T,
       regenerate_annotations masks boxes label_dict (mk_state R A T) =
         (Ok annos, mk_state R A' (T ++ [Call "binary_masks_to_polygons"]))) /\
    length annos = length masks /\
    NoDup annos /\
    Forall (fun a => A !! a = None) annos /\
    (forall a anno, A !! a = Some anno -> A' !! a = Some anno) /\
    forall i mask, masks !! i = Some mask ->
      exists a box label,
        annos !! i = Some a /\ boxes !! i = Some box /\ labels !! i = Some label /\
        length box = 4 /\
        A' !! a = Some (annotation_of box label (mask_to_polygons mask)).
Proof.
  intros Hboxes Hfour Hlabels Hlen. unfold regenerate_annotations.
  pose proof (length_map mask_to_polygons masks) as Hpolys.
  fold (binary_masks_to_polygons masks) in Hpolys.
  destruct (alloc_loop_run
              (new_annotation boxes label_dict (binary_masks_to_polygons masks))
              (seq 0 (length (binary_masks_to_polygons masks))) A)
    as (annos & A' & Hrun & Hnd & Hfresh & Hext & Hall).
  { intros i Hi%elem_of_seq.
    destruct (new_annotation_run boxes label_dict labels (binary_masks_to_polygons masks) i)
      as (box & label & polygons & _ & _ & _ & Hnew); try done; try lia. eauto. }
  exists annos, A'. split; [intros R T; apply Hrun |].
  pose proof (Forall2_length _ _ _ Hall) as Hlen'. rewrite length_seq in Hlen'.
  split; [lia |]. split; [done |]. split; [done |]. split; [done |].
  intros i mask Hmask.
  pose proof (lookup_lt_Some _ _ _ Hmask) as Hi.
  destruct (new_annotation_run boxes label_dict labels (binary_masks_to_polygons masks) i)
    as (box & label & polygons & Hbox & Hlabel & Hpolygons & Hnew); try done; try lia.
  destruct (lookup_lt_is_Some_2 annos i) as [a Ha]; [lia |].
  exists a, box, label. split; [done |]. split; [done |]. split; [done |].
  split.
  { rewrite Forall_forall in Hfour. apply Hfour. by eapply list_elem_of_lookup_2. }
  assert (Hseq : seq 0 (length (binary_masks_to_polygons masks)) !! i = Some i).
  { rewrite lookup_seq. split; [done | lia]. }
  pose proof (Forall2_lookup_lr _ _ _ _ _ _ Hall Ha Hseq) as Hlook.
  simpl in Hlook. rewrite Hnew in Hlook. simpl in Hlook. rewrite Hlook. do 2 f_equal.
  unfold binary_masks_to_polygons in Hpolygons. rewrite list_lookup_fmap, Hmask in Hpolygons.
  by injection Hpolygons as <-.
Qed.

End Blocks.

(** *** The whole of [prepare] *)

Section Prepare.
Context `{L : Library} {HM : MaskLaws L} {HI : ImageLaws L} {HS : SizeLaws L}.

(** What lines 254-296 leave behind, in full: the copy [d] is a new record,
    its "image" is the transformed image as a channels x height x width
    tensor, the image shape handed on is that height and width, and every key
    but the five that these lines write is as [deepcopy] made it. *)
Lemma prepare_outcome (self : Mapper) l R A rec :
  use_big_copy_paste self = true ->
  R !! l = Some rec ->
  processable A rec ->
  exists d tfms memo rec1 A1 annos new img pad h w c image masks boxes labels_in labels_out,
    (forall T, prepare self l (mk_state R A T) =
                 (Ok (d, tfms, [h; w]),
                  mk_state (<[d := rec1]> R) A1 (T ++ prepare_trace (length annos)))) /\
    rec !! "annotations" = Some (VAnnotations annos) /\
    R !! d = None /\
    (forall a anno, A !! a = Some anno -> A1 !! a = Some anno) /\
    rec1 !! "image" = Some (VPy (PyArray img)) /\
    a_lib img = Torch /\ shape img = [c; h; w] /\
    rec1 !! "padding_mask" = Some (VPy (PyArray pad)) /\
    a_lib pad = Torch /\ a_dtype pad = bool_ /\
    rec1 !! "annotations" = Some (VAnnotations new) /\
    new <> [] /\ NoDup new /\
    Forall2 (fun a v => exists anno, A !! a = Some anno /\
                                     anno !! "category_id" = Some v) annos labels_in /\
    (bigcopypaste image masks boxes {["labels" := labels_in]}).2 !! "labels" =
      Some labels_out /\
    Forall (fun a => exists anno label,
              A1 !! a = Some anno /\
              anno !! "iscrowd" = Some (PyInt 0) /\
              anno !! "category_id" = Some (PyInt label) /\
              label ∈ labels_out) new /\
    (forall key, key <> "image" -> key <> "padding_mask" -> key <> "annotations" ->
                 key <> "width" -> key <> "height" ->
                 rec1 !! key = rename memo <$> rec !! key).
Proof.
  intros Hbig Hl ([file_name Hfile] & annos & contents & Hannos & Hne & Hcontents).
  destruct (deepcopy_run l R A rec Hl) as (d & memo & A0 & Hcopy & Hd & Hext & Hmemo).
  set (rec0 := rename memo <$> rec).
  set (annos0 := map (fun a => default a (memo !! a)) annos).
  assert (Hannos0 : rec0 !! "annotations" = Some (VAnnotations annos0)).
  { unfold rec0. by rewrite lookup_fmap, Hannos. }
  assert (Hcontents0 :
            Forall2 (fun a anno => A0 !! a = Some anno /\ readable anno) annos0 contents).
  { unfold annos0. apply Forall2_fmap_l.
    apply Forall2_same_length_lookup. split; [by eapply Forall2_length |].
    intros i a anno Ha Hanno.
    destruct (Forall2_lookup_lr _ _ _ _ _ _ Hcontents Ha Hanno) as [HA Hread].
    destruct (Hmemo "annotations" annos a anno Hannos (list_elem_of_lookup_2 _ _ _ Ha) HA)
      as (a' & Ha' & HA'). simpl. rewrite Ha'. simpl. done. }
  set (image := read_image (rename memo file_name) (img_format self)).
  assert (Himage : is_image image) by apply read_image_shape.
  set (rec0' := check_image_size rec0 image).
  assert (Hannos0' : rec0' !! "annotations" = Some (VAnnotations annos0)).
  { unfold rec0'. by rewrite check_image_size_frame. }
  destruct (collect_run image annos0 contents A0 Himage Hcontents0)
    as (masks & boxes & labels & Hcollect & Hmasks & Hcat).
  set (pasted := bigcopypaste image masks boxes {["labels" := labels]}).
  destruct (bigcopypaste_boxes image masks boxes {["labels" := labels]}) as [Hboxes Hfour].
  destruct (bigcopypaste_labels image masks boxes {["labels" := labels]})
    as (labels' & Hlabels & Hlabels').
  assert (Hmasks' : pasted.1.1.2 <> []).
  { apply bigcopypaste_nonempty. intros ->. destruct annos; [done | discriminate]. }
  fold pasted in Hboxes, Hfour, Hlabels, Hlabels'.
  set (image' := (apply_transform_gens (tfm_gens self) pasted.1.1.1).1).
  set (tfms := (apply_transform_gens (tfm_gens self) pasted.1.1.1).2).
  assert (Himage' : is_image image').
  { apply apply_transform_gens_image, bigcopypaste_image, Himage. }
  destruct (regenerate_annotations_run pasted.1.1.2 pasted.1.2 pasted.2 labels' A0)
    as (new & A1 & Hregen & Hnew & Hnd & Hfresh & Hext1 & Hdicts); try done; try lia.
  destruct Himage' as (h & w & c & Hshape).
  set (chw := mk_array (a_lib image') (a_dtype image') [c; h; w]
                (flat_map (fun k =>
                   flat_map (fun i =>
                     map (fun j => nth ((i * w + j) * c + k) (data image') 0%Z) (seq 0 w))
                     (seq 0 h))
                   (seq 0 c))).
  assert (Htranspose : transpose_201 image' = Ok chw).
  { unfold transpose_201. by rewrite Hshape. }
  set (padding_mask :=
         invert_bool (apply_segmentation tfms (ones (take 2 (shape image))))).
  set (rec1 := <["padding_mask" := VPy (PyArray (as_tensor padding_mask))]>
               (<["image" := VPy (PyArray (as_tensor chw))]>
               (<["annotations" := VAnnotations new]> rec0'))).
  exists d, tfms, memo, rec1, A1, annos, new, (as_tensor chw), (as_tensor padding_mask), h, w, c,
    image, masks, boxes, labels, labels'.
  split.
  { intros T. unfold prepare.
    rewrite (bind_run _ _ _ _ _ (Hcopy T)).
    rewrite (bind_run _ _ _ _ _
               (record_getitem_run d "file_name" _ A0 T rec0 (rename memo file_name)
                  (lookup_insert_eq _ _ _) ltac:(unfold rec0; by rewrite lookup_fmap, Hfile))).
    rewrite !emit_run.
    erewrite bind_run by (apply read_record_run, lookup_insert_eq).
    rewrite write_record_run, insert_insert_eq.
    erewrite bind_run by (eapply get_annotations_run; [apply lookup_insert_eq | exact Hannos0']).
    rewrite Hbig. rewrite bool_decide_true by (unfold annos0; rewrite length_map;
      destruct annos; [done | simpl; lia]).
    simpl andb. cbv iota.
    erewrite bind_run by (apply fmap_run, Hcollect).
    rewrite local_run. rewrite !emit_run.
    cbn [fst snd].
    fold image pasted. fold image' tfms.
    erewrite bind_run by apply Hregen.
    erewrite record_setitem_step by apply lookup_insert_eq. rewrite insert_insert_eq.
    rewrite emit_run.
    erewrite lift_run by exact Htranspose.
    erewrite record_setitem_step by apply lookup_insert_eq. rewrite insert_insert_eq.
    erewrite record_setitem_step by apply lookup_insert_eq. rewrite insert_insert_eq.
    replace (take 2 (shape image')) with [h; w] by (by rewrite Hshape).
    unfold mret, M_ret. f_equal. f_equal.
    unfold prepare_trace, annos0. rewrite length_map.
    rewrite <- !app_assoc. simpl. done. }
  split; [done |]. split; [done |].
  split; [intros a anno Ha; by apply Hext1, Hext |].
  split. { unfold rec1. rewrite lookup_insert_ne by done. apply lookup_insert_eq. }
  split; [done |]. split; [done |].
  split. { unfold rec1. apply lookup_insert_eq. }
  split; [done |]. split; [done |].
  split. { unfold rec1. rewrite !lookup_insert_ne by done. apply lookup_insert_eq. }
  split. { intros ->. apply Hmasks'. destruct (pasted.1.1.2); [done | discriminate]. }
  split; [done |].
  split.
  { apply Forall2_same_length_lookup. split.
    - rewrite (Forall2_length _ _ _ Hcontents). by eapply Forall2_length.
    - intros i a v Ha Hv.
      destruct (lookup_lt_is_Some_2 contents i) as [anno Hanno];
        [rewrite <- (Forall2_length _ _ _ Hcontents); by eapply lookup_lt_Some |].
      destruct (Forall2_lookup_lr _ _ _ _ _ _ Hcontents Ha Hanno) as [HA _].
      exists anno. split; [done |]. exact (Forall2_lookup_lr _ _ _ _ _ _ Hcat Hanno Hv). }
  split; [exact Hlabels |].
  split.
  { apply Forall_forall. intros a [i Hi]%list_elem_of_lookup.
    destruct (lookup_lt_is_Some_2 pasted.1.1.2 i) as [mask Hmask];
      [rewrite <- Hnew; by eapply lookup_lt_Some |].
    destruct (Hdicts i mask Hmask) as (a' & box & label & Ha' & _ & Hlabel & Hlen & HA1).
    assert (a' = a) as -> by congruence.
    eexists _, label. split; [exact HA1 |]. unfold annotation_of.
    destruct box as [| x1 [| y1 [| x2 [| y2 [| ? ?]]]]]; try discriminate.
    split; [apply lookup_insert_eq |].
    split; [by simplify_map_eq | by eapply list_elem_of_lookup_2]. }
  intros key ? ? ? ? ?. unfold rec1, rec0', rec0.
  rewrite !lookup_insert_ne by done. rewrite check_image_size_frame by done.
  by rewrite lookup_fmap.
Qed.
Lemma prepare_run (self : Mapper) l R A rec :
  use_big_copy_paste self = true ->
  R !! l = Some rec ->
  processable A rec ->
  exists d tfms image_shape rec1 A1 annos new,
    (forall T, prepare self l (mk_state R A T) =
                 (Ok (d, tfms, image_shape),
                  mk_state (<[d := rec1]> R) A1 (T ++ prepare_trace (length annos)))) /\
    rec !! "annotations" = Some (VAnnotations annos) /\
    R !! d = None /\
    (forall a anno, A !! a = Some anno -> A1 !! a = Some anno) /\
    is_tensor (rec1 !! "image") /\
    is_tensor (rec1 !! "padding_mask") /\
    rec1 !! "annotations" = Some (VAnnotations new) /\
    new <> [] /\ NoDup new /\
    Forall (fun a => exists anno, A1 !! a = Some anno /\
                                  anno !! "iscrowd" = Some (PyInt 0)) new /\
    (forall key, key <> "image" -> key <> "padding_mask" -> key <> "annotations" ->
                 key <> "width" -> key <> "height" ->
                 rec !! key = None -> rec1 !! key = None).
Proof.
  intros Hbig Hl Hrec.
  destruct (prepare_outcome self l R A rec Hbig Hl Hrec)
    as (d & tfms & memo & rec1 & A1 & annos & new & img & pad & h & w & c &
        image & masks & boxes & labels_in & labels_out &
        Hprep & Hannos & Hd & Hext & Himg & Htorch & _ & Hpad & Htorch' & _ &
        Hnew & Hne & Hnd & _ & _ & Hcrowd & Hkeys).
  exists d, tfms, [h; w], rec1, A1, annos, new.
  split; [done |]. split; [done |]. split; [done |]. split; [done |].
  split; [by exists img |]. split; [by exists pad |].
  split; [done |]. split; [done |]. split; [done |].
  split.
  { eapply Forall_impl; [exact Hcrowd |]. simpl.
    intros a (anno & label & HA & Hc & _). by exists anno. }
  intros key ? ? ? ? ? Hnone. rewrite Hkeys by done. by rewrite Hnone.
Qed.


End Prepare.

Lemma Forall_sublist_of {A} (P : A -> Prop) (l1 l2 : list A) :
  l1 `sublist_of` l2 -> Forall P l2 -> Forall P l1.
Proof.
  induction 1 as [| x l1 l2 _ IH | x l1 l2 _ IH]; [done | |];
    intros [Hx Hl]%Forall_cons; [constructor |]; auto.
Qed.

Section CallRuns.
Context `{L : Library} {HM : MaskLaws L}.

Lemma build_instances_run {HN : InstancesLaws L} (phi : Z -> Prop)
    d tfms image_shape R A rec1 new :
  R !! d = Some rec1 ->
  rec1 !! "annotations" = Some (VAnnotations new) ->
  new <> [] -> NoDup new ->
  Forall (fun a => exists anno label,
            A !! a = Some anno /\
            anno !! "iscrowd" = Some (PyInt 0) /\
            anno !! "category_id" = Some (PyInt label) /\
            phi label) new ->
  exists instances classes A' mid,
    (forall T, build_instances d tfms image_shape (mk_state R A T) =
                 (Ok (Some instances),
                  mk_state (<[d := delete "annotations" rec1]> R) A'
                    (T ++ [Pop "annotations"] ++ mid))) /\
    gt_classes instances = Some classes /\
    Forall phi classes.
Proof.
  intros HR Hannos Hne Hnd Hall.
  apply Forall_exists_Forall2 in Hall as [cs Hfull].
  assert (Hcs : Forall2 (fun a c => A !! a = Some c /\ c !! "iscrowd" = Some (PyInt 0))
                  new cs).
  { eapply Forall2_impl; [exact Hfull |]. simpl. by intros a c (label & ? & ? & _). }
  assert (Hlabels : exists labels,
            Forall2 (fun c label => c !! "category_id" = Some (PyInt label) /\ phi label)
              cs labels).
  { apply Forall_exists_Forall2. clear -Hfull.
    induction Hfull as [| a c new cs (label & _ & _ & Hc & Hphi) _ IH]; constructor; eauto. }
  destruct Hlabels as [labels Hlabels].
  destruct (update_loop_run
              (fun obj => anno ← read_annotation obj;
                          write_annotation obj (delete "keypoints" anno))
              (delete "keypoints") (fun _ => tt) []
              (fun c => c !! "iscrowd" = Some (PyInt 0))) with (locs := new) (cs := cs) (A := A)
    as (A2 & Hloop1 & Hcs2 & _); [| done | done |].
  { intros a R' A' T' c Ha _. unfold read_annotation, write_annotation, mbind, M_bind.
    simpl. rewrite Ha. by rewrite app_nil_r. }
  destruct (update_loop_run (transform_annotation tfms image_shape)
              (fun c => transform_instance_annotations c tfms image_shape)
              (fun c => Some (transform_instance_annotations c tfms image_shape))
              [Call "transform_instance_annotations"]
              (fun c => c !! "iscrowd" = Some (PyInt 0)))
    with (locs := new) (cs := map (delete "keypoints") cs) (A := A2)
    as (A3 & Hloop2 & _ & _); [| done | |].
  { intros a R' A' T' c Ha Hc. unfold transform_annotation, read_annotation, mbind, M_bind.
    simpl. rewrite Ha, Hc. done. }
  { apply Forall2_fmap_r.
    apply Forall2_same_length_lookup. split; [by eapply Forall2_length |].
    intros i a c Ha Hc. simpl.
    split; [exact (Forall2_lookup_lr _ _ _ _ _ _ Hcs2 Ha Hc) |].
    rewrite lookup_delete_ne by done.
    by destruct (Forall2_lookup_lr _ _ _ _ _ _ Hcs Ha Hc). }
  rewrite flat_map_const_nil in Hloop1. rewrite flat_map_const_singleton in Hloop2.
  set (annos := map (fun c => transform_instance_annotations c tfms image_shape)
                  (map (delete "keypoints") cs)).
  assert (Hannos' : omap id
                      (map (fun c => Some (transform_instance_annotations c tfms image_shape))
                         (map (delete "keypoints") cs)) = annos).
  { unfold annos. generalize (map (delete "keypoints") cs). intros l.
    induction l as [| c l IH]; [done |]. simpl. f_equal. exact IH. }
  assert (Hannos_ne : annos <> []).
  { unfold annos. apply Forall2_length in Hcs. destruct cs; [| done].
    destruct new; [done | discriminate]. }
  set (i0 := annotations_to_instances annos image_shape).
  destruct (annotations_to_instances_masks annos image_shape Hannos_ne) as [polygons Hi0].
  fold i0 in Hi0.
  set (i1 := mk_Instances (image_size i0) (Some (get_bounding_boxes (PolygonMasks polygons)))
               (gt_classes i0) (Some (PolygonMasks polygons))).
  assert (Hi0c : gt_classes i0 = Some labels).
  { apply annotations_to_instances_classes. unfold annos.
    apply Forall2_fmap_l, Forall2_fmap_l.
    eapply Forall2_impl; [exact Hlabels |]. simpl. intros c label [Hc _].
    rewrite transform_instance_annotations_category. by rewrite lookup_delete_ne. }
  destruct (filter_empty_instances_classes i1 labels Hi0c) as (classes & Hclasses & Hsub).
  assert (Hvalid : Forall phi classes).
  { eapply Forall_sublist_of; [exact Hsub |].
    apply Forall_forall. intros label [i Hi]%list_elem_of_lookup.
    destruct (Forall2_lookup_r _ _ _ _ _ Hlabels Hi) as (c & _ & _ & Hphi). exact Hphi. }
  assert (Hprefix : forall T,
    build_instances d tfms image_shape (mk_state R A T) =
    match gt_masks (filter_empty_instances i1) with
    | Some (PolygonMasks polygons) =>
        emit (Call "convert_coco_poly_to_mask");;
        masks ← lift (convert_coco_poly_to_mask polygons
                        (image_size (filter_empty_instances i1)).1
                        (image_size (filter_empty_instances i1)).2);
        mret (Some (mk_Instances (image_size (filter_empty_instances i1))
                      (gt_boxes (filter_empty_instances i1))
                      (gt_classes (filter_empty_instances i1)) (Some (MaskTensor masks))))
    | Some (MaskTensor _) => raise (AttributeError "polygons")
    | None => mret (Some (filter_empty_instances i1))
    end (mk_state (<[d := delete "annotations" rec1]> R) A3
           (T ++ [Pop "annotations"] ++
            replicate (length new) (Call "transform_instance_annotations") ++
            [Call "annotations_to_instances"; Call "filter_empty_instances"]))).
  { intros T. unfold build_instances.
    erewrite bind_run by (by apply read_record_run).
    rewrite Hannos.
    erewrite bind_run by (by eapply get_annotations_run).
    erewrite bind_run by apply Hloop1.
    rewrite app_nil_r.
    erewrite record_pop_step by done.
    erewrite bind_run by apply Hloop2.
    rewrite Hannos'. rewrite emit_run. fold i0. rewrite Hi0. rewrite attribute_run.
    rewrite emit_run. fold i1.
    rewrite <- !app_assoc. simpl app. done. }
  destruct (filter_empty_instances_masks i1 polygons eq_refl) as [Hnone | [polygons' Hsome]].
  - exists (filter_empty_instances i1), classes, A3.
    exists (replicate (length new) (Call "transform_instance_annotations") ++
            [Call "annotations_to_instances"; Call "filter_empty_instances"]).
    split; [| done]. intros T. by rewrite (Hprefix T), Hnone.
  - destruct (convert_coco_poly_to_mask_run polygons'
                (image_size (filter_empty_instances i1)).1
                (image_size (filter_empty_instances i1)).2) as (masks & Hmasks & _).
    eexists (mk_Instances _ _ _ _), classes, A3.
    exists (replicate (length new) (Call "transform_instance_annotations") ++
            [Call "annotations_to_instances"; Call "filter_empty_instances";
             Call "convert_coco_poly_to_mask"]).
    split; [| done]. intros T. rewrite (Hprefix T), Hsome.
    rewrite emit_run. erewrite lift_run by exact Hmasks. unfold mret, M_ret.
    do 2 f_equal. by rewrite <- !app_assoc.
Qed.

End CallRuns.

Section CallTheorems.
Context `{L : Library} {HM : MaskLaws L} {HI : ImageLaws L} {HS : SizeLaws L}.

(** The categories of the regenerated annotations index the class names when
    those of the record do and the augmentation pastes the mapper's classes. *)
Lemma pasted_labels_within {n} {HB : LabelLaws L n} (A : gmap loc (gmap string pyval))
    (rec : gmap string value) annos image masks boxes labels_in labels_out :
  classes_within n A rec ->
  rec !! "annotations" = Some (VAnnotations annos) ->
  Forall2 (fun a v => exists anno, A !! a = Some anno /\
                                   anno !! "category_id" = Some v) annos labels_in ->
  (bigcopypaste image masks boxes {["labels" := labels_in]}).2 !! "labels" =
    Some labels_out ->
  Forall (fun c => (0 <= c < Z.of_nat n)%Z) labels_out.
Proof.
  intros Hwithin Hannos Hin Hout.
  eapply bigcopypaste_classes; [apply lookup_singleton_eq | | exact Hout].
  apply Forall_forall. intros v [i Hi]%list_elem_of_lookup.
  destruct (Forall2_lookup_r _ _ _ _ _ Hin Hi) as (a & Ha & anno & HA & Hv).
  destruct (Hwithin annos a anno Hannos (list_elem_of_lookup_2 _ _ _ Ha) HA)
    as (c & Hc & Hrange).
  exists c. split; [congruence | done].
Qed.


Lemma call_inference_run (self : Mapper) l R A T rec :
  is_train self = false ->
  use_big_copy_paste self = true ->
  R !! l = Some rec ->
  processable A rec ->
  exists d R' A' out annos,
    __call__ self l (mk_state R A T) =
      (Ok d, mk_state R' A' (T ++ prepare_trace (length annos) ++ [Pop "annotations"])) /\
    R' !! d = Some out /\
    rec !! "annotations" = Some (VAnnotations annos) /\
    is_tensor (out !! "image") /\
    is_tensor (out !! "padding_mask") /\
    out !! "annotations" = None /\
    forall key, key ∈ ["instances"; "task"; "text"; "thing_ids"] ->
                rec !! key = None -> out !! key = None.
Proof.
  intros Htrain Hbig Hl Hrec.
  destruct (prepare_run self l R A rec Hbig Hl Hrec)
    as (d & tfms & image_shape & rec1 & A1 & annos & new & Hprep & Hannos & Hd & _ &
        Himage & Hpad & Hnew & Hne & Hnd & Hcrowd & Hkeys).
  exists d, (<[d := delete "annotations" rec1]> R), A1, (delete "annotations" rec1), annos.
  split.
  { unfold __call__. rewrite (bind_run _ _ _ _ _ (Hprep T)). cbn [fst snd].
    rewrite Htrain. cbn [negb].
    erewrite record_pop_step by apply lookup_insert_eq. rewrite insert_insert_eq.
    unfold mret, M_ret. rewrite <- !app_assoc. reflexivity. }
  split; [apply lookup_insert_eq |]. split; [done |].
  destruct Himage as (img & Himg & Htorch). destruct Hpad as (pad & Hpd & Htorch').
  split; [exists img; by rewrite lookup_delete_ne |].
  split; [exists pad; by rewrite lookup_delete_ne |].
  split; [apply lookup_delete_eq |].
  intros key Hkey Hnone.
  assert (key <> "annotations" /\ key <> "image" /\ key <> "padding_mask" /\
          key <> "width" /\ key <> "height") as (? & ? & ? & ? & ?).
  { repeat (apply elem_of_cons in Hkey as [-> | Hkey]);
      [.. | by apply elem_of_nil in Hkey]; by repeat split. }
  rewrite lookup_delete_ne by done. by apply Hkeys.
Qed.

Lemma prepare_unbound (self : Mapper) l R A T rec :
  R !! l = Some rec ->
  no_annotations rec ->
  exists e s',
    prepare self l (mk_state R A T) = (Raise e, s') /\
    (is_Some (rec !! "file_name") -> e = UnboundLocalError "masks").
Proof.
  intros Hl Hno.
  destruct (deepcopy_run l R A rec Hl) as (d & memo & A0 & Hcopy & Hd & Hext & Hmemo).
  unfold prepare. rewrite (bind_run _ _ _ _ _ (Hcopy T)).
  destruct (rec !! "file_name") as [file_name |] eqn:Hfile.
  2: { do 2 eexists. split.
       - apply bind_raise. unfold record_getitem.
         erewrite bind_run by apply read_record_run, lookup_insert_eq.
         unfold lift, getitem. by rewrite lookup_fmap, Hfile.
       - by intros [? ?]. }
  rewrite (bind_run _ _ _ _ _
             (record_getitem_run d "file_name" _ A0 T (rename memo <$> rec)
                (rename memo file_name)
                (lookup_insert_eq _ _ _) ltac:(by rewrite lookup_fmap, Hfile))).
  rewrite !emit_run.
  erewrite bind_run by (apply read_record_run, lookup_insert_eq).
  rewrite write_record_run, insert_insert_eq.
  assert (Hget : get_annotations d
            (mk_state (<[d := check_image_size (rename memo <$> rec)
                                (read_image (rename memo file_name) (img_format self))]> R)
               A0 ((T ++ [Call "read_image"]) ++ [Call "check_image_size"])) =
          (Ok [], mk_state (<[d := check_image_size (rename memo <$> rec)
                                (read_image (rename memo file_name) (img_format self))]> R)
               A0 ((T ++ [Call "read_image"]) ++ [Call "check_image_size"]))).
  { unfold get_annotations.
    erewrite bind_run by (apply read_record_run, lookup_insert_eq).
    rewrite check_image_size_frame by done. rewrite lookup_fmap.
    destruct Hno as [-> | [-> | ->]]; done. }
  rewrite (bind_run _ _ _ _ _ Hget). simpl length.
  rewrite bool_decide_false by lia. rewrite andb_false_r.
  do 2 eexists. split; [reflexivity | done].
Qed.

End CallTheorems.

(** ** The demo library meets the laws *)

Lemma demo_as_image (a : array) : is_image (Demo.as_image a).
Proof.
  unfold Demo.as_image.
  destruct (shape a) as [| h [| w [| c [| ? ?]]]] eqn:Hs;
    try (by exists 4, 4, 3). by exists h, w, c.
Qed.

Lemma demo_mask_laws : MaskLaws Demo.library.
Proof. constructor. intros pyobj height width. right. by eexists. Qed.

Lemma demo_image_laws : ImageLaws Demo.library.
Proof.
  constructor; simpl.
  - intros. by exists 4, 4, 3.
  - intros. apply demo_as_image.
  - intros image masks boxes label_dict. simpl.
    rewrite !length_map, length_seq. split; [done |].
    apply Forall_forall. intros box [i [-> _]]%list_elem_of_fmap.
    unfold Demo.corners.
    by destruct (Demo.floats_of _) as [| ? [| ? [| ? [| ? [| ? ?]]]]].
  - intros image masks boxes label_dict. simpl. eexists.
    split; [apply lookup_singleton_eq |]. by rewrite !length_map, length_seq.
  - intros image masks boxes label_dict Hne. by destruct masks.
  - intros. apply demo_as_image.
Qed.

Lemma demo_size_laws : SizeLaws Demo.library.
Proof.
  constructor. intros rec image key Hw Hh. simpl. unfold Demo.check_image_size.
  destruct (rec !! "width"), (rec !! "height") eqn:Hheight;
    rewrite ?lookup_insert_ne, ?Hheight, ?lookup_insert_ne by done; done.
Qed.

Lemma demo_instances_laws : InstancesLaws Demo.library.
Proof.
  constructor; simpl.
  - intros annos image_shape Hne. destruct annos; [done |]. by eexists.
  - intros i polygons Hi. right. by exists polygons.
  - intros anno tfms image_shape. unfold Demo.transform_instance_annotations.
    by rewrite lookup_insert_ne.
  - intros annos image_shape classes Hall. simpl. f_equal.
    induction Hall as [| anno c annos classes Hc _ IH]; [done |].
    simpl. unfold Demo.class_of at 1. rewrite Hc. by f_equal.
  - intros i classes Hi. by exists classes.
Qed.

Lemma demo_label_laws : LabelLaws Demo.library 2.
Proof.
  constructor. simpl. intros image masks boxes label_dict labels labels' Hlabels Hall.
  rewrite lookup_singleton_eq, Hlabels. simpl. intros [= <-].
  apply Forall_forall. intros c [i [-> _]]%list_elem_of_fmap.
  destruct (labels !! i) as [v |] eqn:Hv; simpl; [| lia].
  rewrite Forall_forall in Hall.
  destruct (Hall v (list_elem_of_lookup_2 _ _ _ Hv)) as (c & -> & Hc). exact Hc.
Qed.

Lemma demo_store_processable :
  processable (annotations Examples.store) (Examples.record [0]).
Proof.
  split; [by eexists |].
  exists [0], [Examples.annotation (PyList [Examples.square 0 0 2]) 1].
  split; [reflexivity |]. split; [done |].
  constructor; [| constructor]. split; [reflexivity |].
  split; [| split; by eexists].
  exists (PyList [Examples.square 0 0 2]), [Examples.square 0 0 2].
  split; [reflexivity |]. split; reflexivity.
Qed.

Lemma demo_store_within :
  classes_within 2 (annotations Examples.store) (Examples.record [0]).
Proof.
  intros annos a anno [= <-] Ha%list_elem_of_singleton HA. subst a.
  injection HA as <-. exists 1%Z. split; [reflexivity | lia].
Qed.

(** ** The mapper's [__call__], claim by claim *)




(** The same happens for a polygon with integer coordinates, as JSON
    decodes [[0, 0, 2, 0, 2, 2, 0, 2]]. *)
Lemma call_integer_polygon :
  (__call__ (L := Demo.library) (Demo.mapper true) 0 Examples.int_store).1 =
    Raise (ValueError "Unexpected polygon format: <class 'list'>").
Proof. vm_compute; reflexivity. Qed.

(** C3: the annotations regenerated after the copy-paste augmentation are as
    many as the augmented masks, and the i-th has the box
    [x1, y1, x2 - x1, y2 - y1] of the i-th augmented box in XYWH_ABS mode, the
    i-th augmented label as its category, the polygons of the i-th augmented
    mask as its segmentation, and iscrowd 0. *)
Theorem regenerate_annotations_consistent (L : Library) (masks : list array)
    (boxes : list (list float)) (label_dict : gmap string (list Z)) (labels : list Z)
    (s : state) :
  length masks <= length boxes ->
  Forall (fun box => length box = 4) boxes ->
  label_dict !! "labels" = Some labels ->
  length masks <= length labels ->
  exists annos s',
    regenerate_annotations masks boxes label_dict s = (Ok annos, s') /\
    length annos = length masks /\
    forall i mask, masks !! i = Some mask ->
      exists a x1 y1 x2 y2 label,
        annos !! i = Some a /\
        boxes !! i = Some [x1; y1; x2; y2] /\
        labels !! i = Some label /\
        annotations s' !! a =
          Some (<["iscrowd" := PyInt 0]>
                (<["bbox" := PyList [PyFloat x1; PyFloat y1;
                                     PyFloat (PrimFloat.sub x2 x1);
                                     PyFloat (PrimFloat.sub y2 y1)]]>
                (<["category_id" := PyInt label]>
                (<["segmentation" := polygons_value (mask_to_polygons mask)]>
                (<["bbox_mode" := PyBoxMode XYWH_ABS]> ∅))))).
Proof.
  destruct s as [R A T]. intros Hboxes Hfour Hlabels Hlen.
  destruct (regenerate_annotations_run masks boxes label_dict labels A
              Hboxes Hfour Hlabels Hlen)
    as (annos & A' & Hrun & Hannos & _ & _ & _ & Hdicts).
  exists annos, (mk_state R A' (T ++ [Call "binary_masks_to_polygons"])).
  split; [apply Hrun |]. split; [done |].
  intros i mask Hmask.
  destruct (Hdicts i mask Hmask) as (a & box & label & Ha & Hbox & Hlabel & Hlen4 & HA).
  destruct box as [| x1 [| y1 [| x2 [| y2 [| ? ?]]]]]; try discriminate.
  by exists a, x1, y1, x2, y2, label.
Qed.

Lemma regenerate_annotations_consistent_witness :
  let mask := mk_array Torch bool_ [4; 4] [1; 1; 0; 0; 1; 1; 0; 0; 0; 0; 0; 0; 0; 0; 0; 0]%Z in
  let box := map float_of_Z [0; 0; 2; 2]%Z in
  exists annos s',
    regenerate_annotations (L := Demo.library) [mask] [box] {["labels" := [1%Z]]}
      Examples.store = (Ok annos, s') /\
    length annos = 1 /\
    forall i mask', [mask] !! i = Some mask' ->
      exists a x1 y1 x2 y2 label,
        annos !! i = Some a /\
        [box] !! i = Some [x1; y1; x2; y2] /\
        [1%Z] !! i = Some label /\
        annotations s' !! a =
          Some (<["iscrowd" := PyInt 0]>
                (<["bbox" := PyList [PyFloat x1; PyFloat y1;
                                     PyFloat (PrimFloat.sub x2 x1);
                                     PyFloat (PrimFloat.sub y2 y1)]]>
                (<["category_id" := PyInt label]>
                (<["segmentation" :=
                     polygons_value (mask_to_polygons (L := Demo.library) mask')]>
                (<["bbox_mode" := PyBoxMode XYWH_ABS]> ∅))))).
Proof.
  intros mask box.
  apply (regenerate_annotations_consistent Demo.library [mask] [box]
           {["labels" := [1%Z]]} [1%Z] Examples.store).
  - simpl. lia.
  - repeat constructor.
  - reflexivity.
  - simpl. lia.
Defined.

(** C6, at a concrete input. *)
Lemma convert_coco_poly_to_mask_shape_witness :
  (exists masks,
     convert_coco_poly_to_mask (L := Demo.library)
       [PyList [Examples.square 0 0 2]; PyList [Examples.square 2 2 2]] 4 4 = Ok masks /\
     shape masks = [2; 4; 4] /\
     a_lib masks = Torch) /\
  convert_coco_poly_to_mask (L := Demo.library) [] 4 4 =
    Ok (mk_array Torch uint8 [0; 4; 4] []).
Proof.
  exact (convert_coco_poly_to_mask_shape Demo.library demo_mask_laws
           [PyList [Examples.square 0 0 2]; PyList [Examples.square 2 2 2]] 4 4).
Defined.

(** C8: for a record that has no "annotations" key or an empty list of
    annotations, [__call__] does not return; when the record has a file name
    the exception is the unbound local [masks] at the copy-paste call. *)
Theorem call_without_annotations (L : Library) (HS : SizeLaws L) (self : Mapper)
    (dataset_dict : loc) (s : state) (rec : gmap string value) :
  records s !! dataset_dict = Some rec ->
  no_annotations rec ->
  exists e s',
    __call__ self dataset_dict s = (Raise e, s') /\
    (is_Some (rec !! "file_name") -> e = UnboundLocalError "masks").
Proof.
  destruct s as [R A T]. simpl. intros Hl Hno.
  destruct (prepare_unbound self dataset_dict R A T rec Hl Hno) as (e & s' & Hrun & He).
  exists e, s'. split; [| done]. unfold __call__. by apply bind_raise.
Qed.

Lemma call_without_annotations_witness :
  (exists e s',
     __call__ (L := Demo.library) (Demo.mapper true) 0 Examples.empty_store = (Raise e, s') /\
     (is_Some (Examples.record [] !! "file_name") -> e = UnboundLocalError "masks")) /\
  (exists e s',
     __call__ (L := Demo.library) (Demo.mapper true) 0 Examples.bare_store = (Raise e, s') /\
     (is_Some ((<["file_name" := VPy (PyStr "a.jpg")]> ∅ : gmap string value) !! "file_name") ->
      e = UnboundLocalError "masks")).
Proof.
  split.
  - apply (call_without_annotations Demo.library demo_size_laws (Demo.mapper true) 0
             Examples.empty_store (Examples.record [])).
    + reflexivity.
    + right. left. reflexivity.
  - apply (call_without_annotations Demo.library demo_size_laws (Demo.mapper true) 0
             Examples.bare_store (<["file_name" := VPy (PyStr "a.jpg")]> ∅)).
    + reflexivity.
    + left. reflexivity.
Defined.

(** C9: whatever [__call__] does, returning or raising, the record it was
    given and every annotation dictionary of the caller are afterwards what
    they were before. *)
Theorem call_leaves_record (L : Library) (self : Mapper) (dataset_dict : loc) (s : state)
    (rec : gmap string value) :
  records s !! dataset_dict = Some rec ->
  let s' := (__call__ self dataset_dict s).2 in
  records s' !! dataset_dict = Some rec /\
  forall a anno, annotations s !! a = Some anno -> annotations s' !! a = Some anno.
Proof.
  intros Hl s'. destruct (call_frame self dataset_dict s) as [Hr Ha].
  split; [by apply Hr | exact Ha].
Qed.

Lemma call_leaves_record_witness :
  let s' := (__call__ (L := Demo.library) (Demo.mapper true) 0 Examples.store).2 in
  records s' !! 0 = Some (Examples.record [0]) /\
  forall a anno, annotations Examples.store !! a = Some anno ->
                 annotations s' !! a = Some anno.
Proof.
  apply (call_leaves_record Demo.library (Demo.mapper true) 0 Examples.store
           (Examples.record [0])).
  reflexivity.
Defined.

(** C10, amended: a mapper constructed with is_train false, given a record
    with a file name and a non-empty list of readable annotations, returns
    early with a dictionary that contains "image" and "padding_mask" as
    tensors, has no "annotations" key, and has none of the keys "instances",
    "task", "text", "thing_ids" unless the record given to it had them. *)
Theorem call_inference (L : Library) (HM : MaskLaws L) (HI : ImageLaws L) (HS : SizeLaws L)
    (num_queries : nat) (tfm_gens : list Augmentation) (meta : Metadata)
    (image_format : string) (dataset_dict : loc) (s : state) (rec : gmap string value) :
  records s !! dataset_dict = Some rec ->
  processable (annotations s) rec ->
  exists d s' out annos,
    __call__ (__init__ false num_queries tfm_gens meta image_format) dataset_dict s =
      (Ok d, s') /\
    records s' !! d = Some out /\
    rec !! "annotations" = Some (VAnnotations annos) /\
    trace s' = trace s ++ prepare_trace (length annos) ++ [Pop "annotations"] /\
    is_tensor (out !! "image") /\
    is_tensor (out !! "padding_mask") /\
    out !! "annotations" = None /\
    forall key, key ∈ ["instances"; "task"; "text"; "thing_ids"] ->
                rec !! key = None -> out !! key = None.
Proof.
  destruct s as [R A T]. simpl. intros Hl Hrec.
  destruct (call_inference_run (__init__ false num_queries tfm_gens meta image_format)
              dataset_dict R A T rec eq_refl eq_refl Hl Hrec)
    as (d & R' & A' & out & annos & Hrun & Hout & Hannos & Himage & Hpad & Hno & Hkeys).
  exists d, (mk_state R' A' (T ++ prepare_trace (length annos) ++ [Pop "annotations"])),
    out, annos.
  by repeat split.
Qed.

Lemma call_inference_witness :
  exists d s' out annos,
    __call__ (L := Demo.library) (__init__ false 4 [RandomFlip true false] Demo.metadata "RGB")
      0 Examples.store = (Ok d, s') /\
    records s' !! d = Some out /\
    Examples.record [0] !! "annotations" = Some (VAnnotations annos) /\
    trace s' = trace Examples.store ++ prepare_trace (length annos) ++ [Pop "annotations"] /\
    is_tensor (out !! "image") /\
    is_tensor (out !! "padding_mask") /\
    out !! "annotations" = None /\
    forall key, key ∈ ["instances"; "task"; "text"; "thing_ids"] ->
                Examples.record [0] !! key = None -> out !! key = None.
Proof.
  apply (call_inference Demo.library demo_mask_laws demo_image_laws demo_size_laws
           4 [RandomFlip true false] Demo.metadata "RGB" 0 Examples.store
           (Examples.record [0])).
  - reflexivity.
  - exact demo_store_processable.
Defined.

(** Two records on which a mapper constructed with is_train false does
    otherwise: with an empty list of annotations it raises and returns
    nothing; with a "task" entry in the record, the returned dictionary has
    that entry. *)
Lemma call_inference_otherwise :
  (__call__ (L := Demo.library) (Demo.mapper false) 0 Examples.empty_store).1 =
    Raise (UnboundLocalError "masks") /\
  let out := __call__ (L := Demo.library) (Demo.mapper false) 0 Examples.task_store in
  out.1 = Ok 1 /\
  (records out.2 !! 1) ≫= (fun dict => dict !! "task") = Some (VPy (PyStr "mine")).
Proof. repeat split; vm_compute; reflexivity. Qed.

(** * Further properties of the code *)

(** ** Polygons to masks *)

Lemma length_flat_map_const {A B} (f : A -> list B) (n : nat) (l : list A) :
  (forall x, length (f x) = n) -> length (flat_map f l) = length l * n.
Proof.
  intros Hf. induction l as [| x l IH]; simpl; [done |].
  by rewrite length_app, Hf, IH.
Qed.

(** A mask out of lines 29-34 is a uint8 tensor with one entry for each
    pixel. *)
Lemma rasterize_tensor `{L : Library} {HL : MaskLaws L} pyobj height width mask :
  rasterize pyobj height width = Ok mask ->
  a_lib mask = Torch /\ a_dtype mask = uint8 /\ shape mask = [height; width] /\
  length (data mask) = height * width.
Proof.
  unfold rasterize.
  destruct (decode_shape pyobj height width) as [Hs | [n Hs]];
    unfold ndim, any_dim2, as_tensor_uint8, new_last_axis;
    repeat (rewrite Hs; simpl); intros [= <-]; simpl;
    (split; [done |]); (split; [done |]); (split; [done |]);
    rewrite (length_flat_map_const _ 1), length_seq; try lia; intros o; done.
Qed.

(** The slices of a stack are the stacked arrays. *)
Lemma slice0_flat_map (n : nat) (masks : list array) (i : nat) (m : array) :
  Forall (fun m' => length (data m') = n) masks ->
  masks !! i = Some m ->
  take n (drop (i * n) (flat_map data masks)) = data m.
Proof.
  intros Hall. revert i. induction Hall as [| m' masks Hm' _ IH]; intros i; [done |].
  destruct i as [| i]; simpl.
  - intros [= ->]. rewrite drop_0. by rewrite take_app_length'.
  - intros Hi. rewrite <- Hm' at 2. rewrite <- drop_drop, drop_app_length. by apply IH.
Qed.

Lemma slice0_stack (t : dtype) (s : list nat) (masks : list array) (a : array)
    (i : nat) (m : array) :
  Forall (fun m' => a_dtype m' = t /\ shape m' = s /\ length (data m') = numel s) masks ->
  stack masks = Ok a ->
  masks !! i = Some m ->
  slice0 a i = Some (mk_array Torch t s (data m)).
Proof.
  intros Hall Ha Hi. unfold stack in Ha.
  destruct masks as [| m0 ms]; [discriminate |].
  destruct (forallb _ ms); [| discriminate]. injection Ha as <-.
  assert (Hs : a_dtype m0 = t /\ shape m0 = s)
    by (by apply Forall_cons in Hall as [(? & ? & _) _]).
  destruct Hs as [Ht Hs].
  pose proof (lookup_lt_Some _ _ _ Hi) as Hlt.
  unfold slice0. cbn [shape a_lib a_dtype data].
  rewrite decide_True by done.
  rewrite Hs, Ht. do 2 f_equal.
  apply (slice0_flat_map (numel s) (m0 :: ms) i m); [| done].
  eapply Forall_impl; [exact Hall |]. by intros ? (_ & _ & ?).
Qed.

Lemma rmapM_lookup {A B} (f : A -> result B) (l : list A) (ys : list B) :
  rmapM f l = Ok ys ->
  Forall2 (fun x y => f x = Ok y) l ys.
Proof.
  revert ys. induction l as [| x l IH]; intros ys; simpl.
  - intros [= <-]. constructor.
  - destruct (f x) as [y |] eqn:Hy; simpl; [| discriminate].
    destruct (rmapM f l) as [ys' |]; simpl; [| discriminate].
    intros [= <-]. constructor; [done | by apply IH].
Qed.

Lemma contour_input_shape (mask : array) :
  shape (contour_input mask) =
    if decide (ndim mask = 3) then filter (fun d => d <> 1) (shape mask) else shape mask.
Proof.
  unfold contour_input, ndim.
  destruct mask as [[] t s d]; simpl; repeat case_decide; simpl in *; congruence.
Qed.

Lemma accumulated_flat (masks_ segmentations : list pyval) :
  Forall (fun polygons => exists l, polygons = PyList l /\ forallb is_float l = true)
    segmentations ->
  accumulated masks_ segmentations = Ok (masks_ ++ segmentations).
Proof.
  intros Hflat. revert masks_.
  induction Hflat as [| p segs (l & -> & Hl) _ IH]; intros masks_; simpl.
  - by rewrite app_nil_r.
  - rewrite Hl. simpl. rewrite IH. by rewrite <- app_assoc.
Qed.

Section MoreMasks.
Context (L : Library) (HL : MaskLaws L).

(** Every mask of the loop of [convert_coco_poly_to_mask_] is a uint8
    tensor of the requested size. *)
Lemma convert_loop_tensors segmentations height width masks_ masks out :
  Forall (fun m => a_dtype m = uint8 /\ shape m = [height; width] /\
                   length (data m) = numel [height; width]) masks ->
  convert_loop segmentations height width masks_ masks = Ok out ->
  Forall (fun m => a_dtype m = uint8 /\ shape m = [height; width] /\
                   length (data m) = numel [height; width]) out.
Proof.
  revert masks_ masks. induction segmentations as [| polygons rest IH];
    intros masks_ masks Hall; simpl.
  - by intros [= <-].
  - destruct (extend_masks_ masks_ polygons) as [masks_' |]; simpl; [| discriminate].
    destruct (rasterize (PyList masks_') height width) as [mask |] eqn:Hr; simpl;
      [| discriminate].
    apply rasterize_tensor in Hr as (_ & Ht & Hs & Hlen).
    rewrite decide_False by (intros Hne; by apply Hne).
    apply IH. apply Forall_app. split; [done |]. constructor; [| done].
    split; [done |]. split; [done |]. simpl. lia.
Qed.

(** X1: for a segmentation whose elements are all in a format that
    [convert_coco_poly_to_mask_] accepts, it returns an array of shape
    (len(segmentations), height, width): a numpy array when there is exactly
    one element (line 70), a torch tensor otherwise, and for no element at
    all the uint8 zero tensor of shape (0, height, width). *)
Theorem convert_coco_poly_to_mask__shape (segmentations : list pyval) (height width : nat) :
  forallb accepted segmentations = true ->
  exists masks,
    convert_coco_poly_to_mask_ segmentations height width = Ok masks /\
    shape masks = [length segmentations; height; width] /\
    a_lib masks = (if decide (length segmentations = 1) then Numpy else Torch) /\
    (segmentations = [] -> masks = mk_array Torch uint8 [0; height; width] []).
Proof.
  intros Hacc. unfold convert_coco_poly_to_mask_.
  destruct (convert_loop_total segmentations height width [] [] Hacc) as [out Hout].
  rewrite Hout. simpl.
  apply convert_loop_shapes in Hout as [Hshapes Hlen]; [| constructor].
  simpl in Hlen. rewrite <- Hlen.
  destruct out as [| m [| m' out]].
  - eexists. split; [reflexivity |]. done.
  - eexists. split; [reflexivity |]. simpl.
    apply Forall_cons in Hshapes as [-> _].
    split; [done |]. split; [done |]. intros ->. discriminate.
  - destruct (stack_same_shape _ _ _ Hshapes) as (a & Ha & Hs). rewrite Ha.
    exists a. split; [done |]. split; [by rewrite Hs |].
    split; [| intros ->; discriminate].
    unfold stack in Ha. destruct (forallb _ (m' :: out)); [| discriminate].
    by injection Ha as <-.
Qed.

Lemma extend_masks__rejected (masks_ : list pyval) (polygons : pyval) :
  accepted polygons = false ->
  extend_masks_ masks_ polygons =
    Raise (ValueError ("Unexpected polygon format: " +:+ type_repr polygons)).
Proof.
  destruct polygons as [| | | | | l | | | a |]; simpl; try done.
  - destruct (forallb is_float l); [discriminate |]. simpl. by intros ->.
  - intros Ha%bool_decide_eq_false. by destruct (a_lib a).
Qed.

Lemma convert_loop_rejected before polygons after height width masks_ masks :
  forallb accepted before = true ->
  accepted polygons = false ->
  convert_loop (before ++ polygons :: after) height width masks_ masks =
    Raise (ValueError ("Unexpected polygon format: " +:+ type_repr polygons)).
Proof.
  intros Hbefore Hbad. revert masks_ masks.
  induction before as [| p before IH]; intros masks_ masks; simpl.
  - by rewrite extend_masks__rejected.
  - simpl in Hbefore. apply andb_prop in Hbefore as [Hp Hbefore].
    destruct (extend_masks__accepted masks_ p Hp) as [acc ->]. simpl.
    destruct (rasterize_shape (PyList acc) height width) as (mask & -> & _). simpl.
    by apply IH.
Qed.

(** X2: [convert_coco_poly_to_mask_] stops at the first element that is
    neither a list of floats, a list of lists nor a numpy array, with a
    ValueError that names the type of that element; what comes after it is
    not looked at. *)
Theorem convert_coco_poly_to_mask__unexpected (before after : list pyval) (polygons : pyval)
    (height width : nat) :
  forallb accepted before = true ->
  accepted polygons = false ->
  convert_coco_poly_to_mask_ (before ++ polygons :: after) height width =
    Raise (ValueError ("Unexpected polygon format: " +:+ type_repr polygons)).
Proof.
  intros Hbefore Hbad. unfold convert_coco_poly_to_mask_.
  by rewrite convert_loop_rejected.
Qed.

Lemma converted_slices (segmentations : list pyval)
    (height width : nat) (masks : array) (i : nat) :
  convert_coco_poly_to_mask_ segmentations height width = Ok masks ->
  i < length segmentations ->
  exists acc mask,
    accumulated [] (take (S i) segmentations) = Ok acc /\
    rasterize (PyList acc) height width = Ok mask /\
    slice0 masks i =
      Some (if decide (length segmentations = 1) then numpy mask else mask).
Proof.
  unfold convert_coco_poly_to_mask_. intros Hrun Hi.
  destruct (convert_loop segmentations height width [] []) as [out |] eqn:Hout;
    simpl in Hrun; [| discriminate].
  destruct (convert_loop_accumulates _ _ _ _ _ _ i Hout Hi) as (acc & mask & Hacc & Hmask & Hlook).
  exists acc, mask. split; [done |]. split; [done |].
  pose proof (rasterize_tensor _ _ _ _ Hmask) as (Hlib & Ht & Hs & Hlen).
  rewrite decide_False in Hlook by (intros Hne; by apply Hne). simpl in Hlook.
  pose proof (convert_loop_tensors _ _ _ _ _ _ (Forall_nil_2 _) Hout) as Hall.
  pose proof (convert_loop_shapes _ _ _ _ _ _ (Forall_nil_2 _) Hout) as [_ Hn].
  simpl in Hn. rewrite <- Hn.
  destruct out as [| m [| m' out]]; [done | |].
  - destruct i as [| i]; [| done]. injection Hlook as ->.
    injection Hrun as <-. unfold slice0, expand_dims0, numpy. simpl.
    rewrite Hs, Ht. simpl. do 3 f_equal.
    rewrite Nat.mul_1_r, <- Hlen. apply firstn_all.
  - rewrite decide_False by (simpl; lia).
    rewrite (slice0_stack uint8 [height; width] _ _ i mask Hall Hrun Hlook).
    f_equal. destruct mask as [lib t s d]. simpl in *. by subst.
Qed.

(** X3: the [i]-th mask that [convert_coco_poly_to_mask_] returns rasterizes
    all that [masks_] has accumulated over the elements 0 to [i]; it is a
    numpy array when the segmentation has a single element. *)
Theorem convert_coco_poly_to_mask__cumulative (segmentations : list pyval)
    (height width : nat) (masks : array) (i : nat) :
  convert_coco_poly_to_mask_ segmentations height width = Ok masks ->
  i < length segmentations ->
  exists acc mask,
    accumulated [] (take (S i) segmentations) = Ok acc /\
    rasterize (PyList acc) height width = Ok mask /\
    slice0 masks i =
      Some (if decide (length segmentations = 1) then numpy mask else mask).
Proof. apply converted_slices. Qed.

(** X4: for a segmentation given as flat polygons (lists of floats), the
    [i]-th mask that [convert_coco_poly_to_mask_] returns is the
    rasterization of the polygons 0 to [i] together. *)
Theorem convert_coco_poly_to_mask__flat_polygons (segmentations : list pyval)
    (height width : nat) (masks : array) (i : nat) :
  Forall (fun polygons => exists l, polygons = PyList l /\ forallb is_float l = true)
    segmentations ->
  convert_coco_poly_to_mask_ segmentations height width = Ok masks ->
  i < length segmentations ->
  exists mask,
    rasterize (PyList (take (S i) segmentations)) height width = Ok mask /\
    slice0 masks i =
      Some (if decide (length segmentations = 1) then numpy mask else mask).
Proof.
  intros Hflat Hrun Hi.
  destruct (converted_slices segmentations height width masks i Hrun Hi)
    as (acc & mask & Hacc & Hmask & Hslice).
  rewrite accumulated_flat in Hacc by (by apply Forall_take).
  injection Hacc as <-. by exists mask.
Qed.

(** X5: the [i]-th mask that [convert_coco_poly_to_mask] returns is the
    rasterization of the [i]-th element of the segmentations alone. *)
Theorem convert_coco_poly_to_mask_each (segmentations : list pyval) (height width : nat)
    (masks : array) (i : nat) (polygons : pyval) :
  convert_coco_poly_to_mask segmentations height width = Ok masks ->
  segmentations !! i = Some polygons ->
  exists mask, rasterize polygons height width = Ok mask /\ slice0 masks i = Some mask.
Proof.
  unfold convert_coco_poly_to_mask. intros Hrun Hi.
  destruct (rmapM _ segmentations) as [out |] eqn:Hout; simpl in Hrun; [| discriminate].
  apply rmapM_lookup in Hout.
  destruct (Forall2_lookup_l _ _ _ _ _ Hout Hi) as (mask & Hlook & Hmask).
  exists mask. split; [done |].
  assert (Hall : Forall (fun m => a_dtype m = uint8 /\ shape m = [height; width] /\
                                  length (data m) = numel [height; width]) out).
  { apply Forall_forall. intros m [j Hj]%list_elem_of_lookup.
    destruct (Forall2_lookup_r _ _ _ _ _ Hout Hj) as (p & _ & Hp).
    apply rasterize_tensor in Hp as (_ & ? & ? & ?). simpl. split; [done |]. split; [done | lia]. }
  destruct out as [| m out]; [done |].
  rewrite (slice0_stack uint8 [height; width] _ _ i mask Hall Hrun Hlook).
  apply rasterize_tensor in Hmask as (? & ? & ? & _).
  f_equal. destruct mask as [lib t s d]. simpl in *. by subst.
Qed.

(** X6: what [binary_masks_to_polygons] hands to cv2.findContours for a
    result of [convert_coco_poly_to_mask_], height and width being other
    than 1: a height x width image when the segmentation had one element,
    and an array that is still of shape (n, height, width) for any other
    number n of elements, since lines 93-94 only drop axes of extent one. *)
Theorem contour_input_converted (segmentations : list pyval) (height width : nat) :
  forallb accepted segmentations = true ->
  height <> 1 -> width <> 1 ->
  exists masks,
    convert_coco_poly_to_mask_ segmentations height width = Ok masks /\
    shape (contour_input masks) =
      if decide (length segmentations = 1) then [height; width]
      else [length segmentations; height; width].
Proof.
  intros Hacc Hh Hw. unfold convert_coco_poly_to_mask_.
  destruct (convert_loop_total segmentations height width [] [] Hacc) as [out Hout].
  rewrite Hout.
  apply convert_loop_shapes in Hout as [Hshapes Hlen]; [| constructor].
  simpl in Hlen. rewrite <- Hlen.
  assert (Hsq : forall n, filter (fun d => d <> 1) [n; height; width] =
                          if decide (n = 1) then [height; width] else [n; height; width]).
  { intros n. rewrite !filter_cons, filter_nil.
    rewrite (decide_True (P := height <> 1)), (decide_True (P := width <> 1)) by done.
    destruct (decide (n = 1)) as [-> |]; [by rewrite decide_False by (by intros ?) |].
    by rewrite decide_True. }
  assert (Hin : forall a n, shape a = [n; height; width] ->
                shape (contour_input a) =
                if decide (n = 1) then [height; width] else [n; height; width]).
  { intros a n Ha. rewrite contour_input_shape. unfold ndim. rewrite Ha.
    rewrite decide_True by done. apply Hsq. }
  destruct out as [| m [| m' out]].
  - eexists. split; [reflexivity |]. by apply Hin.
  - eexists. split; [reflexivity |]. apply Hin. simpl.
    by apply Forall_cons in Hshapes as [-> _].
  - destruct (stack_same_shape _ _ _ Hshapes) as (a & Ha & Hs).
    exists a. split; [exact Ha |]. by apply Hin.
Qed.

End MoreMasks.

Lemma convert_coco_poly_to_mask__shape_witness :
  exists masks,
    convert_coco_poly_to_mask_ (L := Demo.library)
      [Examples.square 0 0 2; Examples.square 2 2 2] 4 4 = Ok masks /\
    shape masks = [2; 4; 4] /\
    a_lib masks = Torch /\
    ([Examples.square 0 0 2; Examples.square 2 2 2] = [] ->
     masks = mk_array Torch uint8 [0; 4; 4] []).
Proof.
  apply (convert_coco_poly_to_mask__shape Demo.library demo_mask_laws
           [Examples.square 0 0 2; Examples.square 2 2 2] 4 4).
  reflexivity.
Defined.

Lemma convert_coco_poly_to_mask__unexpected_witness :
  convert_coco_poly_to_mask_ (L := Demo.library)
    ([Examples.square 0 0 2] ++ PyStr "counts" :: [Examples.square 2 2 2]) 4 4 =
    Raise (ValueError "Unexpected polygon format: <class 'str'>").
Proof.
  apply (convert_coco_poly_to_mask__unexpected Demo.library demo_mask_laws
           [Examples.square 0 0 2] [Examples.square 2 2 2] (PyStr "counts") 4 4);
    reflexivity.
Defined.

Lemma convert_coco_poly_to_mask__cumulative_witness :
  exists acc mask,
    accumulated [] (take 2 [Examples.square 0 0 2; Examples.square 2 2 2]) = Ok acc /\
    rasterize (L := Demo.library) (PyList acc) 4 4 = Ok mask /\
    slice0 (mk_array Torch uint8 [2; 4; 4]
              [1; 1; 0; 0;  1; 1; 0; 0;  0; 0; 0; 0;  0; 0; 0; 0;
               1; 1; 0; 0;  1; 1; 0; 0;  0; 0; 1; 1;  0; 0; 1; 1]%Z) 1 = Some mask.
Proof.
  apply (convert_coco_poly_to_mask__cumulative Demo.library demo_mask_laws
           [Examples.square 0 0 2; Examples.square 2 2 2] 4 4 _ 1).
  - vm_compute. reflexivity.
  - simpl. lia.
Defined.

Lemma convert_coco_poly_to_mask__flat_polygons_witness :
  exists mask,
    rasterize (L := Demo.library)
      (PyList (take 2 [Examples.square 0 0 2; Examples.square 2 2 2])) 4 4 = Ok mask /\
    slice0 (mk_array Torch uint8 [2; 4; 4]
              [1; 1; 0; 0;  1; 1; 0; 0;  0; 0; 0; 0;  0; 0; 0; 0;
               1; 1; 0; 0;  1; 1; 0; 0;  0; 0; 1; 1;  0; 0; 1; 1]%Z) 1 = Some mask.
Proof.
  apply (convert_coco_poly_to_mask__flat_polygons Demo.library demo_mask_laws
           [Examples.square 0 0 2; Examples.square 2 2 2] 4 4 _ 1).
  - repeat constructor; eexists; (split; [reflexivity |]); reflexivity.
  - vm_compute. reflexivity.
  - simpl. lia.
Defined.

Lemma convert_coco_poly_to_mask_each_witness :
  exists mask,
    rasterize (L := Demo.library) (PyList [Examples.square 2 2 2]) 4 4 = Ok mask /\
    slice0 (mk_array Torch uint8 [2; 4; 4]
              [1; 1; 0; 0;  1; 1; 0; 0;  0; 0; 0; 0;  0; 0; 0; 0;
               0; 0; 0; 0;  0; 0; 0; 0;  0; 0; 1; 1;  0; 0; 1; 1]%Z) 1 = Some mask.
Proof.
  apply (convert_coco_poly_to_mask_each Demo.library demo_mask_laws
           [PyList [Examples.square 0 0 2]; PyList [Examples.square 2 2 2]] 4 4 _ 1).
  - vm_compute. reflexivity.
  - reflexivity.
Defined.

Lemma contour_input_converted_witness :
  exists masks,
    convert_coco_poly_to_mask_ (L := Demo.library)
      [Examples.square 0 0 2; Examples.square 2 2 2] 4 4 = Ok masks /\
    shape (contour_input masks) = [2; 4; 4].
Proof.
  apply (contour_input_converted Demo.library demo_mask_laws
           [Examples.square 0 0 2; Examples.square 2 2 2] 4 4);
    [reflexivity | discriminate | discriminate].
Defined.

(** ** Masks to polygons *)

Lemma length_flatten_contour (contour : list (Z * Z)) :
  length (flatten_contour contour) = 2 * length contour.
Proof.
  unfold flatten_contour. rewrite length_map.
  induction contour as [| xy contour IH]; simpl; lia.
Qed.

Lemma contour_to_polygon_filter (contours : list (list (Z * Z))) :
  omap contour_to_polygon contours =
  map flatten_contour (filter (fun contour => 3 <= length contour) contours).
Proof.
  induction contours as [| contour contours IH]; [done |].
  rewrite filter_cons.
  change (omap contour_to_polygon (contour :: contours)) with
    (match contour_to_polygon contour with
     | Some polygon => polygon :: omap contour_to_polygon contours
     | None => omap contour_to_polygon contours
     end).
  rewrite IH. unfold contour_to_polygon. fold (flatten_contour contour).
  destruct (decide (length contour < 3)) as [Hlt | Hge].
  - by rewrite decide_False by lia.
  - rewrite (decide_True (P := 3 <= length contour)) by lia.
    rewrite decide_True by (rewrite length_flatten_contour; lia). done.
Qed.

(** X7: the polygons of a mask are the contours of three or more points, in
    the order in which OpenCV returns them, each flattened to
    x0, y0, x1, y1, ... as floats, so the test of line 109 never rejects a
    polygon; and whatever the mask, cv2.findContours receives a numpy array
    of dtype uint8 with entries from 0 to 255. *)
Theorem mask_to_polygons_contours `{L : Library} (mask : array) :
  mask_to_polygons mask =
    map flatten_contour
      (filter (fun contour => 3 <= length contour) (findContours (contour_input mask))) /\
  a_lib (contour_input mask) = Numpy /\
  a_dtype (contour_input mask) = uint8 /\
  Forall (fun z => (0 <= z < 256)%Z) (data (contour_input mask)).
Proof.
  split; [apply contour_to_polygon_filter |].
  unfold contour_input. split; [| split; [done |]].
  - destruct mask as [[] t s d]; simpl; repeat case_decide; done.
  - simpl. apply Forall_forall. intros z [z' [-> _]]%list_elem_of_fmap.
    by apply Z.mod_pos_bound.
Qed.

(** ** The configuration *)

(** X8: [from_config] is for training only.  With is_train = False it
    raises the AssertionError of [build_transform_gen], whatever the
    configuration; with an empty DATASETS.TRAIN it raises in either mode;
    when [build_transform_gen] has returned and DATASETS.TRAIN has a first
    name it returns; and a dictionary it returns has is_train True, the
    augmentations of [build_transform_gen], the metadata of the first
    training dataset, the image format of the configuration, and
    NUM_OBJECT_QUERIES - N_CTX as num_queries. *)
Theorem from_config_outcome (MetadataCatalog_get : string -> Metadata) (cfg : Config)
    (is_train : bool) :
  (is_train = false ->
   from_config MetadataCatalog_get cfg is_train =
     Raise (AssertionError "Only support training augmentation")) /\
  (DATASETS_TRAIN cfg = [] ->
   exists e, from_config MetadataCatalog_get cfg is_train = Raise e) /\
  (forall gens name rest,
     build_transform_gen (node cfg) is_train = Ok gens ->
     DATASETS_TRAIN cfg = name :: rest ->
     exists kwargs, from_config MetadataCatalog_get cfg is_train = Ok kwargs) /\
  (forall kwargs,
     from_config MetadataCatalog_get cfg is_train = Ok kwargs ->
     is_train = true /\ kw_is_train kwargs = true /\
     build_transform_gen (node cfg) true = Ok (kw_tfm_gens kwargs) /\
     (exists name rest, DATASETS_TRAIN cfg = name :: rest /\
                        kw_meta kwargs = MetadataCatalog_get name) /\
     kw_image_format kwargs = FORMAT (INPUT (node cfg)) /\
     kw_num_queries kwargs = (NUM_OBJECT_QUERIES cfg - N_CTX cfg)%Z).
Proof.
  unfold from_config. split; [by intros -> |]. split; [| split].
  - intros ->. destruct (build_transform_gen (node cfg) is_train); simpl; eauto.
  - intros gens name rest -> ->. simpl. eauto.
  - intros kwargs. destruct is_train; [| done].
    destruct (build_transform_gen (node cfg) true) as [gens |] eqn:Hgens; [| done].
    simpl. destruct (DATASETS_TRAIN cfg) as [| name rest]; simpl; [done |].
    intros [= <-]. simpl. repeat split; eauto.
Qed.

(** ** The text prompts *)

Lemma grouped_prompts (self : Mapper) (count : string -> nat) :
  Forall (class_prompt self)
    (flat_map (fun name => replicate (count name) (photo_with name)) (class_names self)).
Proof.
  apply Forall_forall. intros text Hin. apply list_elem_of_In, in_flat_map in Hin.
  destruct Hin as (name & Hname & Htext). apply list_elem_of_In in Hname, Htext.
  apply elem_of_replicate in Htext as [-> _]. by exists name.
Qed.

(** X9: whether or not class names repeat, for class ids within range
    [_get_texts] returns exactly [num_queries] strings, each of them
    "an instance photo" or "a photo with a {cls_name}" for one of the
    mapper's class names. *)
Theorem get_texts_entries (self : Mapper) (classes : list Z) :
  Forall (fun c => (0 <= c < Z.of_nat (length (class_names self)))%Z) classes ->
  exists texts,
    _get_texts self classes (zero_counters (class_names self)) = Ok texts /\
    length texts = num_queries self /\
    Forall (fun text => text = instance_photo \/ class_prompt self text) texts.
Proof.
  intros Hvalid.
  destruct (get_texts_run self classes Hvalid) as (texts & names & num & Hrun & _ & Hfilled).
  exists texts. split; [done |]. split; [by eapply filled_length |].
  destruct Hfilled as [-> _]. apply Forall_app. split.
  - apply Forall_take. eapply Forall_impl; [apply grouped_prompts |]. intros; by right.
  - apply Forall_forall. intros text [-> _]%elem_of_replicate. by left.
Qed.

Lemma get_texts_entries_witness :
  let self := __init__ true 3 [] (mk_meta [(1, 0); (2, 1)]%Z ["cat"; "cat"]) "RGB" in
  exists texts,
    _get_texts self [0%Z] (zero_counters (class_names self)) = Ok texts /\
    length texts = num_queries self /\
    Forall (fun text => text = instance_photo \/ class_prompt self text) texts.
Proof.
  intros self. apply (get_texts_entries self [0%Z]).
  repeat constructor; simpl; lia.
Defined.

(** X10: without instances [_get_texts] returns [num_queries] times
    "an instance photo". *)
Theorem get_texts_no_instances (self : Mapper) :
  _get_texts self [] (zero_counters (class_names self)) =
    Ok (replicate (num_queries self) instance_photo).
Proof.
  destruct (get_texts_run self [] (Forall_nil_2 _))
    as (texts & names & num & Hrun & Hnames & Hfilled).
  rewrite Hrun. f_equal. apply Forall2_nil_inv_l in Hnames as ->.
  destruct Hfilled as [-> _].
  rewrite (flat_map_ext_elem _ (fun _ => [])) by done.
  rewrite flat_map_const_nil.
  rewrite take_nil. simpl. f_equal. lia.
Qed.

Lemma occurrences_cons (key name : string) (names : list string) :
  occurrences key (name :: names) =
    (if decide (key = name) then 1 else 0) + occurrences key names.
Proof. unfold occurrences. rewrite filter_cons. by destruct (decide (key = name)). Qed.

Lemma occurrences_elem (key : string) (keys : list string) :
  key ∈ keys -> 0 < length (filter (fun k => k = key) keys).
Proof.
  induction 1 as [key keys | key k keys _ IH]; rewrite filter_cons.
  - rewrite decide_True by done. simpl. lia.
  - destruct (decide (k = key)); simpl; lia.
Qed.

(** Every instance gets a prompt of its own, also when class names repeat. *)
Lemma grouped_length {B} (f : string -> B) (keys names : list string) :
  (forall name, name ∈ names -> name ∈ keys) ->
  length names <=
    length (flat_map (fun key => replicate (occurrences key names) (f key)) keys).
Proof.
  induction names as [| name names IH]; intros Hin; [simpl; lia |].
  assert (Hstep : forall keys',
    length (flat_map (fun key => replicate (occurrences key (name :: names)) (f key)) keys') =
    length (filter (fun k => k = name) keys') +
    length (flat_map (fun key => replicate (occurrences key names) (f key)) keys')).
  { induction keys' as [| k keys' IH']; [done |].
    simpl. rewrite !length_app, IH', !length_replicate, occurrences_cons, filter_cons.
    destruct (decide (k = name)); simpl; lia. }
  rewrite Hstep. simpl.
  pose proof (occurrences_elem name keys (Hin name ltac:(left))).
  assert (length names <=
          length (flat_map (fun key => replicate (occurrences key names) (f key)) keys)).
  { apply IH. intros n Hn. apply Hin. by right. }
  lia.
Qed.

(** X11: with [num_queries] instances or more, the prompts beyond
    [num_queries] are dropped without notice: each of the [num_queries]
    strings returned names a class, none is "an instance photo". *)
Theorem get_texts_truncates (self : Mapper) (classes : list Z) :
  Forall (fun c => (0 <= c < Z.of_nat (length (class_names self)))%Z) classes ->
  num_queries self <= length classes ->
  exists texts,
    _get_texts self classes (zero_counters (class_names self)) = Ok texts /\
    length texts = num_queries self /\
    Forall (class_prompt self) texts /\
    instance_photo ∉ texts.
Proof.
  intros Hvalid Hmany.
  destruct (get_texts_run self classes Hvalid) as (texts & names & num & Hrun & Hnames & Hfilled).
  exists texts. split; [done |]. split; [by eapply filled_length |].
  assert (Hprompts : Forall (class_prompt self) texts).
  { destruct Hfilled as [-> _].
    pose proof (grouped_length photo_with (class_names self) names) as Hlen.
    pose proof (Forall2_length _ _ _ Hnames) as Hlen'.
    replace (num_queries self - _) with 0.
    - simpl. rewrite app_nil_r. apply Forall_take, grouped_prompts.
    - assert (length names <=
        length (flat_map (fun key => replicate (occurrences key names) (photo_with key))
                  (class_names self))); [| lia].
      apply Hlen. intros name [i Hi]%list_elem_of_lookup.
      destruct (Forall2_lookup_r _ _ _ _ _ Hnames Hi) as (c & _ & Hc).
      by eapply list_elem_of_lookup_2. }
  split; [done |]. intros Hin.
  rewrite Forall_forall in Hprompts. destruct (Hprompts _ Hin) as (name & _ & Heq).
  discriminate Heq.
Qed.

Lemma get_texts_truncates_witness :
  exists texts,
    _get_texts (Demo.mapper true) [1; 0; 1; 1; 0]%Z
      (zero_counters (class_names (Demo.mapper true))) = Ok texts /\
    length texts = num_queries (Demo.mapper true) /\
    Forall (class_prompt (Demo.mapper true)) texts /\
    instance_photo ∉ texts.
Proof.
  apply (get_texts_truncates (Demo.mapper true) [1; 0; 1; 1; 0]%Z).
  - repeat constructor; simpl; lia.
  - simpl. lia.
Defined.





Lemma count_classes_domain (class_names : list string) (classes : list Z)
    (d : gmap string Z) :
  Forall (fun c => (0 <= c < Z.of_nat (length class_names))%Z) classes ->
  match count_classes class_names classes d with
  | Ok d' => forall name, d' !! name = None <-> d !! name = None
  | Raise e => exists key, e = KeyError key /\ key ∈ class_names /\ d !! key = None
  end.
Proof.
  intros Hvalid. revert d. induction Hvalid as [| c classes Hc _ IH]; intros d; simpl; [done |].
  destruct (py_index_valid class_names c Hc) as (cls & -> & Hcls). simpl.
  apply list_elem_of_lookup_2 in Hcls.
  unfold getitem. destruct (d !! cls) as [n |] eqn:Hn; simpl; [| by exists cls].
  specialize (IH (<[cls := (n + 1)%Z]> d)).
  destruct (count_classes class_names classes _) as [d' | e].
  - intros name. rewrite IH, lookup_insert_None. split; [by intros [? _] |].
    intros Hnone. split; [done |]. intros ->. congruence.
  - destruct IH as (key & -> & Hkey & [Hnone _]%lookup_insert_None). by exists key.
Qed.

Lemma texts_loop_missing (names : list string) (d : gmap string Z) (name : string)
    texts num :
  name ∈ names -> d !! name = None ->
  exists key, texts_loop names d texts num = Raise (KeyError key) /\
              key ∈ names /\ d !! key = None.
Proof.
  intros Hin Hnone. revert texts num.
  induction names as [| cls names IH]; intros texts num; [by apply elem_of_nil in Hin |].
  simpl. unfold getitem. destruct (d !! cls) as [n |] eqn:Hn; simpl.
  - apply elem_of_cons in Hin as [-> | Hin]; [congruence |].
    destruct (IH Hin (if (0 <? n)%Z then fill_texts (Z.to_nat n) cls texts num
                      else (texts, num)).1
                     (if (0 <? n)%Z then fill_texts (Z.to_nat n) cls texts num
                      else (texts, num)).2) as (key & -> & Hkey & Hk).
    exists key. split; [done |]. split; [by right | done].
  - exists cls. split; [done |]. split; [left | done].
Qed.

(** X13: [_get_texts] needs a counter for every class name: when
    [num_class_obj] lacks one, it raises KeyError for a class name without a
    counter, whatever the class ids (within range) are. *)
Theorem get_texts_missing_counter (self : Mapper) (classes : list Z)
    (num_class_obj : gmap string Z) (cls_name : string) :
  Forall (fun c => (0 <= c < Z.of_nat (length (class_names self)))%Z) classes ->
  cls_name ∈ class_names self ->
  num_class_obj !! cls_name = None ->
  exists key,
    _get_texts self classes num_class_obj = Raise (KeyError key) /\
    key ∈ class_names self /\ num_class_obj !! key = None.
Proof.
  intros Hvalid Hin Hnone. unfold _get_texts.
  pose proof (count_classes_domain (class_names self) classes num_class_obj Hvalid) as Hdom.
  destruct (count_classes (class_names self) classes num_class_obj) as [d | e]; simpl.
  - destruct (texts_loop_missing (class_names self) d cls_name
                (replicate (num_queries self) instance_photo) 0 Hin)
      as (key & -> & Hkey & Hk); [by apply Hdom |].
    exists key. split; [done |]. split; [done |]. by apply Hdom.
  - destruct Hdom as (key & -> & Hkey & Hk). by exists key.
Qed.

Lemma get_texts_missing_counter_witness :
  exists key,
    _get_texts (Demo.mapper true) [0%Z] {["person" := 0%Z]} = Raise (KeyError key) /\
    key ∈ class_names (Demo.mapper true) /\
    ({["person" := 0%Z]} : gmap string Z) !! key = None.
Proof.
  apply (get_texts_missing_counter (Demo.mapper true) [0%Z] {["person" := 0%Z]} "car").
  - repeat constructor; simpl; lia.
  - simpl. right. left.
  - reflexivity.
Defined.

(** ** The mapper's [__call__]: where it stops *)

(** A loop stops at the first element on which its body raises. *)
Lemma mapM_M_raise {X B} (f : X -> M B) (before after : list X) (x : X) s ys s1 e s2 :
  mapM_M f before s = (Ok ys, s1) ->
  f x s1 = (Raise e, s2) ->
  mapM_M f (before ++ x :: after) s = (Raise e, s2).
Proof.
  revert s ys. induction before as [| b before IH]; intros s ys; simpl.
  - intros [= _ <-] Hx. by apply bind_raise.
  - unfold mbind, M_bind. destruct (f b s) as [[y | e'] s'] eqn:Hb; [| done].
    destruct (mapM_M f before s') as [[ys' | e'] s''] eqn:Hrest; [| done].
    intros [= _ <-] Hx. fold (@mapM_M X B f).
    by rewrite (IH _ _ Hrest Hx).
Qed.

Lemma seq_split (n i : nat) :
  i < n -> seq 0 n = seq 0 i ++ i :: seq (S i) (n - S i).
Proof.
  intros Hi. replace n with (i + S (n - S i)) at 1 by lia.
  by rewrite seq_app.
Qed.

Section Stops.
Context (L : Library).

Lemma new_annotation_at boxes (label_dict : gmap string (list Z)) labels
    (masks : list (list (list float))) i box label polygons :
  boxes !! i = Some box -> length box = 4 ->
  label_dict !! "labels" = Some labels -> labels !! i = Some label ->
  masks !! i = Some polygons ->
  new_annotation boxes label_dict masks i = Ok (annotation_of box label polygons).
Proof.
  intros Hbox Hfour Hlabels Hlabel Hpolygons.
  unfold new_annotation, list_getitem, getitem. rewrite Hbox, Hlabels. simpl.
  destruct box as [| x1 [| y1 [| x2 [| y2 [| ? ?]]]]]; try discriminate. simpl.
  by rewrite Hlabel, Hpolygons.
Qed.

(** The loop of lines 272-283 stops at the first index for which the
    dictionary cannot be built. *)
Lemma regenerate_annotations_raise masks boxes (label_dict : gmap string (list Z)) i e s :
  i < length masks ->
  (forall j, j < i ->
     exists anno, new_annotation boxes label_dict (binary_masks_to_polygons masks) j = Ok anno) ->
  new_annotation boxes label_dict (binary_masks_to_polygons masks) i = Raise e ->
  (regenerate_annotations masks boxes label_dict s).1 = Raise e.
Proof.
  intros Hi Hbefore Hat. destruct s as [R A T]. unfold regenerate_annotations.
  rewrite emit_run.
  assert (Hlen : length (binary_masks_to_polygons masks) = length masks)
    by apply length_map.
  rewrite Hlen, (seq_split _ i Hi).
  destruct (alloc_loop_run
              (new_annotation boxes label_dict (binary_masks_to_polygons masks))
              (seq 0 i) A) as (locs & A' & Hrun & _).
  { intros j Hj%elem_of_seq. apply Hbefore. lia. }
  erewrite mapM_M_raise; [done | apply Hrun |].
  unfold lift, mbind, M_bind. by rewrite Hat.
Qed.

(** X14: when the copy-paste augmentation returns fewer boxes than masks,
    the loop of lines 272-283 raises IndexError at the first mask without a
    box. *)
Theorem regenerate_annotations_short_boxes (masks : list array)
    (boxes : list (list float)) (label_dict : gmap string (list Z)) (labels : list Z)
    (s : state) :
  length boxes < length masks ->
  Forall (fun box => length box = 4) boxes ->
  label_dict !! "labels" = Some labels ->
  length boxes <= length labels ->
  exists msg, (regenerate_annotations masks boxes label_dict s).1 = Raise (IndexError msg).
Proof.
  intros Hshort Hfour Hlabels Hlen. eexists.
  apply (regenerate_annotations_raise masks boxes label_dict (length boxes)); [done | |].
  - intros j Hj.
    destruct (lookup_lt_is_Some_2 boxes j) as [box Hbox]; [lia |].
    destruct (lookup_lt_is_Some_2 labels j) as [label Hlabel]; [lia |].
    destruct (lookup_lt_is_Some_2 (binary_masks_to_polygons masks) j) as [polygons Hp].
    { unfold binary_masks_to_polygons. rewrite length_map. lia. }
    eexists. eapply new_annotation_at; try done.
    rewrite Forall_forall in Hfour. apply Hfour. by eapply list_elem_of_lookup_2.
  - unfold new_annotation, list_getitem. rewrite (lookup_ge_None_2 boxes) by lia. reflexivity.
Qed.

Lemma unpack4_other {A} (box : list A) :
  length box <> 4 -> exists msg, unpack4 box = Raise (ValueError msg).
Proof.
  intros Hbad. unfold unpack4.
  destruct box as [| x1 [| y1 [| x2 [| y2 [| ? ?]]]]]; try done;
    case_decide; eauto.
Qed.

(** X15: a box that does not have exactly four coordinates makes the
    unpacking of line 273 raise ValueError, the boxes before it being of four
    coordinates. *)
Theorem regenerate_annotations_bad_box (masks : list array)
    (boxes : list (list float)) (label_dict : gmap string (list Z)) (labels : list Z)
    (s : state) (i : nat) (box : list float) :
  i < length masks ->
  boxes !! i = Some box ->
  length box <> 4 ->
  Forall (fun box => length box = 4) (take i boxes) ->
  label_dict !! "labels" = Some labels ->
  i <= length labels ->
  exists msg, (regenerate_annotations masks boxes label_dict s).1 = Raise (ValueError msg).
Proof.
  intros Hi Hbox Hbad Hfour Hlabels Hlen.
  destruct (unpack4_other box Hbad) as [msg Hmsg]. exists msg.
  apply (regenerate_annotations_raise masks boxes label_dict i); [done | |].
  - intros j Hj.
    destruct (lookup_lt_is_Some_2 boxes j) as [box' Hbox'].
    { apply lookup_lt_Some in Hbox. lia. }
    destruct (lookup_lt_is_Some_2 labels j) as [label Hlabel]; [lia |].
    destruct (lookup_lt_is_Some_2 (binary_masks_to_polygons masks) j) as [polygons Hp].
    { unfold binary_masks_to_polygons. rewrite length_map. lia. }
    eexists. eapply new_annotation_at; try done.
    rewrite Forall_forall in Hfour. apply Hfour.
    apply (list_elem_of_lookup_2 _ j). by rewrite lookup_take_lt.
  - unfold new_annotation, list_getitem. rewrite Hbox. simpl. by rewrite Hmsg.
Qed.

End Stops.

Lemma regenerate_annotations_short_boxes_witness :
  let mask := mk_array Torch bool_ [4; 4] [1; 1; 0; 0; 1; 1; 0; 0; 0; 0; 0; 0; 0; 0; 0; 0]%Z in
  let box := map float_of_Z [0; 0; 2; 2]%Z in
  exists msg,
    (regenerate_annotations (L := Demo.library) [mask; mask] [box] {["labels" := [1; 1]%Z]}
       Examples.store).1 = Raise (IndexError msg).
Proof.
  intros mask box.
  apply (regenerate_annotations_short_boxes Demo.library [mask; mask] [box]
           {["labels" := [1; 1]%Z]} [1; 1]%Z Examples.store).
  - simpl. lia.
  - repeat constructor.
  - reflexivity.
  - simpl. lia.
Defined.

Lemma regenerate_annotations_bad_box_witness :
  let mask := mk_array Torch bool_ [4; 4] [1; 1; 0; 0; 1; 1; 0; 0; 0; 0; 0; 0; 0; 0; 0; 0]%Z in
  let box := map float_of_Z [0; 0; 2]%Z in
  exists msg,
    (regenerate_annotations (L := Demo.library) [mask] [box] {["labels" := [1%Z]]}
       Examples.store).1 = Raise (ValueError msg).
Proof.
  intros mask box.
  apply (regenerate_annotations_bad_box Demo.library [mask] [box]
           {["labels" := [1%Z]]} [1%Z] Examples.store 0 box).
  - simpl. lia.
  - reflexivity.
  - simpl. lia.
  - constructor.
  - reflexivity.
  - simpl. lia.
Defined.

Lemma fmap_raise {A B} (f : A -> B) (m : M A) s e s1 :
  m s = (Raise e, s1) -> (f <$> m) s = (Raise e, s1).
Proof. intros Hm. unfold fmap, M_fmap. by rewrite Hm. Qed.

Section Missing.
Context (L : Library) (HM : MaskLaws L) (HI : ImageLaws L) (HS : SizeLaws L).

(** X16: when an annotation of the record has no "segmentation" key, those
    before it being readable, [__call__] raises KeyError "segmentation"
    (line 260). *)
Theorem call_missing_segmentation (self : Mapper) (dataset_dict : loc) (s : state)
    (rec : gmap string value) (before after : list loc) (a : loc)
    (anno : gmap string pyval) :
  use_big_copy_paste self = true ->
  records s !! dataset_dict = Some rec ->
  is_Some (rec !! "file_name") ->
  rec !! "annotations" = Some (VAnnotations (before ++ a :: after)) ->
  Forall (fun b => exists anno, annotations s !! b = Some anno /\ readable anno) before ->
  annotations s !! a = Some anno ->
  anno !! "segmentation" = None ->
  (__call__ self dataset_dict s).1 = Raise (KeyError "segmentation").
Proof.
  destruct s as [R A T]. simpl.
  intros Hbig Hl [file_name Hfile] Hannos Hbefore Ha Hseg.
  destruct (deepcopy_run dataset_dict R A rec Hl) as (d & memo & A0 & Hcopy & Hd & Hext & Hmemo).
  set (rec0 := rename memo <$> rec).
  set (to := fun a => default a (memo !! a)).
  assert (Hannos0 : rec0 !! "annotations" =
                    Some (VAnnotations (map to before ++ to a :: map to after))).
  { unfold rec0. rewrite lookup_fmap, Hannos. simpl. by rewrite map_app. }
  set (image := read_image (rename memo file_name) (img_format self)).
  destruct (read_image_shape (rename memo file_name) (img_format self)) as (h & w & c & Himage).
  fold image in Himage.
  set (body := fun anno : loc =>
       segmentation ← annotation_getitem anno "segmentation";
       height ← lift (list_getitem (shape image) 0);
       width ← lift (list_getitem (shape image) 1);
       emit (Call "convert_coco_poly_to_mask_");;
       segmentations ← lift (py_iter segmentation);
       lift (convert_coco_poly_to_mask_ segmentations height width)).
  destruct (mapM_readonly body [Call "convert_coco_poly_to_mask_"] A0 (map to before))
    as (masks & Hmasks & _).
  { apply Forall_fmap, Forall_forall. intros b Hin. simpl.
    rewrite Forall_forall in Hbefore.
    destruct (Hbefore b Hin) as (anno' & Hb & (seg & segs & Hseg' & Hiter & Hacc) & _ & _).
    destruct (Hmemo "annotations" _ b anno' Hannos) as (b' & Hb' & HA');
      [apply elem_of_app; by left | done |].
    destruct (convert_coco_poly_to_mask__total segs h w Hacc) as [mask Hmask].
    exists mask. intros R' T'. unfold body, to. rewrite Hb'. simpl.
    rewrite (bind_run _ _ _ _ _ (annotation_getitem_run b' _ R' A0 T' anno' seg HA' Hseg')).
    rewrite Himage. unfold lift, emit, mbind, M_bind. simpl. by rewrite Hiter, Hmask. }
  destruct (Hmemo "annotations" _ a anno Hannos) as (a' & Ha' & HA');
    [apply elem_of_app; right; left | done |].
  unfold __call__. erewrite bind_raise; [done |]. unfold prepare.
  rewrite (bind_run _ _ _ _ _ (Hcopy T)).
  rewrite (bind_run _ _ _ _ _
             (record_getitem_run d "file_name" _ A0 T rec0 (rename memo file_name)
                (lookup_insert_eq _ _ _) ltac:(unfold rec0; by rewrite lookup_fmap, Hfile))).
  rewrite !emit_run.
  erewrite bind_run by (apply read_record_run, lookup_insert_eq).
  rewrite write_record_run, insert_insert_eq.
  erewrite bind_run.
  2: { eapply get_annotations_run; [apply lookup_insert_eq |].
       rewrite check_image_size_frame by done. exact Hannos0. }
  rewrite Hbig. rewrite bool_decide_true by (rewrite length_app; simpl; lia).
  simpl andb. cbv iota.
  apply bind_raise, fmap_raise. unfold collect. apply bind_raise.
  fold image body.
  eapply mapM_M_raise; [apply Hmasks |].
  unfold body, to. rewrite Ha'. simpl.
  apply bind_raise. unfold annotation_getitem, read_annotation, lift, getitem, mbind, M_bind.
  simpl. by rewrite HA', Hseg.
Qed.

End Missing.

Lemma call_missing_segmentation_witness :
  let anno : gmap string pyval := <["category_id" := PyInt 1]> ∅ in
  (__call__ (L := Demo.library) (Demo.mapper true) 0
     (mk_state {[ 0 := Examples.record [0] ]} {[ 0 := anno ]} [])).1 =
    Raise (KeyError "segmentation").
Proof.
  intros anno.
  apply (call_missing_segmentation Demo.library demo_mask_laws demo_image_laws
           demo_size_laws (Demo.mapper true) 0
           (mk_state {[ 0 := Examples.record [0] ]} {[ 0 := anno ]} [])
           (Examples.record [0]) [] [] 0 anno).
  - reflexivity.
  - reflexivity.
  - by eexists.
  - reflexivity.
  - constructor.
  - reflexivity.
  - reflexivity.
Defined.

(** ** The mapper's [__call__]: what is returned *)

Section Returned.
Context `{L : Library} (s0 : state).

Lemma triple_step {A B} (P : state -> Prop) (m : M A) (k : A -> M B) Q :
  quiet m -> on_records P -> (forall a, triple s0 P (k a) Q) -> triple s0 P (m ≫= k) Q.
Proof.
  intros Hm HP Hk. eapply triple_bind; [by apply triple_quiet | exact Hk].
Qed.

Lemma triple_ret {A} (P : state -> Prop) (a : A) (Q : A -> state -> Prop) :
  (forall s, P s -> Q a s) -> triple s0 P (mret a) Q.
Proof. intros HQ s Hf HP. split; [done |]. intros a' [= <-]. by apply HQ. Qed.

Lemma call_returned_triple (self : Mapper) (dataset_dict : loc) :
  triple s0 (fun _ => True) (__call__ self dataset_dict) (fun d _ => fresh_record s0 d).
Proof.
  unfold __call__.
  eapply triple_bind; [apply prepare_triple | intros [[d tfms] image_shape]]. simpl.
  eapply triple_consequence with
    (P' := fun s => fresh_record s0 d /\ owns_annotations s0 d s)
    (Q' := fun d' _ => fresh_record s0 d'); [| done | done].
  apply triple_pure. intros Hd.
  destruct (negb (is_train self)).
  - eapply triple_bind; [by apply record_pop_triple | intros ?].
    by apply triple_ret.
  - eapply triple_bind; [by apply build_instances_triple | intros instances].
    apply triple_step; [apply quiet_local | apply on_records_True | intros ?].
    apply triple_step; [apply quiet_attribute | apply on_records_True | intros ?].
    apply triple_step; [apply quiet_emit | apply on_records_True | intros ?].
    apply triple_step; [apply quiet_lift | apply on_records_True | intros ?].
    do 5 (eapply triple_bind; [by apply record_setitem_triple | intros ?]).
    by apply triple_ret.
Qed.

End Returned.

(** X17: the dictionary that [__call__] returns is never an object that
    existed before the call, so it is not the one it was given. *)
Theorem call_returns_new_record (L : Library) (self : Mapper) (dataset_dict : loc)
    (s : state) (d : loc) :
  (__call__ self dataset_dict s).1 = Ok d ->
  records s !! d = None /\
  (is_Some (records s !! dataset_dict) -> d <> dataset_dict).
Proof.
  intros Hd.
  destruct (call_returned_triple s self dataset_dict s (frame_refl s) I) as [_ Hfresh].
  specialize (Hfresh d Hd). unfold fresh_record in Hfresh.
  split; [done |]. intros [rec Hrec] ->. congruence.
Qed.

Lemma call_returns_new_record_witness :
  records Examples.store !! 1 = None /\
  (is_Some (records Examples.store !! 0) -> 1 <> 0).
Proof.
  apply (call_returns_new_record Demo.library (Demo.mapper true) 0 Examples.store 1).
  vm_compute. reflexivity.
Defined.

(** X18: for a record without a "file_name" key, [__call__] raises
    KeyError "file_name" (line 255), whatever else the record holds. *)
Theorem call_missing_file_name (L : Library) (self : Mapper) (dataset_dict : loc)
    (s : state) (rec : gmap string value) :
  records s !! dataset_dict = Some rec ->
  rec !! "file_name" = None ->
  (__call__ self dataset_dict s).1 = Raise (KeyError "file_name").
Proof.
  destruct s as [R A T]. simpl. intros Hl Hfile.
  destruct (deepcopy_run dataset_dict R A rec Hl) as (d & memo & A0 & Hcopy & _).
  unfold __call__, prepare.
  erewrite bind_raise; [done |]. rewrite (bind_run _ _ _ _ _ (Hcopy T)).
  apply bind_raise. unfold record_getitem.
  erewrite bind_run by apply read_record_run, lookup_insert_eq.
  unfold lift, getitem. by rewrite lookup_fmap, Hfile.
Qed.

Lemma call_missing_file_name_witness :
  let rec : gmap string value := <["annotations" := VAnnotations [0]]> ∅ in
  (__call__ (L := Demo.library) (Demo.mapper true) 0
     (mk_state {[ 0 := rec ]} (annotations Examples.store) [])).1 =
    Raise (KeyError "file_name").
Proof.
  intros rec.
  apply (call_missing_file_name Demo.library (Demo.mapper true) 0
           (mk_state {[ 0 := rec ]} (annotations Examples.store) []) rec);
    reflexivity.
Defined.

(** ** The mapper's [__call__]: the returned dictionary, key by key *)

Lemma rename_other (memo : gmap loc loc) (v : option value) :
  (forall annos, v <> Some (VAnnotations annos)) -> rename memo <$> v = v.
Proof. destruct v as [[| annos |] |]; try done. intros Hv. by destruct (Hv annos). Qed.

Section Outcomes.
Context (L : Library) (HM : MaskLaws L) (HI : ImageLaws L) (HS : SizeLaws L)
  (HN : InstancesLaws L).

(** X19: with is_train false, every key other than "image", "padding_mask",
    "annotations", "width" and "height" is in the returned dictionary exactly
    when it is in the given record, and with the same value (a list of
    annotation objects under another key apart, which [deepcopy] copies). *)
Theorem call_inference_other_keys (self : Mapper) (dataset_dict : loc) (s : state)
    (rec : gmap string value) :
  is_train self = false ->
  use_big_copy_paste self = true ->
  records s !! dataset_dict = Some rec ->
  processable (annotations s) rec ->
  exists d s' out,
    __call__ self dataset_dict s = (Ok d, s') /\
    records s' !! d = Some out /\
    forall key,
      key ∉ ["image"; "padding_mask"; "annotations"; "width"; "height"] ->
      (forall annos, rec !! key <> Some (VAnnotations annos)) ->
      out !! key = rec !! key.
Proof.
  destruct s as [R A T]. simpl. intros Htrain Hbig Hl Hrec.
  destruct (prepare_outcome self dataset_dict R A rec Hbig Hl Hrec)
    as (d & tfms & memo & rec1 & A1 & annos & new & img & pad & h & w & c &
        image & masks & boxes & labels_in & labels_out &
        Hprep & _ & _ & _ & _ & _ & _ & _ & _ & _ & _ & _ & _ & _ & _ & _ & Hkeys).
  exists d, (mk_state (<[d := delete "annotations" rec1]> R) A1
               ((T ++ prepare_trace (length annos)) ++ [Pop "annotations"])),
    (delete "annotations" rec1).
  split.
  { unfold __call__. rewrite (bind_run _ _ _ _ _ (Hprep T)). cbn [fst snd].
    rewrite Htrain. cbn [negb].
    erewrite record_pop_step by apply lookup_insert_eq. by rewrite insert_insert_eq. }
  split; [apply lookup_insert_eq |].
  intros key Hkey Hother.
  rewrite !not_elem_of_cons in Hkey. destruct Hkey as (? & ? & ? & ? & ? & _).
  rewrite lookup_delete_ne by done. rewrite Hkeys by done. by apply rename_other.
Qed.

Lemma call_training_outcome (self : Mapper)
    {HB : LabelLaws L (length (class_names self))} l R A T rec :
  is_train self = true ->
  use_big_copy_paste self = true ->
  R !! l = Some rec ->
  processable A rec ->
  classes_within (length (class_names self)) A rec ->
  exists d s' memo rec1 instances classes texts img pad h w c,
    __call__ self l (mk_state R A T) = (Ok d, s') /\
    records s' !! d =
      Some (<["thing_ids" := VPy (PyList (map PyInt (things self)))]>
            (<["text" := VPy (PyList (map PyStr texts))]>
            (<["task" := VPy (PyStr "The task is instance")]>
            (<["orig_shape" := VPy (PyTuple [PyInt (Z.of_nat h); PyInt (Z.of_nat w)])]>
            (<["instances" := VInstances instances]>
            (delete "annotations" rec1)))))) /\
    gt_classes instances = Some classes /\
    Forall (fun c => (0 <= c < Z.of_nat (length (class_names self)))%Z) classes /\
    _get_texts self classes (zero_counters (class_names self)) = Ok texts /\
    rec1 !! "image" = Some (VPy (PyArray img)) /\
    a_lib img = Torch /\ shape img = [c; h; w] /\
    rec1 !! "padding_mask" = Some (VPy (PyArray pad)) /\
    a_lib pad = Torch /\ a_dtype pad = bool_ /\
    (forall key, key <> "image" -> key <> "padding_mask" -> key <> "annotations" ->
                 key <> "width" -> key <> "height" ->
                 rec1 !! key = rename memo <$> rec !! key).
Proof.
  intros Htrain Hbig Hl Hrec Hwithin.
  destruct (prepare_outcome self l R A rec Hbig Hl Hrec)
    as (d & tfms & memo & rec1 & A1 & annos & new & img & pad & h & w & c &
        image & masks & boxes & labels_in & labels_out &
        Hprep & Hannos & Hd & _ & Himg & Htorch & Hshape & Hpad & Htorch' & Hbool &
        Hnew & Hne & Hnd & Hlin & Hlout & Hcrowd & Hkeys).
  pose proof (pasted_labels_within A rec annos image masks boxes labels_in labels_out
                Hwithin Hannos Hlin Hlout) as Hrange.
  destruct (build_instances_run
              (fun c => (0 <= c < Z.of_nat (length (class_names self)))%Z)
              d tfms [h; w] (<[d := rec1]> R) A1 rec1 new
              (lookup_insert_eq _ _ _) Hnew Hne Hnd)
    as (instances & classes & A2 & mid & Hbuild & Hclasses & Hvalid).
  { eapply Forall_impl; [exact Hcrowd |]. simpl.
    intros a (anno & label & HA & Hc & Hcat & Hlabel). exists anno, label.
    rewrite Forall_forall in Hrange. auto. }
  destruct (get_texts_run self classes Hvalid) as (texts & names & num & Htexts & _ & _).
  eexists d, _, memo, rec1, instances, classes, texts, img, pad, h, w, c.
  split.
  { unfold __call__. rewrite (bind_run _ _ _ _ _ (Hprep T)). cbn [fst snd].
    rewrite Htrain. cbn [negb].
    rewrite (bind_run _ _ _ _ _ (Hbuild _)). rewrite insert_insert_eq.
    rewrite local_run. rewrite Hclasses, attribute_run. rewrite emit_run.
    erewrite lift_run by exact Htexts.
    do 5 (erewrite record_setitem_step by apply lookup_insert_eq;
          rewrite insert_insert_eq).
    reflexivity. }
  split; [apply lookup_insert_eq |]. done.
Qed.

(** X20: in training mode, for a record whose categories index the class
    names, the returned dictionary holds, under "instances", the instances
    that were built, whose classes index the class names, under "text" the
    [num_queries] prompts that [_get_texts] makes of these classes, under
    "task" the string "The task is instance" and under "thing_ids" the
    mapper's [things]. *)
Theorem call_training_entries (self : Mapper)
    (HB : LabelLaws L (length (class_names self))) (dataset_dict : loc) (s : state)
    (rec : gmap string value) :
  is_train self = true ->
  use_big_copy_paste self = true ->
  records s !! dataset_dict = Some rec ->
  processable (annotations s) rec ->
  classes_within (length (class_names self)) (annotations s) rec ->
  exists d s' out instances classes texts,
    __call__ self dataset_dict s = (Ok d, s') /\
    records s' !! d = Some out /\
    out !! "instances" = Some (VInstances instances) /\
    gt_classes instances = Some classes /\
    Forall (fun c => (0 <= c < Z.of_nat (length (class_names self)))%Z) classes /\
    _get_texts self classes (zero_counters (class_names self)) = Ok texts /\
    out !! "text" = Some (VPy (PyList (map PyStr texts))) /\
    length texts = num_queries self /\
    out !! "task" = Some (VPy (PyStr "The task is instance")) /\
    out !! "thing_ids" = Some (VPy (PyList (map PyInt (things self)))).
Proof.
  destruct s as [R A T]. simpl. intros Htrain Hbig Hl Hrec Hwithin.
  destruct (call_training_outcome self dataset_dict R A T rec Htrain Hbig Hl Hrec Hwithin)
    as (d & s' & memo & rec1 & instances & classes & texts & img & pad & h & w & c &
        Hrun & Hout & Hclasses & Hvalid & Htexts & _).
  exists d, s'. eexists. exists instances, classes, texts.
  split; [done |]. split; [exact Hout |].
  split; [by simplify_map_eq |]. split; [done |]. split; [done |]. split; [done |].
  split; [by simplify_map_eq |].
  split.
  { destruct (get_texts_run self classes Hvalid) as (texts' & names & num & Hrun' & _ & Hf).
    assert (texts' = texts) as -> by congruence. by eapply filled_length. }
  split; by simplify_map_eq.
Qed.

(** X21: in training mode, for a record whose categories index the class
    names, the returned "image" is a tensor of shape
    (channels, height, width), "orig_shape" is that (height, width) and
    "padding_mask" is a boolean tensor; the key "annotations" is gone; and
    every key other than those that [__call__] writes is in the returned
    dictionary exactly when it is in the given record, and with the same
    value (a list of annotation objects under another key apart). *)
Theorem call_training_shape_and_keys (self : Mapper)
    (HB : LabelLaws L (length (class_names self))) (dataset_dict : loc) (s : state)
    (rec : gmap string value) :
  is_train self = true ->
  use_big_copy_paste self = true ->
  records s !! dataset_dict = Some rec ->
  processable (annotations s) rec ->
  classes_within (length (class_names self)) (annotations s) rec ->
  exists d s' out img pad h w c,
    __call__ self dataset_dict s = (Ok d, s') /\
    records s' !! d = Some out /\
    out !! "image" = Some (VPy (PyArray img)) /\
    a_lib img = Torch /\ shape img = [c; h; w] /\
    out !! "orig_shape" = Some (VPy (PyTuple [PyInt (Z.of_nat h); PyInt (Z.of_nat w)])) /\
    out !! "padding_mask" = Some (VPy (PyArray pad)) /\
    a_lib pad = Torch /\ a_dtype pad = bool_ /\
    out !! "annotations" = None /\
    forall key,
      key ∉ ["image"; "padding_mask"; "annotations"; "width"; "height";
             "instances"; "orig_shape"; "task"; "text"; "thing_ids"] ->
      (forall annos, rec !! key <> Some (VAnnotations annos)) ->
      out !! key = rec !! key.
Proof.
  destruct s as [R A T]. simpl. intros Htrain Hbig Hl Hrec Hwithin.
  destruct (call_training_outcome self dataset_dict R A T rec Htrain Hbig Hl Hrec Hwithin)
    as (d & s' & memo & rec1 & instances & classes & texts & img & pad & h & w & c &
        Hrun & Hout & _ & _ & _ & Himg & Htorch & Hshape & Hpad & Htorch' & Hbool & Hkeys).
  exists d, s'. eexists. exists img, pad, h, w, c.
  split; [done |]. split; [exact Hout |].
  split; [by simplify_map_eq |]. split; [done |]. split; [done |].
  split; [by simplify_map_eq |].
  split; [by simplify_map_eq |]. split; [done |]. split; [done |].
  split; [by simplify_map_eq |].
  intros key Hkey Hother.
  rewrite !not_elem_of_cons in Hkey.
  destruct Hkey as (? & ? & ? & ? & ? & ? & ? & ? & ? & ? & _).
  rewrite !lookup_insert_ne, lookup_delete_ne by done.
  rewrite Hkeys by done. by apply rename_other.
Qed.

End Outcomes.

Lemma demo_task_store_processable :
  processable (annotations Examples.task_store)
    (<["task" := VPy (PyStr "mine")]> (Examples.record [0])).
Proof.
  split; [by eexists |].
  exists [0], [Examples.annotation (PyList [Examples.square 0 0 2]) 1].
  split; [reflexivity |]. split; [done |].
  constructor; [| constructor]. split; [reflexivity |].
  split; [| split; by eexists].
  exists (PyList [Examples.square 0 0 2]), [Examples.square 0 0 2].
  split; [reflexivity |]. split; reflexivity.
Qed.

Lemma call_inference_other_keys_witness :
  let rec := <["task" := VPy (PyStr "mine")]> (Examples.record [0]) in
  exists d s' out,
    __call__ (L := Demo.library) (Demo.mapper false) 0 Examples.task_store = (Ok d, s') /\
    records s' !! d = Some out /\
    forall key,
      key ∉ ["image"; "padding_mask"; "annotations"; "width"; "height"] ->
      (forall annos, rec !! key <> Some (VAnnotations annos)) ->
      out !! key = rec !! key.
Proof.
  intros rec.
  apply (call_inference_other_keys Demo.library demo_mask_laws demo_image_laws
           demo_size_laws (Demo.mapper false) 0 Examples.task_store rec).
  - reflexivity.
  - reflexivity.
  - reflexivity.
  - exact demo_task_store_processable.
Defined.

Lemma call_training_entries_witness :
  exists d s' out instances classes texts,
    __call__ (L := Demo.library) (Demo.mapper true) 0 Examples.store = (Ok d, s') /\
    records s' !! d = Some out /\
    out !! "instances" = Some (VInstances instances) /\
    gt_classes instances = Some classes /\
    Forall (fun c => (0 <= c < Z.of_nat (length (class_names (Demo.mapper true))))%Z)
      classes /\
    _get_texts (Demo.mapper true) classes
      (zero_counters (class_names (Demo.mapper true))) = Ok texts /\
    out !! "text" = Some (VPy (PyList (map PyStr texts))) /\
    length texts = num_queries (Demo.mapper true) /\
    out !! "task" = Some (VPy (PyStr "The task is instance")) /\
    out !! "thing_ids" = Some (VPy (PyList (map PyInt (things (Demo.mapper true))))).
Proof.
  apply (call_training_entries Demo.library demo_mask_laws demo_image_laws
           demo_size_laws demo_instances_laws (Demo.mapper true) demo_label_laws
           0 Examples.store (Examples.record [0])).
  - reflexivity.
  - reflexivity.
  - reflexivity.
  - exact demo_store_processable.
  - exact demo_store_within.
Defined.

Lemma call_training_shape_and_keys_witness :
  exists d s' out img pad h w c,
    __call__ (L := Demo.library) (Demo.mapper true) 0 Examples.store = (Ok d, s') /\
    records s' !! d = Some out /\
    out !! "image" = Some (VPy (PyArray img)) /\
    a_lib img = Torch /\ shape img = [c; h; w] /\
    out !! "orig_shape" = Some (VPy (PyTuple [PyInt (Z.of_nat h); PyInt (Z.of_nat w)])) /\
    out !! "padding_mask" = Some (VPy (PyArray pad)) /\
    a_lib pad = Torch /\ a_dtype pad = bool_ /\
    out !! "annotations" = None /\
    forall key,
      key ∉ ["image"; "padding_mask"; "annotations"; "width"; "height";
             "instances"; "orig_shape"; "task"; "text"; "thing_ids"] ->
      (forall annos, Examples.record [0] !! key <> Some (VAnnotations annos)) ->
      out !! key = Examples.record [0] !! key.
Proof.
  apply (call_training_shape_and_keys Demo.library demo_mask_laws demo_image_laws
           demo_size_laws demo_instances_laws (Demo.mapper true) demo_label_laws
           0 Examples.store (Examples.record [0])).
  - reflexivity.
  - reflexivity.
  - reflexivity.
  - exact demo_store_processable.
  - exact demo_store_within.
Defined.
